(** * HistFitter [Sample]: systematic-uncertainty reconciliation

    A shallow embedding of [python/sample.py] and the properties of its
    systematic bookkeeping ([addOverallSys], [addHistoSys], [addShapeSys],
    the envelope and normalisation helpers, histogram and tree naming).

    Conventions of the embedding.
    - Python floats are idealised as exact rationals ([Q]); the comparisons
      [==], [<], [>] of the source are [Qeq_bool], [Qltb], and the source's
      decimal literals ([2.0], [0.01], [1E-5]) are written as they stand.
      Float division by zero raises, as in Python.
    - A method is a state transformer over the world it can touch (the
      [configMgr] singleton and [self]) whose outcome is normal completion,
      an early [return], or a raised exception.  State changes made before
      a raise are kept, as in Python.
    - Logging calls have no effect on the state and are dropped, except
      that their arguments are still evaluated where that evaluation can
      fail. *)

From Stdlib Require Import QArith Qabs Qminmax Lqa.
From Stdlib Require Import Ascii.
From stdpp Require Import base strings gmap list.

Local Open Scope Q_scope.

(** ** Python exceptions and outcomes *)

Inductive PyExc : Type :=
| ZeroDivisionError
| NameError (name : string)
| IndexError
| ValueError (msg : string)
| RuntimeError (msg : string)
| KeyError (key : string)
| AttributeError
| FatalError (msg : string).

(** The outcome of running a block of statements: it falls through with a
    value, executes a [return], or raises. *)
Inductive Outcome (R A : Type) : Type :=
| Normal (a : A)
| Return (r : R)
| Raise (e : PyExc).
Arguments Normal {R A} a.
Arguments Return {R A} r.
Arguments Raise {R A} e.

Definition Proc (S R A : Type) : Type := S -> Outcome R A * S.

Section Monad.
Context {S R : Type}.

Definition ret {A} (a : A) : Proc S R A := fun s => (Normal a, s).

Definition bind {A B} (m : Proc S R A) (k : A -> Proc S R B) : Proc S R B :=
  fun s =>
    match m s with
    | (Normal a, s') => k a s'
    | (Return r, s') => (Return r, s')
    | (Raise e, s') => (Raise e, s')
    end.

Definition return_ {A} (r : R) : Proc S R A := fun s => (Return r, s).
Definition raise {A} (e : PyExc) : Proc S R A := fun s => (Raise e, s).
Definition gets {A} (f : S -> A) : Proc S R A := fun s => (Normal (f s), s).
Definition modify (f : S -> S) : Proc S R unit := fun s => (Normal tt, f s).

(** [if b: body] with no [else]. *)
Definition when (b : bool) (body : Proc S R unit) : Proc S R unit :=
  if b then body else ret tt.

(** [try: body / except ZeroDivisionError: handler]. *)
Definition try_ZeroDivisionError {A} (body handler : Proc S R A) : Proc S R A :=
  fun s =>
    match body s with
    | (Raise ZeroDivisionError, s') => handler s'
    | r => r
    end.

(** [try: body / except AttributeError: handler]. *)
Definition try_AttributeError {A} (body handler : Proc S R A) : Proc S R A :=
  fun s =>
    match body s with
    | (Raise AttributeError, s') => handler s'
    | r => r
    end.

(** [for x in xs: body x]. *)
Fixpoint for_ {A} (xs : list A) (body : A -> Proc S R unit) : Proc S R unit :=
  match xs with
  | [] => ret tt
  | x :: xs' => bind (body x) (fun _ => for_ xs' body)
  end.
End Monad.

(** A function call: a [return] inside the body ends the call, not the
    caller; falling off the end yields the body's value. *)
Definition call {S R R'} (body : Proc S R R) : Proc S R' R :=
  fun s =>
    match body s with
    | (Normal a, s') => (Normal a, s')
    | (Return r, s') => (Normal r, s')
    | (Raise e, s') => (Raise e, s')
    end.

(** Modelled from the spec: [log.fatal] of the [Logger] collaborator, whose
    code is not part of this repository; a fatal configuration error aborts
    the process with its diagnostic. *)
Definition log_fatal {S R A} (msg : string) : Proc S R A :=
  fun s => (Raise (FatalError msg), s).

Declare Scope proc_scope.
Delimit Scope proc_scope with proc.
Notation "x ← y ; z" := (bind y (fun x : _ => z))
  (at level 20, y at level 100, z at level 200, only parsing) : proc_scope.
Notation "x ;; z" := (bind x (fun _ => z))
  (at level 100, z at level 200, only parsing, right associativity) : proc_scope.
Local Open Scope proc_scope.

(** ** Numbers *)

Definition Qltb (a b : Q) : bool := negb (Qle_bool b a).

(** Python's [a / b] on floats. *)
Definition py_div {S R} (a b : Q) : Proc S R Q :=
  if Qeq_bool b 0 then raise ZeroDivisionError else ret (a / b).

(** [fabs] and [abs] on floats. *)
Definition fabs (x : Q) : Q := Qabs x.

(** ** Names

    The module's global names, from its [import] lines and top-level
    definitions.  A name that is neither local nor global (nor a builtin,
    which none of the names looked up below is) raises [NameError]. *)

Definition module_globals : list string :=
  ["ROOT"; "TFile"; "TMath"; "RooRandom"; "TH1"; "TH1F";
   "kBlack"; "kWhite"; "kGray"; "kRed"; "kPink"; "kMagenta"; "kViolet";
   "kBlue"; "kAzure"; "kCyan"; "kTeal"; "kGreen"; "kSpring"; "kYellow";
   "kOrange"; "kDashed"; "kSolid"; "kDotted";
   "fabs"; "Logger"; "SystematicBase"; "InputTree"; "log"; "deepcopy";
   "configMgr"; "replaceSymbols";
   "chi2test"; "checkNormalizationEffect"; "checkShapeEffect";
   "symmetrizeSystematicEnvelope"; "Sample"].

Definition name_lookup {S R} (locals : list string) (x : string) : Proc S R unit :=
  if bool_decide (x ∈ locals ++ module_globals) then ret tt
  else raise (NameError x).

(** ** [str.format]

    The replacement-field subset used by the module's name templates:
    every [{}] takes the next positional argument, and running out of
    arguments is an [IndexError]; surplus arguments are ignored. *)
Fixpoint py_format (template : string) (args : list string) : PyExc + string :=
  match template with
  | EmptyString => inr EmptyString
  | String "{"%char (String "}"%char rest) =>
      match args with
      | [] => inl IndexError
      | a :: args' =>
          match py_format rest args' with
          | inr r => inr (a +:+ r)
          | inl e => inl e
          end
      end
  | String c rest =>
      match py_format rest args with
      | inr r => inr (String c r)
      | inl e => inl e
      end
  end.

Definition format {S R} (template : string) (args : list string) : Proc S R string :=
  match py_format template args with
  | inr s => ret s
  | inl e => raise e
  end.

(** [sep.join(xs)] with the empty separator. *)
Definition join (xs : list string) : string := foldr String.append "" xs.

(** ** Histograms

    The histogram type belongs to the Histogram Store, an external
    collaborator (ROOT's [TH1]) whose code is not part of this repository.
    The spec describes it as a named, mutable, fixed-binning array with a
    content and an error per bin and the operations [Integral], [Clone],
    [Scale], [Add], [Divide], [Multiply] and the bin accessors. *)

(** Modelled from the spec: the histogram, a named array of cells
    [0 .. N+1] (underflow, bins [1 .. N], overflow), each with a content
    and the square of its error. *)
Record Hist : Type := mkHist {
  GetName : string;
  fArray : list Q;
  fSumw2 : list Q
}.

(** Modelled from the spec: [GetNbinsX()], the number [N] of bins. *)
Definition GetNbinsX (h : Hist) : nat := (length (fArray h) - 2)%nat.

(** Modelled from the spec: [GetBinContent(i)]; a cell out of range reads
    as [0]. *)
Definition GetBinContent (h : Hist) (i : nat) : Q := default 0 (fArray h !! i).

(** Modelled from the spec: [SetBinContent(i, v)]; writing a cell out of
    range does nothing. *)
Definition SetBinContent (i : nat) (v : Q) (h : Hist) : Hist :=
  {| GetName := GetName h; fArray := <[i := v]> (fArray h); fSumw2 := fSumw2 h |}.

(** Modelled from the spec: [SetBinError(i, e)]. *)
Definition SetBinError (i : nat) (e : Q) (h : Hist) : Hist :=
  {| GetName := GetName h; fArray := fArray h; fSumw2 := <[i := e * e]> (fSumw2 h) |}.

Definition Qsum (l : list Q) : Q := foldr Qplus 0 l.

(** Modelled from the spec: [Integral()], the sum of the contents of bins
    [1 .. N]. *)
Definition Integral (h : Hist) : Q :=
  Qsum (take (GetNbinsX h) (drop 1 (fArray h))).

(** Modelled from the spec: [Clone(newName)]. *)
Definition Clone (newName : string) (h : Hist) : Hist :=
  {| GetName := newName; fArray := fArray h; fSumw2 := fSumw2 h |}.

(** Modelled from the spec: [Scale(c)], on contents and errors. *)
Definition Scale (c : Q) (h : Hist) : Hist :=
  {| GetName := GetName h;
     fArray := map (Qmult c) (fArray h);
     fSumw2 := map (Qmult (c * c)) (fSumw2 h) |}.

Definition same_binning (h1 h2 : Hist) : bool :=
  bool_decide (length (fArray h1) = length (fArray h2)).

(** Modelled from the spec: [h.Add(other, c)]; refused (no change) for an
    absent or differently binned histogram. *)
Definition Add (other : option Hist) (c : Q) (h : Hist) : Hist :=
  match other with
  | Some h2 =>
      if same_binning h h2 then
        {| GetName := GetName h;
           fArray := zip_with (fun a b => a + c * b) (fArray h) (fArray h2);
           fSumw2 := zip_with (fun a b => a + c * c * b) (fSumw2 h) (fSumw2 h2) |}
      else h
  | None => h
  end.

(** Modelled from the spec: [h.Multiply(other)]; refused (no change) for
    an absent or differently binned histogram. *)
Definition Multiply (other : option Hist) (h : Hist) : Hist :=
  match other with
  | Some h2 =>
      if same_binning h h2 then
        {| GetName := GetName h;
           fArray := zip_with Qmult (fArray h) (fArray h2);
           fSumw2 := zip_with (fun '(c1, e1) '(c2, e2) => e1 * (c2 * c2) + e2 * (c1 * c1))
                       (zip (fArray h) (fSumw2 h)) (zip (fArray h2) (fSumw2 h2)) |}
      else h
  | None => h
  end.

(** Modelled from the spec: [h.Divide(other)], which reports success; it
    fails, leaving [h] as it is, for an absent or differently binned
    divisor and for a divisor with a zero-content cell. *)
Definition Divide (other : option Hist) (h : Hist) : option Hist :=
  match other with
  | Some h2 =>
      if same_binning h h2 && forallb (fun b => negb (Qeq_bool b 0)) (fArray h2) then
        Some {| GetName := GetName h;
                fArray := zip_with Qdiv (fArray h) (fArray h2);
                fSumw2 := zip_with (fun '(c1, e1) '(c2, e2) =>
                                      (e1 * (c2 * c2) + e2 * (c1 * c1)) / (c2 * c2 * c2 * c2))
                            (zip (fArray h) (fSumw2 h)) (zip (fArray h2) (fSumw2 h2)) |}
      else None
  | None => None
  end.

(** [xrange(a, b)]. *)
Definition xrange (a b : nat) : list nat := seq a (b - a).

(** ** The configuration manager

    [configManager.configMgr] is the fit-configuration collaborator; its
    code is not part of this repository. *)

(** Modelled from the spec: the systematic descriptor, an external type
    holding the suffixes of its variations. *)
Record SystematicBase : Type := mkSystematic {
  syst_name : string;
  syst_type : string;
  syst_nominal : string;
  syst_high : string;
  syst_low : string
}.

(** Modelled from the spec: the parts of [configMgr] this module uses,
    the histogram store [hists] (a name may be bound to [None]),
    [histCacheFile], [nomName], the shared systematics registry
    [systDict] and [normList]. *)
Record ConfigMgr : Type := mkConfigMgr {
  cfg_hists : gmap string (option Hist);
  cfg_histCacheFile : string;
  cfg_nomName : string;
  cfg_systDict : gmap string SystematicBase;
  cfg_normList : list string
}.

Definition set_hists (v : gmap string (option Hist)) (c : ConfigMgr) : ConfigMgr :=
  {| cfg_hists := v; cfg_histCacheFile := cfg_histCacheFile c;
     cfg_nomName := cfg_nomName c; cfg_systDict := cfg_systDict c;
     cfg_normList := cfg_normList c |}.

Section Store.
Context {R : Type}.

(** [configMgr.hists[name]] as an expression. *)
Definition hists_get (name : string) : Proc ConfigMgr R (option Hist) :=
  fun c =>
    match cfg_hists c !! name with
    | Some v => (Normal v, c)
    | None => (Raise (KeyError name), c)
    end.

(** [configMgr.hists[name]] as the receiver of a method call. *)
Definition hists_obj (name : string) : Proc ConfigMgr R Hist :=
  v ← hists_get name;
  match v with
  | Some h => ret h
  | None => raise AttributeError
  end.

(** [configMgr.hists[name] = v]. *)
Definition hists_set (name : string) (v : option Hist) : Proc ConfigMgr R unit :=
  modify (fun c => set_hists (<[name := v]> (cfg_hists c)) c).

(** [configMgr.hists[name].method(...)] for a method that changes the
    histogram in place. *)
Definition hists_update (name : string) (f : Hist -> Hist) : Proc ConfigMgr R unit :=
  h ← hists_obj name;
  hists_set name (Some (f h)).
End Store.

(** ** Collaborators of a sample

    The parent channel, its top-level fit configuration and the fit
    configuration handed to the naming methods are defined in other
    modules, whose code is not part of this repository. *)

(** Modelled from the spec: a fit configuration, of which only the name
    is read. *)
Record FitConfig : Type := mkFitConfig { fc_name : string }.

(** Modelled from the spec: a channel as listed by the top-level fit
    configuration, with the attributes [setNormRegions] reads. *)
Record ChannelRef : Type := mkChannelRef {
  channelName : string;
  regionString : string;
  ref_variableName : string
}.

(** Modelled from the spec: the top-level fit configuration of the parent
    channel, with its channels and its constraining and signal channel
    names. *)
Record TopLvl : Type := mkTopLvl {
  channels : list ChannelRef;
  bkgConstrainChannels : list string;
  signalChannels : list string
}.

(** Modelled from the spec: the parent channel, with its regions, its
    variable name, its [isBlinded(fitConfig)] and its parent. *)
Record Channel : Type := mkChannel {
  regions : list string;
  variableName : string;
  channel_isBlinded : FitConfig -> bool;
  parentTopLvl : TopLvl
}.

(** ** The sample *)

(** An entry of [histoSystList]:
    [(systName, highName, lowName, histCacheFile, "", "", "", "")]. *)
Definition HistoSysEntry : Type :=
  (string * string * string * string * string * string * string * string)%type.

Record Sample : Type := mkSample {
  name : string;
  color : Z;
  isData : bool;
  isQCD : bool;
  isDiscovery : bool;
  write : bool;
  normByTheory : bool;
  statConfig : bool;
  histoSystList : list HistoSysEntry;
  shapeSystList : list (string * string * string);
  overallSystList : list (string * Q * Q);
  shapeFactorList : list string;
  systList : list string;
  weights : list string;
  tempWeights : list string;
  systDict : gmap string SystematicBase;
  currentSystematic : option string;
  normFactor : list (string * Q * Q * Q * bool);
  qcdSyst : option string;
  unit_ : string;
  cutsDict : gmap string string;
  input_files : list (string * string);
  overrideTreename : string;
  prefixTreeName : string;
  suffixTreeName : string;
  friendTreeName : string;
  additionalCuts : string;
  xsecWeight : option Q;
  xsecUp : option Q;
  xsecDown : option Q;
  normRegions : option (list (string * string));
  normSampleRemap : string;
  noRenormSys : bool;
  parentChannel : option Channel;
  allowRemapOfSyst : bool;
  mergeOverallSysSet : list string;
  toBeMerged : bool
}.

Definition set_name (v : string) (s : Sample) : Sample :=
  {| name := v; color := color s; isData := isData s; isQCD := isQCD s;
     isDiscovery := isDiscovery s; write := write s;
     normByTheory := normByTheory s; statConfig := statConfig s;
     histoSystList := histoSystList s; shapeSystList := shapeSystList s;
     overallSystList := overallSystList s;
     shapeFactorList := shapeFactorList s; systList := systList s;
     weights := weights s; tempWeights := tempWeights s;
     systDict := systDict s; currentSystematic := currentSystematic s;
     normFactor := normFactor s; qcdSyst := qcdSyst s; unit_ := unit_ s;
     cutsDict := cutsDict s; input_files := input_files s;
     overrideTreename := overrideTreename s;
     prefixTreeName := prefixTreeName s; suffixTreeName := suffixTreeName s;
     friendTreeName := friendTreeName s; additionalCuts := additionalCuts s;
     xsecWeight := xsecWeight s; xsecUp := xsecUp s; xsecDown := xsecDown s;
     normRegions := normRegions s; normSampleRemap := normSampleRemap s;
     noRenormSys := noRenormSys s; parentChannel := parentChannel s;
     allowRemapOfSyst := allowRemapOfSyst s;
     mergeOverallSysSet := mergeOverallSysSet s;
     toBeMerged := toBeMerged s |}.

Definition set_histoSystList (v : list HistoSysEntry) (s : Sample) : Sample :=
  {| name := name s; color := color s; isData := isData s; isQCD := isQCD s;
     isDiscovery := isDiscovery s; write := write s;
     normByTheory := normByTheory s; statConfig := statConfig s;
     histoSystList := v; shapeSystList := shapeSystList s;
     overallSystList := overallSystList s;
     shapeFactorList := shapeFactorList s; systList := systList s;
     weights := weights s; tempWeights := tempWeights s;
     systDict := systDict s; currentSystematic := currentSystematic s;
     normFactor := normFactor s; qcdSyst := qcdSyst s; unit_ := unit_ s;
     cutsDict := cutsDict s; input_files := input_files s;
     overrideTreename := overrideTreename s;
     prefixTreeName := prefixTreeName s; suffixTreeName := suffixTreeName s;
     friendTreeName := friendTreeName s; additionalCuts := additionalCuts s;
     xsecWeight := xsecWeight s; xsecUp := xsecUp s; xsecDown := xsecDown s;
     normRegions := normRegions s; normSampleRemap := normSampleRemap s;
     noRenormSys := noRenormSys s; parentChannel := parentChannel s;
     allowRemapOfSyst := allowRemapOfSyst s;
     mergeOverallSysSet := mergeOverallSysSet s;
     toBeMerged := toBeMerged s |}.

Definition set_overallSystList (v : list (string * Q * Q)) (s : Sample) : Sample :=
  {| name := name s; color := color s; isData := isData s; isQCD := isQCD s;
     isDiscovery := isDiscovery s; write := write s;
     normByTheory := normByTheory s; statConfig := statConfig s;
     histoSystList := histoSystList s; shapeSystList := shapeSystList s;
     overallSystList := v; shapeFactorList := shapeFactorList s;
     systList := systList s; weights := weights s;
     tempWeights := tempWeights s; systDict := systDict s;
     currentSystematic := currentSystematic s; normFactor := normFactor s;
     qcdSyst := qcdSyst s; unit_ := unit_ s; cutsDict := cutsDict s;
     input_files := input_files s; overrideTreename := overrideTreename s;
     prefixTreeName := prefixTreeName s; suffixTreeName := suffixTreeName s;
     friendTreeName := friendTreeName s; additionalCuts := additionalCuts s;
     xsecWeight := xsecWeight s; xsecUp := xsecUp s; xsecDown := xsecDown s;
     normRegions := normRegions s; normSampleRemap := normSampleRemap s;
     noRenormSys := noRenormSys s; parentChannel := parentChannel s;
     allowRemapOfSyst := allowRemapOfSyst s;
     mergeOverallSysSet := mergeOverallSysSet s;
     toBeMerged := toBeMerged s |}.

Definition set_systList (v : list string) (s : Sample) : Sample :=
  {| name := name s; color := color s; isData := isData s; isQCD := isQCD s;
     isDiscovery := isDiscovery s; write := write s;
     normByTheory := normByTheory s; statConfig := statConfig s;
     histoSystList := histoSystList s; shapeSystList := shapeSystList s;
     overallSystList := overallSystList s;
     shapeFactorList := shapeFactorList s; systList := v;
     weights := weights s; tempWeights := tempWeights s;
     systDict := systDict s; currentSystematic := currentSystematic s;
     normFactor := normFactor s; qcdSyst := qcdSyst s; unit_ := unit_ s;
     cutsDict := cutsDict s; input_files := input_files s;
     overrideTreename := overrideTreename s;
     prefixTreeName := prefixTreeName s; suffixTreeName := suffixTreeName s;
     friendTreeName := friendTreeName s; additionalCuts := additionalCuts s;
     xsecWeight := xsecWeight s; xsecUp := xsecUp s; xsecDown := xsecDown s;
     normRegions := normRegions s; normSampleRemap := normSampleRemap s;
     noRenormSys := noRenormSys s; parentChannel := parentChannel s;
     allowRemapOfSyst := allowRemapOfSyst s;
     mergeOverallSysSet := mergeOverallSysSet s;
     toBeMerged := toBeMerged s |}.

Definition set_prefixTreeName (v : string) (s : Sample) : Sample :=
  {| name := name s; color := color s; isData := isData s; isQCD := isQCD s;
     isDiscovery := isDiscovery s; write := write s;
     normByTheory := normByTheory s; statConfig := statConfig s;
     histoSystList := histoSystList s; shapeSystList := shapeSystList s;
     overallSystList := overallSystList s;
     shapeFactorList := shapeFactorList s; systList := systList s;
     weights := weights s; tempWeights := tempWeights s;
     systDict := systDict s; currentSystematic := currentSystematic s;
     normFactor := normFactor s; qcdSyst := qcdSyst s; unit_ := unit_ s;
     cutsDict := cutsDict s; input_files := input_files s;
     overrideTreename := overrideTreename s; prefixTreeName := v;
     suffixTreeName := suffixTreeName s; friendTreeName := friendTreeName s;
     additionalCuts := additionalCuts s; xsecWeight := xsecWeight s;
     xsecUp := xsecUp s; xsecDown := xsecDown s;
     normRegions := normRegions s; normSampleRemap := normSampleRemap s;
     noRenormSys := noRenormSys s; parentChannel := parentChannel s;
     allowRemapOfSyst := allowRemapOfSyst s;
     mergeOverallSysSet := mergeOverallSysSet s;
     toBeMerged := toBeMerged s |}.

Definition set_normRegions (v : option (list (string * string))) (s : Sample) : Sample :=
  {| name := name s; color := color s; isData := isData s; isQCD := isQCD s;
     isDiscovery := isDiscovery s; write := write s;
     normByTheory := normByTheory s; statConfig := statConfig s;
     histoSystList := histoSystList s; shapeSystList := shapeSystList s;
     overallSystList := overallSystList s;
     shapeFactorList := shapeFactorList s; systList := systList s;
     weights := weights s; tempWeights := tempWeights s;
     systDict := systDict s; currentSystematic := currentSystematic s;
     normFactor := normFactor s; qcdSyst := qcdSyst s; unit_ := unit_ s;
     cutsDict := cutsDict s; input_files := input_files s;
     overrideTreename := overrideTreename s;
     prefixTreeName := prefixTreeName s; suffixTreeName := suffixTreeName s;
     friendTreeName := friendTreeName s; additionalCuts := additionalCuts s;
     xsecWeight := xsecWeight s; xsecUp := xsecUp s; xsecDown := xsecDown s;
     normRegions := v; normSampleRemap := normSampleRemap s;
     noRenormSys := noRenormSys s; parentChannel := parentChannel s;
     allowRemapOfSyst := allowRemapOfSyst s;
     mergeOverallSysSet := mergeOverallSysSet s;
     toBeMerged := toBeMerged s |}.

Definition set_noRenormSys (v : bool) (s : Sample) : Sample :=
  {| name := name s; color := color s; isData := isData s; isQCD := isQCD s;
     isDiscovery := isDiscovery s; write := write s;
     normByTheory := normByTheory s; statConfig := statConfig s;
     histoSystList := histoSystList s; shapeSystList := shapeSystList s;
     overallSystList := overallSystList s;
     shapeFactorList := shapeFactorList s; systList := systList s;
     weights := weights s; tempWeights := tempWeights s;
     systDict := systDict s; currentSystematic := currentSystematic s;
     normFactor := normFactor s; qcdSyst := qcdSyst s; unit_ := unit_ s;
     cutsDict := cutsDict s; input_files := input_files s;
     overrideTreename := overrideTreename s;
     prefixTreeName := prefixTreeName s; suffixTreeName := suffixTreeName s;
     friendTreeName := friendTreeName s; additionalCuts := additionalCuts s;
     xsecWeight := xsecWeight s; xsecUp := xsecUp s; xsecDown := xsecDown s;
     normRegions := normRegions s; normSampleRemap := normSampleRemap s;
     noRenormSys := v; parentChannel := parentChannel s;
     allowRemapOfSyst := allowRemapOfSyst s;
     mergeOverallSysSet := mergeOverallSysSet s;
     toBeMerged := toBeMerged s |}.

(** The attributes set by [Sample.__init__], lines 148-216. *)
Definition new_Sample (name : string) (color : Z) : Sample :=
  {| name := name; color := color; isData := false; isQCD := false;
     isDiscovery := false; write := true; normByTheory := false;
     statConfig := false; histoSystList := []; shapeSystList := [];
     overallSystList := []; shapeFactorList := []; systList := [];
     weights := []; tempWeights := []; systDict := ∅;
     currentSystematic := None; normFactor := []; qcdSyst := None;
     unit_ := "GeV"; cutsDict := ∅; input_files := [];
     overrideTreename := ""; prefixTreeName := ""; suffixTreeName := "";
     friendTreeName := ""; additionalCuts := ""; xsecWeight := None;
     xsecUp := None; xsecDown := None; normRegions := None;
     normSampleRemap := ""; noRenormSys := true; parentChannel := None;
     allowRemapOfSyst := true; mergeOverallSysSet := [];
     toBeMerged := false |}.

(** [Sample.__init__(name, color=1)]; [self.name[0]] at line 218 fails on
    an empty name. *)
Definition Sample_init (name : string) (color : Z) : PyExc + Sample :=
  match name with
  | EmptyString => inl IndexError
  | String _ _ => inr (new_Sample name color)
  end.

(** ** The world of a method call: the [configMgr] singleton and [self] *)

Record World : Type := mkWorld {
  configMgr : ConfigMgr;
  self : Sample
}.

Section WorldAccess.
Context {R : Type}.

(** Run a statement that only touches [configMgr]. *)
Definition liftC {A} (m : Proc ConfigMgr R A) : Proc World R A :=
  fun w => let '(o, c) := m (configMgr w) in (o, mkWorld c (self w)).

Definition get_self {A} (f : Sample -> A) : Proc World R A :=
  gets (fun w => f (self w)).

Definition get_cfg {A} (f : ConfigMgr -> A) : Proc World R A :=
  gets (fun w => f (configMgr w)).

Definition modify_self (f : Sample -> Sample) : Proc World R unit :=
  modify (fun w => mkWorld (configMgr w) (f (self w))).
End WorldAccess.

(** [key in d.keys()]. *)
Definition has_key {V} (d : gmap string V) (key : string) : bool :=
  match d !! key with Some _ => true | None => false end.

(** Python's [max(a, b)] and [max([a, b])]: the first of the largest. *)
Definition py_max (a b : Q) : Q := if Qltb a b then b else a.

(** [if not systName in configMgr.systDict.keys():
       self.systList.append(systName)]. *)
Definition register_syst {R} (systName : string) : Proc World R unit :=
  registered ← get_cfg (fun c => has_key (cfg_systDict c) systName);
  when (negb registered)
    (modify_self (fun s => set_systList (systList s ++ [systName])%list s)).

(** ** Numeric policy helpers *)

(** [checkNormalizationEffect(hNom, hUp, hDown, norm_threshold=0.005)],
    lines 66-81.  The message of [log.verbose] is built from the locals
    [max_variation] and [threshold] before the call. *)
Definition checkNormalizationEffect {S R'} (hNom hUp hDown : Hist)
    (norm_threshold : Q) : Proc S R' bool :=
  call (
    let locals := ["hNom"; "hUp"; "hDown"; "norm_threshold"] in
    let nom_integral := Integral hNom in
    let locals := (locals ++ ["nom_integral"])%list in
    when (Qeq_bool nom_integral 0) (return_ true);;
    up_norm ← py_div (Integral hUp) nom_integral;
    let locals := (locals ++ ["up_norm"])%list in
    down_norm ← py_div (Integral hDown) nom_integral;
    let locals := (locals ++ ["down_norm"])%list in
    let max_variation := py_max (Qabs (up_norm - 1)) (Qabs (down_norm - 1)) in
    let locals := (locals ++ ["max_variation"])%list in
    when (Qltb max_variation norm_threshold) (
      name_lookup locals "max_variation";;
      name_lookup locals "threshold";;
      return_ false);;
    return_ true).

Definition norm_threshold_default : Q := 0.005.

(** [symmetrizeSystematicEnvelope(nomName, lowName, highName)],
    lines 108-131. *)
Definition symmetrizeSystematicEnvelope {R'} (nomName lowName highName : string)
    : Proc ConfigMgr R' unit :=
  call (
    hLow ← hists_obj lowName;
    for_ (xrange 1 (GetNbinsX hLow + 1)) (fun iBin =>
      hl ← hists_obj lowName;
      let lowVal := GetBinContent hl iBin in
      hh ← hists_obj highName;
      let highVal := GetBinContent hh iBin in
      hn ← hists_obj nomName;
      let nomVal := GetBinContent hn iBin in
      let lowErr := fabs (nomVal - lowVal) in
      let highErr := fabs (highVal - nomVal) in
      let err := py_max lowErr highErr in
      let newLowVal := nomVal - err in
      (* if newLowVal < 0.0: log.warning(...) *)
      let newHighVal := nomVal + err in
      hists_update highName (SetBinContent iBin newHighVal);;
      hists_update lowName (SetBinContent iBin newLowVal));;
    return_ tt).

(** ** [Sample.addOverallSys(systName, high, low)], lines 1099-1153 *)
Definition addOverallSys {R'} (systName : string) (high low : Q)
    : Proc World R' unit :=
  call (
    when (Qeq_bool high 1.0 && Qeq_bool low 1.0) (return_ tt);;
    when (Qeq_bool high 0.0 && Qeq_bool low 0.0) (return_ tt);;
    let low := if Qeq_bool high low then 2.0 - high else low in
    let high :=
      if Qeq_bool high 1.0 && Qltb 0.0 low && negb (Qeq_bool low 1.0)
      then 2.0 - low else high in
    let low :=
      if Qeq_bool low 1.0 && Qltb 0.0 high && negb (Qeq_bool high 1.0)
      then 2.0 - high else low in
    let low := if Qltb low 0.01 then 0.01 else low in
    let high := if Qltb high 0.01 then 0.01 else high in
    (* Perform these checks again after the symmetrisation *)
    when (Qltb (fabs (high - 1.0)) 1E-5 && Qltb (fabs (low - 1.0)) 1E-5)
      (return_ tt);;
    when (Qltb (fabs high) 1E-5 && Qltb (fabs low) 1E-5) (return_ tt);;
    modify_self (fun s =>
      set_overallSystList (overallSystList s ++ [(systName, high, low)])%list s);;
    register_syst systName;;
    return_ tt).

(** ** Histogram and tree names *)

Section Naming.
(** [configManager.replaceSymbols], an imported helper. *)
Variable replaceSymbols : string -> string.

(** [Sample.isBlinded(fitConfig)], lines 458-473. *)
Definition isBlinded {R'} (fitConfig : FitConfig) : Proc World R' bool :=
  call (
    data ← get_self isData;
    when (negb data) (return_ false);;
    pc ← get_self parentChannel;
    match pc with
    | None => raise AttributeError
    | Some ch => when (channel_isBlinded ch fitConfig) (return_ true)
    end;;
    return_ false).

(** [self.parentChannel], about to be dereferenced. *)
Definition parentChannel_obj {R} : Proc World R Channel :=
  pc ← get_self parentChannel;
  match pc with
  | None => raise AttributeError
  | Some ch => ret ch
  end.

(** [Sample.getHistogramName(fitConfig, syst_name="", variation="")],
    lines 496-530. *)
Definition getHistogramName {R'} (fitConfig : FitConfig)
    (syst_name variation : string) : Proc World R' string :=
  call (
    data ← get_self isData;
    when (data && negb (bool_decide (variation = ""))) (
      n ← get_self name;
      msg ← format "Sample {}: is data, cannot specify variation!" [n];
      raise (ValueError msg));;
    (* Special treatment for blinded samples *)
    blinded ← isBlinded fitConfig;
    when blinded (
      n ← get_self name;
      ch ← parentChannel_obj;
      r ← format "h{}{}Blind_{}_obs"
            [fc_name fitConfig; n; join (regions ch);
             replaceSymbols (variableName ch)];
      return_ r);;
    (* Special treatment for data *)
    when data (
      n ← get_self name;
      ch ← parentChannel_obj;
      r ← format "h{}_{}_obs_{}"
            [n; join (regions ch); replaceSymbols (variableName ch)];
      return_ r);;
    (* Now on to the usual variation *)
    let variation := if bool_decide (variation = "") then "Nom" else variation in
    let variation := if bool_decide (variation = "Up") then "High" else variation in
    let variation := if bool_decide (variation = "Down") then "Low" else variation in
    let variations := ["Nom"; "High"; "Low"] in
    when (negb (bool_decide (variation ∈ variations))) (
      msg ← format
              "Sample {}: cannot generate histogram name for unknown variation {}"
              [variation];
      raise (ValueError msg));;
    n ← get_self name;
    ch ← parentChannel_obj;
    r ← format "h{}{}{}_{}_obs_{}"
          [n; syst_name; variation; join (regions ch);
           replaceSymbols (variableName ch)];
    return_ r).
End Naming.

(** [Sample.getTreenameSuffix()], lines 581-595. *)
Definition getTreenameSuffix {R'} : Proc World R' string :=
  call (
    sfx ← get_self suffixTreeName;
    when (negb (bool_decide (sfx = ""))) (return_ sfx);;
    data ← get_self isData;
    qcd ← get_self isQCD;
    disc ← get_self isDiscovery;
    when (negb data && negb qcd && negb disc) (
      (* are we in a systematic? if so, return that suffix *)
      cur ← get_self currentSystematic;
      match cur with
      | Some sys => return_ sys
      | None => ret tt
      end;;
      (* if we're not data, pick up the default *)
      nom ← get_cfg cfg_nomName;
      return_ nom);;
    return_ "").

(** [Sample.getTreename(suffix="")], lines 597-622; reading the property
    [treename] is [getTreename ""]. *)
Definition getTreename {R'} (suffix : string) : Proc World R' string :=
  call (
    let locals := ["self"; "suffix"] in
    ov ← get_self overrideTreename;
    when (negb (bool_decide (ov = ""))) (return_ ov);;
    pfx ← get_self prefixTreeName;
    when (bool_decide (pfx = "")) (
      n ← get_self name;
      modify_self (set_prefixTreeName n));;
    let locals := (locals ++ ["_suffix"])%list in
    _suffix ←
      (if negb (bool_decide (suffix = "")) then
         (* _suffix = copy(suffix) *)
         name_lookup locals "copy";;
         ret suffix
       else getTreenameSuffix);
    pfx ← get_self prefixTreeName;
    r ← format "{}{}" [pfx; _suffix];
    return_ r).

Definition treename {R'} : Proc World R' string := getTreename "".

(** ** Systematics built from histograms *)

(** [not self.normRegions]: [None] and the empty list are false. *)
Definition truthy {A} (l : option (list A)) : bool :=
  match l with
  | Some (_ :: _) => true
  | _ => false
  end.

(** [Sample.setNormRegions(normRegions)], lines 448-456. *)
Definition setNormRegions {R'} (regions : list (string * string)) : Proc World R' unit :=
  call (
    modify_self (set_normRegions (Some regions));;
    modify_self (set_noRenormSys false);;
    return_ tt).

Section HistoSteps.
Context {R : Type}.

(** [configMgr.hists[newName] = configMgr.hists[oldName].Clone(newName)]. *)
Definition clone_as (newName oldName : string) : Proc ConfigMgr R unit :=
  h ← hists_obj oldName;
  hists_set newName (Some (Clone newName h)).

(** [configMgr.hists[name].Integral()]. *)
Definition integral_of (name : string) : Proc ConfigMgr R Q :=
  h ← hists_obj name;
  ret (Integral h).

(** The one-sided mirror [low = 2*nominal - high] with negative bins set
    to zero, as written out at lines 714-721, 856-863 and 968-975. *)
Definition oneSideSymmetrize (nomName highName lowName : string)
    : Proc ConfigMgr R unit :=
  clone_as lowName nomName;;
  hists_update lowName (Scale 2.0);;
  hl ← hists_obj lowName;
  hh ← hists_get highName;
  hists_set lowName (Some (Add hh (-1.0) hl));;
  hl ← hists_obj lowName;
  for_ (xrange 1 (GetNbinsX hl + 1)) (fun iBin =>
    h ← hists_obj lowName;
    let binVal := GetBinContent h iBin in
    when (Qltb binVal 0.0) (hists_update lowName (SetBinContent iBin 0.0))).

(** [success = configMgr.hists[name].Divide(configMgr.hists[byName])]. *)
Definition divide_by (name byName : string) : Proc ConfigMgr R bool :=
  h ← hists_obj name;
  d ← hists_get byName;
  match Divide d h with
  | Some h' => hists_set name (Some h');; ret true
  | None => ret false
  end.

(** [configMgr.hists[name].Multiply(configMgr.hists[byName])]. *)
Definition multiply_by (name byName : string) : Proc ConfigMgr R unit :=
  h ← hists_obj name;
  m ← hists_get byName;
  hists_set name (Some (Multiply m h)).

(** The alignment of [low] and [high] onto the tree of [nomSysName],
    lines 656-678. *)
Definition alignToNomSys (nomName highName lowName nomSysName : string)
    : Proc ConfigMgr R unit :=
  when (Nat.ltb 0 (String.length nomSysName)) (
    v ← hists_get nomSysName;
    when (bool_decide (v ≠ None)) (
      clone_as (lowName +:+ "_test") lowName;;
      success ← divide_by lowName nomSysName;
      (if negb success then raise (RuntimeError "Divide by zero.")
       else multiply_by lowName nomName);;
      clone_as (highName +:+ "_test") highName;;
      success ← divide_by highName nomSysName;
      (if negb success then raise (RuntimeError "Divide by zero.")
       else multiply_by highName nomName))).
End HistoSteps.

(** [self.histoSystList.append((systName, high, low, configMgr.histCacheFile,
    "", "", "", ""))]. *)
Definition append_histoSys {R} (systName high low : string) : Proc World R unit :=
  cache ← get_cfg cfg_histCacheFile;
  modify_self (fun s =>
    set_histoSystList
      (histoSystList s ++ [(systName, high, low, cache, "", "", "", "")])%list s).

(** [Sample.addShapeSys(systName, nomName, highName, lowName,
    constraintType="Gaussian")], lines 1018-1067. *)
Definition addShapeSys {R'} (systName nomName highName lowName constraintType : string)
    : Proc World R' unit :=
  call (
    let highHistName := highName +:+ "Norm" in
    liftC (clone_as highHistName highName);;
    let lowHistName := lowName +:+ "Norm" in
    liftC (clone_as lowHistName lowName);;
    let nomHistName := nomName +:+ "Norm" in
    liftC (clone_as nomHistName nomName);;
    let relative (histName : string) : Proc ConfigMgr unit unit :=
      h0 ← hists_obj histName;
      for_ (xrange 0 (GetNbinsX h0 + 1)) (fun iBin =>
        try_ZeroDivisionError (
          h ← hists_obj histName;
          hn ← hists_obj nomName;
          ratio ← py_div (GetBinContent h iBin) (GetBinContent hn iBin);
          hists_update histName (SetBinContent iBin (fabs (ratio - 1.0)));;
          hists_update histName (SetBinError iBin 0.0))
        (hists_update histName (SetBinContent iBin 0.0);;
         hists_update histName (SetBinError iBin 0.0))) in
    liftC (relative highHistName);;
    liftC (relative lowHistName);;
    liftC (
      h0 ← hists_obj nomHistName;
      for_ (xrange 0 (GetNbinsX h0 + 1)) (fun iBin =>
        try_ZeroDivisionError (
          hh ← hists_obj highHistName;
          hl ← hists_obj lowHistName;
          hists_update nomHistName
            (SetBinContent iBin (py_max (GetBinContent hh iBin) (GetBinContent hl iBin)));;
          hists_update nomHistName (SetBinError iBin 0.0))
        (hists_update nomHistName (SetBinContent iBin 0.0);;
         hists_update nomHistName (SetBinError iBin 0.0))));;
    register_syst systName;;
    return_ tt).

(** ** [Sample.addHistoSys], lines 627-1015 *)

Section AddHistoSys.
Variables (systName nomName highName lowName : string).
Variables (oneSide : bool) (samName normString nomSysName : string).
Variable symmetrizeEnvelope : bool.

(** Case 1, lines 701-842.  The block changes the locals
    [includeOverallSys] and [symmetrize]; it yields their final values. *)
Definition addHistoSys_case1 (includeOverallSys symmetrize : bool)
    : Proc World unit (bool * bool) :=
  nr ← get_self normRegions;
  when (negb (truthy nr))
    (raise (RuntimeError "Please specify normalization regions!"));;
  (if symmetrize && symmetrizeEnvelope then
     liftC (symmetrizeSystematicEnvelope nomName lowName highName)
   else if oneSide && symmetrize then
     liftC (oneSideSymmetrize nomName highName lowName)
   else ret tt);;
  (* use different renormalization region *)
  remap ← get_self normSampleRemap;
  let samNameRemap :=
    if Nat.ltb 0 (String.length remap) then remap else samName in
  let highRemapName :=
    "h" +:+ samNameRemap +:+ systName +:+ "High_" +:+ normString +:+ "Norm" in
  let lowRemapName :=
    "h" +:+ samNameRemap +:+ systName +:+ "Low_" +:+ normString +:+ "Norm" in
  let nomRemapName :=
    "h" +:+ samNameRemap +:+ "Nom_" +:+ normString +:+ "Norm" in
  highIntegral ← liftC (integral_of highRemapName);
  lowIntegral ← liftC (integral_of lowRemapName);
  nomIntegral ← liftC (integral_of nomRemapName);
  nomIntegral ←
    (if Nat.ltb 0 (String.length nomSysName) then
       v ← liftC (hists_get nomSysName);
       if bool_decide (v ≠ None) then
         liftC (integral_of
           ("h" +:+ samNameRemap +:+ systName +:+ "Nom_" +:+ normString +:+ "Norm"))
       else ret nomIntegral
     else ret nomIntegral);
  (* Attempt to symmetrize *)
  ls ←
    (if oneSide && symmetrize then
       let lowIntegral := 2.0 * nomIntegral - highIntegral in
       if Qltb lowIntegral 0 then
         lowIntegral ← liftC (integral_of
           ("h" +:+ samNameRemap +:+ systName +:+ "Low_" +:+ normString +:+ "Norm"));
         let lowIntegral :=
           if Qeq_bool lowIntegral 0 then nomIntegral else lowIntegral in
         (* clearly a problem. Revert to unsymmetrize *)
         ret (lowIntegral, false)
       else ret (lowIntegral, symmetrize)
     else ret (lowIntegral, symmetrize));
  let '(lowIntegral, symmetrize) := ls in
  (* Construct high/low from integrals *)
  hl ← try_ZeroDivisionError
         (high ← py_div highIntegral nomIntegral;
          low ← py_div lowIntegral nomIntegral;
          ret (high, low))
         (return_ tt);
  let '(high, low) := hl in
  liftC (clone_as (highName +:+ "Norm") highName);;
  liftC (clone_as (lowName +:+ "Norm") lowName);;
  (* Attempt to scale the high and low histograms down to normalized histograms *)
  try_ZeroDivisionError
    (_ ← py_div 1.0 high;
     _ ← py_div 1.0 low;
     h ← liftC (hists_obj (highName +:+ "Norm"));
     f ← py_div 1.0 high;
     liftC (hists_set (highName +:+ "Norm") (Some (Scale f h)));;
     h ← liftC (hists_obj (lowName +:+ "Norm"));
     f ← py_div 1.0 low;
     liftC (hists_set (lowName +:+ "Norm") (Some (Scale f h))))
    (return_ tt);;
  (* Attempt to generate an overallNormHistoSys if required *)
  ov ←
    (if includeOverallSys && negb (oneSide && negb symmetrize) then
       nomIntegralN ← liftC (integral_of nomName);
       lowIntegralN ← liftC (integral_of (lowName +:+ "Norm"));
       highIntegralN ← liftC (integral_of (highName +:+ "Norm"));
       if Qeq_bool nomIntegralN 0 || Qeq_bool highIntegralN 0
          || Qeq_bool lowIntegralN 0 then
         (* MB : cannot renormalize, so don't after all *)
         ret (false, None)
       else
         (* renormalize *)
         hlN ← try_ZeroDivisionError
                 (highN ← py_div highIntegralN nomIntegralN;
                  lowN ← py_div lowIntegralN nomIntegralN;
                  ret (highN, lowN))
                 (return_ tt);
         let '(highN, lowN) := hlN in
         try_ZeroDivisionError
           (_ ← py_div 1.0 highN;
            _ ← py_div 1.0 lowN;
            h ← liftC (hists_obj (highName +:+ "Norm"));
            f ← py_div 1.0 highN;
            liftC (hists_set (highName +:+ "Norm") (Some (Scale f h)));;
            h ← liftC (hists_obj (lowName +:+ "Norm"));
            f ← py_div 1.0 lowN;
            liftC (hists_set (lowName +:+ "Norm") (Some (Scale f h))))
           (return_ tt);;
         ret (true, Some (highN, lowN))
     else ret (includeOverallSys, None));
  let '(includeOverallSys, highlowN) := ov in
  (* Now, finally add the systematic *)
  (if oneSide && negb symmetrize then
     (* MB : avoid swapping of histograms, always pass high and nominal *)
     append_histoSys systName (highName +:+ "Norm") nomName
   else
     append_histoSys systName (highName +:+ "Norm") (lowName +:+ "Norm"));;
  (* Do we need to include an overall systematic? *)
  when (includeOverallSys && negb (oneSide && negb symmetrize))
    (match highlowN with
     | Some (highN, lowN) => addOverallSys systName highN lowN
     | None => raise (NameError "highN")
     end);;
  ret (includeOverallSys, symmetrize).

(** Case 2, lines 846-906. *)
Definition addHistoSys_case2 (symmetrize : bool) : Proc World unit unit :=
  (* Symmetrization efforts: either an envelope, or the usual one *)
  (if symmetrizeEnvelope then
     liftC (symmetrizeSystematicEnvelope nomName lowName highName)
   else if oneSide && symmetrize then
     liftC (oneSideSymmetrize nomName highName lowName)
   else ret tt);;
  (* Now construct high and low integrals for renormalization *)
  ints ← try_AttributeError
           (nomIntegral ← liftC (integral_of nomName);
            lowIntegral ← liftC (integral_of lowName);
            highIntegral ← liftC (integral_of highName);
            ret (nomIntegral, lowIntegral, highIntegral))
           (return_ tt);
  let '(nomIntegral, lowIntegral, highIntegral) := ints in
  (* Check whether a renormalization actually makes sense *)
  if Qeq_bool nomIntegral 0 || Qeq_bool lowIntegral 0 || Qeq_bool highIntegral 0 then
    (* MB : cannot renormalize, so don't after all *)
    append_histoSys systName highName lowName
  else
    (* renormalize *)
    hl ← try_ZeroDivisionError
           (high ← py_div highIntegral nomIntegral;
            low ← py_div lowIntegral nomIntegral;
            ret (high, low))
           (return_ tt);
    let '(high, low) := hl in
    liftC (clone_as (highName +:+ "Norm") highName);;
    liftC (clone_as (lowName +:+ "Norm") lowName);;
    try_ZeroDivisionError
      (h ← liftC (hists_obj (highName +:+ "Norm"));
       f ← py_div 1.0 high;
       liftC (hists_set (highName +:+ "Norm") (Some (Scale f h)));;
       h ← liftC (hists_obj (lowName +:+ "Norm"));
       f ← py_div 1.0 low;
       liftC (hists_set (lowName +:+ "Norm") (Some (Scale f h))))
      (return_ tt);;
    append_histoSys systName (highName +:+ "Norm") (lowName +:+ "Norm");;
    addOverallSys systName high low.

(** Case 3, lines 922-1011. *)
Definition addHistoSys_case3 (symmetrize : bool) : Proc World unit unit :=
  if symmetrize && negb (oneSide || symmetrizeEnvelope) then
    (* symmetrize the systematic uncertainty *)
    nomIntegral ← liftC (integral_of nomName);
    lowIntegral ← liftC (integral_of lowName);
    highIntegral ← liftC (integral_of highName);
    hl ← try_ZeroDivisionError
           (high ← py_div highIntegral nomIntegral;
            low ← py_div lowIntegral nomIntegral;
            ret (high, low))
           (return_ tt);
    let '(high, low) := hl in
    if Qltb high 1.0 && (Qltb low 1.0 && Qltb 0.0 low) then
      liftC (clone_as (highName +:+ "Norm") highName);;
      try_ZeroDivisionError
        (h ← liftC (hists_obj (highName +:+ "Norm"));
         f ← py_div (2.0 - low) high;
         liftC (hists_set (highName +:+ "Norm") (Some (Scale f h))))
        (return_ tt);;
      append_histoSys systName (highName +:+ "Norm") lowName
    else if Qltb 1.0 low && Qltb 1.0 high then
      liftC (clone_as (lowName +:+ "Norm") lowName);;
      try_ZeroDivisionError
        (h ← liftC (hists_obj (lowName +:+ "Norm"));
         f ← py_div (2.0 - high) low;
         liftC (hists_set (lowName +:+ "Norm") (Some (Scale f h))))
        (return_ tt);;
      append_histoSys systName highName (lowName +:+ "Norm")
    else if Qltb low 0.0 then
      liftC (clone_as (lowName +:+ "Norm") lowName);;
      h0 ← liftC (hists_obj (lowName +:+ "Norm"));
      for_ (xrange 1 (GetNbinsX h0 + 1)) (fun iBin =>
        h ← liftC (hists_obj (lowName +:+ "Norm"));
        when (Qltb (GetBinContent h iBin) 0.0)
          (liftC (hists_update (lowName +:+ "Norm") (SetBinContent iBin 0.0))));;
      append_histoSys systName highName (lowName +:+ "Norm")
    else
      append_histoSys systName highName lowName
  else if symmetrize && oneSide then
    (* symmetrize one-side systematic, nothing else *)
    liftC (oneSideSymmetrize nomName highName lowName);;
    append_histoSys systName highName lowName
  else if symmetrize && symmetrizeEnvelope then
    liftC (symmetrizeSystematicEnvelope nomName lowName highName);;
    append_histoSys systName highName lowName
  else
    (* default: don't do anything special *)
    nomIntegral ← liftC (integral_of nomName);
    lowIntegral ← liftC (integral_of lowName);
    highIntegral ← liftC (integral_of highName);
    let keepNorm := true in
    hn ← liftC (hists_obj nomName);
    hh ← liftC (hists_obj highName);
    hl ← liftC (hists_obj lowName);
    effect ← checkNormalizationEffect hn hh hl norm_threshold_default;
    let keepNorm := if negb effect then false else keepNorm in
    (* if not True: # TODO: checkShapeEffect() to be implemented *)
    when (negb true) (
      when (negb keepNorm) (return_ tt);;
      h0 ← liftC (hists_obj nomName);
      for_ (xrange 0 (GetNbinsX h0 + 2)) (fun i =>
        hn ← liftC (hists_obj nomName);
        liftC (hists_update lowName (SetBinContent i (GetBinContent hn i)));;
        hn ← liftC (hists_obj nomName);
        liftC (hists_update highName (SetBinContent i (GetBinContent hn i))));;
      liftC (hists_update lowName (Scale lowIntegral));;
      liftC (hists_update highName (Scale highIntegral)));;
    append_histoSys systName highName lowName.

(** The whole method. *)
Definition addHistoSys {R'} (includeOverallSys normalizeSys symmetrize : bool)
    : Proc World R' unit :=
  call (
    when (oneSide && symmetrizeEnvelope)
      (log_fatal
         ("Cannot use oneSided histogram with symmetrizeEnvelope - use either, not both. Please check the systematic type of "
          +:+ nomName));;
    (* use-case of different tree from nominal histogram *)
    liftC (alignToNomSys nomName highName lowName nomSysName);;
    noRenorm ← get_self noRenormSys;
    let normalizeSys := if noRenorm && normalizeSys then false else normalizeSys in
    nr ← get_self normRegions;
    when (normalizeSys && negb (truthy nr)) (
      ch ← parentChannel_obj;
      let tl := parentTopLvl ch in
      let normChannels :=
        map (fun ch => (regionString ch, ref_variableName ch))
          (filter (fun ch =>
                     channelName ch ∈ bkgConstrainChannels tl
                     ∨ channelName ch ∈ signalChannels tl)
             (channels tl)) in
      setNormRegions normChannels);;
    flags ←
      (if normalizeSys then addHistoSys_case1 includeOverallSys symmetrize
       else ret (includeOverallSys, symmetrize));
    let '(includeOverallSys, symmetrize) := flags in
    when (includeOverallSys && negb normalizeSys) (addHistoSys_case2 symmetrize);;
    when (negb includeOverallSys && negb normalizeSys) (addHistoSys_case3 symmetrize);;
    register_syst systName;;
    return_ tt).
End AddHistoSys.

(** * The rest of the sample's interface

    The methods of [Sample] that configure it and that read and edit what
    the systematics calls have stored. *)

(** ** More attribute updates *)

Definition set_isData (v : bool) (s : Sample) : Sample :=
  {| name := name s; color := color s; isData := v; isQCD := isQCD s;
     isDiscovery := isDiscovery s; write := write s;
     normByTheory := normByTheory s; statConfig := statConfig s;
     histoSystList := histoSystList s; shapeSystList := shapeSystList s;
     overallSystList := overallSystList s;
     shapeFactorList := shapeFactorList s; systList := systList s;
     weights := weights s; tempWeights := tempWeights s;
     systDict := systDict s; currentSystematic := currentSystematic s;
     normFactor := normFactor s; qcdSyst := qcdSyst s; unit_ := unit_ s;
     cutsDict := cutsDict s; input_files := input_files s;
     overrideTreename := overrideTreename s;
     prefixTreeName := prefixTreeName s; suffixTreeName := suffixTreeName s;
     friendTreeName := friendTreeName s; additionalCuts := additionalCuts s;
     xsecWeight := xsecWeight s; xsecUp := xsecUp s; xsecDown := xsecDown s;
     normRegions := normRegions s; normSampleRemap := normSampleRemap s;
     noRenormSys := noRenormSys s; parentChannel := parentChannel s;
     allowRemapOfSyst := allowRemapOfSyst s;
     mergeOverallSysSet := mergeOverallSysSet s;
     toBeMerged := toBeMerged s |}.

Definition set_isQCD (v : bool) (s : Sample) : Sample :=
  {| name := name s; color := color s; isData := isData s; isQCD := v;
     isDiscovery := isDiscovery s; write := write s;
     normByTheory := normByTheory s; statConfig := statConfig s;
     histoSystList := histoSystList s; shapeSystList := shapeSystList s;
     overallSystList := overallSystList s;
     shapeFactorList := shapeFactorList s; systList := systList s;
     weights := weights s; tempWeights := tempWeights s;
     systDict := systDict s; currentSystematic := currentSystematic s;
     normFactor := normFactor s; qcdSyst := qcdSyst s; unit_ := unit_ s;
     cutsDict := cutsDict s; input_files := input_files s;
     overrideTreename := overrideTreename s;
     prefixTreeName := prefixTreeName s; suffixTreeName := suffixTreeName s;
     friendTreeName := friendTreeName s; additionalCuts := additionalCuts s;
     xsecWeight := xsecWeight s; xsecUp := xsecUp s; xsecDown := xsecDown s;
     normRegions := normRegions s; normSampleRemap := normSampleRemap s;
     noRenormSys := noRenormSys s; parentChannel := parentChannel s;
     allowRemapOfSyst := allowRemapOfSyst s;
     mergeOverallSysSet := mergeOverallSysSet s;
     toBeMerged := toBeMerged s |}.

Definition set_isDiscovery (v : bool) (s : Sample) : Sample :=
  {| name := name s; color := color s; isData := isData s; isQCD := isQCD s;
     isDiscovery := v; write := write s; normByTheory := normByTheory s;
     statConfig := statConfig s; histoSystList := histoSystList s;
     shapeSystList := shapeSystList s; overallSystList := overallSystList s;
     shapeFactorList := shapeFactorList s; systList := systList s;
     weights := weights s; tempWeights := tempWeights s;
     systDict := systDict s; currentSystematic := currentSystematic s;
     normFactor := normFactor s; qcdSyst := qcdSyst s; unit_ := unit_ s;
     cutsDict := cutsDict s; input_files := input_files s;
     overrideTreename := overrideTreename s;
     prefixTreeName := prefixTreeName s; suffixTreeName := suffixTreeName s;
     friendTreeName := friendTreeName s; additionalCuts := additionalCuts s;
     xsecWeight := xsecWeight s; xsecUp := xsecUp s; xsecDown := xsecDown s;
     normRegions := normRegions s; normSampleRemap := normSampleRemap s;
     noRenormSys := noRenormSys s; parentChannel := parentChannel s;
     allowRemapOfSyst := allowRemapOfSyst s;
     mergeOverallSysSet := mergeOverallSysSet s;
     toBeMerged := toBeMerged s |}.

Definition set_qcdSyst (v : option string) (s : Sample) : Sample :=
  {| name := name s; color := color s; isData := isData s; isQCD := isQCD s;
     isDiscovery := isDiscovery s; write := write s;
     normByTheory := normByTheory s; statConfig := statConfig s;
     histoSystList := histoSystList s; shapeSystList := shapeSystList s;
     overallSystList := overallSystList s;
     shapeFactorList := shapeFactorList s; systList := systList s;
     weights := weights s; tempWeights := tempWeights s;
     systDict := systDict s; currentSystematic := currentSystematic s;
     normFactor := normFactor s; qcdSyst := v; unit_ := unit_ s;
     cutsDict := cutsDict s; input_files := input_files s;
     overrideTreename := overrideTreename s;
     prefixTreeName := prefixTreeName s; suffixTreeName := suffixTreeName s;
     friendTreeName := friendTreeName s; additionalCuts := additionalCuts s;
     xsecWeight := xsecWeight s; xsecUp := xsecUp s; xsecDown := xsecDown s;
     normRegions := normRegions s; normSampleRemap := normSampleRemap s;
     noRenormSys := noRenormSys s; parentChannel := parentChannel s;
     allowRemapOfSyst := allowRemapOfSyst s;
     mergeOverallSysSet := mergeOverallSysSet s;
     toBeMerged := toBeMerged s |}.

Definition set_weights (v : list string) (s : Sample) : Sample :=
  {| name := name s; color := color s; isData := isData s; isQCD := isQCD s;
     isDiscovery := isDiscovery s; write := write s;
     normByTheory := normByTheory s; statConfig := statConfig s;
     histoSystList := histoSystList s; shapeSystList := shapeSystList s;
     overallSystList := overallSystList s;
     shapeFactorList := shapeFactorList s; systList := systList s;
     weights := v; tempWeights := tempWeights s; systDict := systDict s;
     currentSystematic := currentSystematic s; normFactor := normFactor s;
     qcdSyst := qcdSyst s; unit_ := unit_ s; cutsDict := cutsDict s;
     input_files := input_files s; overrideTreename := overrideTreename s;
     prefixTreeName := prefixTreeName s; suffixTreeName := suffixTreeName s;
     friendTreeName := friendTreeName s; additionalCuts := additionalCuts s;
     xsecWeight := xsecWeight s; xsecUp := xsecUp s; xsecDown := xsecDown s;
     normRegions := normRegions s; normSampleRemap := normSampleRemap s;
     noRenormSys := noRenormSys s; parentChannel := parentChannel s;
     allowRemapOfSyst := allowRemapOfSyst s;
     mergeOverallSysSet := mergeOverallSysSet s;
     toBeMerged := toBeMerged s |}.

Definition set_tempWeights (v : list string) (s : Sample) : Sample :=
  {| name := name s; color := color s; isData := isData s; isQCD := isQCD s;
     isDiscovery := isDiscovery s; write := write s;
     normByTheory := normByTheory s; statConfig := statConfig s;
     histoSystList := histoSystList s; shapeSystList := shapeSystList s;
     overallSystList := overallSystList s;
     shapeFactorList := shapeFactorList s; systList := systList s;
     weights := weights s; tempWeights := v; systDict := systDict s;
     currentSystematic := currentSystematic s; normFactor := normFactor s;
     qcdSyst := qcdSyst s; unit_ := unit_ s; cutsDict := cutsDict s;
     input_files := input_files s; overrideTreename := overrideTreename s;
     prefixTreeName := prefixTreeName s; suffixTreeName := suffixTreeName s;
     friendTreeName := friendTreeName s; additionalCuts := additionalCuts s;
     xsecWeight := xsecWeight s; xsecUp := xsecUp s; xsecDown := xsecDown s;
     normRegions := normRegions s; normSampleRemap := normSampleRemap s;
     noRenormSys := noRenormSys s; parentChannel := parentChannel s;
     allowRemapOfSyst := allowRemapOfSyst s;
     mergeOverallSysSet := mergeOverallSysSet s;
     toBeMerged := toBeMerged s |}.

Definition set_systDict (v : gmap string SystematicBase) (s : Sample) : Sample :=
  {| name := name s; color := color s; isData := isData s; isQCD := isQCD s;
     isDiscovery := isDiscovery s; write := write s;
     normByTheory := normByTheory s; statConfig := statConfig s;
     histoSystList := histoSystList s; shapeSystList := shapeSystList s;
     overallSystList := overallSystList s;
     shapeFactorList := shapeFactorList s; systList := systList s;
     weights := weights s; tempWeights := tempWeights s; systDict := v;
     currentSystematic := currentSystematic s; normFactor := normFactor s;
     qcdSyst := qcdSyst s; unit_ := unit_ s; cutsDict := cutsDict s;
     input_files := input_files s; overrideTreename := overrideTreename s;
     prefixTreeName := prefixTreeName s; suffixTreeName := suffixTreeName s;
     friendTreeName := friendTreeName s; additionalCuts := additionalCuts s;
     xsecWeight := xsecWeight s; xsecUp := xsecUp s; xsecDown := xsecDown s;
     normRegions := normRegions s; normSampleRemap := normSampleRemap s;
     noRenormSys := noRenormSys s; parentChannel := parentChannel s;
     allowRemapOfSyst := allowRemapOfSyst s;
     mergeOverallSysSet := mergeOverallSysSet s;
     toBeMerged := toBeMerged s |}.

Definition set_currentSystematic (v : option string) (s : Sample) : Sample :=
  {| name := name s; color := color s; isData := isData s; isQCD := isQCD s;
     isDiscovery := isDiscovery s; write := write s;
     normByTheory := normByTheory s; statConfig := statConfig s;
     histoSystList := histoSystList s; shapeSystList := shapeSystList s;
     overallSystList := overallSystList s;
     shapeFactorList := shapeFactorList s; systList := systList s;
     weights := weights s; tempWeights := tempWeights s;
     systDict := systDict s; currentSystematic := v;
     normFactor := normFactor s; qcdSyst := qcdSyst s; unit_ := unit_ s;
     cutsDict := cutsDict s; input_files := input_files s;
     overrideTreename := overrideTreename s;
     prefixTreeName := prefixTreeName s; suffixTreeName := suffixTreeName s;
     friendTreeName := friendTreeName s; additionalCuts := additionalCuts s;
     xsecWeight := xsecWeight s; xsecUp := xsecUp s; xsecDown := xsecDown s;
     normRegions := normRegions s; normSampleRemap := normSampleRemap s;
     noRenormSys := noRenormSys s; parentChannel := parentChannel s;
     allowRemapOfSyst := allowRemapOfSyst s;
     mergeOverallSysSet := mergeOverallSysSet s;
     toBeMerged := toBeMerged s |}.

Definition set_normFactor (v : list (string * Q * Q * Q * bool)) (s : Sample) : Sample :=
  {| name := name s; color := color s; isData := isData s; isQCD := isQCD s;
     isDiscovery := isDiscovery s; write := write s;
     normByTheory := normByTheory s; statConfig := statConfig s;
     histoSystList := histoSystList s; shapeSystList := shapeSystList s;
     overallSystList := overallSystList s;
     shapeFactorList := shapeFactorList s; systList := systList s;
     weights := weights s; tempWeights := tempWeights s;
     systDict := systDict s; currentSystematic := currentSystematic s;
     normFactor := v; qcdSyst := qcdSyst s; unit_ := unit_ s;
     cutsDict := cutsDict s; input_files := input_files s;
     overrideTreename := overrideTreename s;
     prefixTreeName := prefixTreeName s; suffixTreeName := suffixTreeName s;
     friendTreeName := friendTreeName s; additionalCuts := additionalCuts s;
     xsecWeight := xsecWeight s; xsecUp := xsecUp s; xsecDown := xsecDown s;
     normRegions := normRegions s; normSampleRemap := normSampleRemap s;
     noRenormSys := noRenormSys s; parentChannel := parentChannel s;
     allowRemapOfSyst := allowRemapOfSyst s;
     mergeOverallSysSet := mergeOverallSysSet s;
     toBeMerged := toBeMerged s |}.

Definition set_shapeFactorList (v : list string) (s : Sample) : Sample :=
  {| name := name s; color := color s; isData := isData s; isQCD := isQCD s;
     isDiscovery := isDiscovery s; write := write s;
     normByTheory := normByTheory s; statConfig := statConfig s;
     histoSystList := histoSystList s; shapeSystList := shapeSystList s;
     overallSystList := overallSystList s; shapeFactorList := v;
     systList := systList s; weights := weights s;
     tempWeights := tempWeights s; systDict := systDict s;
     currentSystematic := currentSystematic s; normFactor := normFactor s;
     qcdSyst := qcdSyst s; unit_ := unit_ s; cutsDict := cutsDict s;
     input_files := input_files s; overrideTreename := overrideTreename s;
     prefixTreeName := prefixTreeName s; suffixTreeName := suffixTreeName s;
     friendTreeName := friendTreeName s; additionalCuts := additionalCuts s;
     xsecWeight := xsecWeight s; xsecUp := xsecUp s; xsecDown := xsecDown s;
     normRegions := normRegions s; normSampleRemap := normSampleRemap s;
     noRenormSys := noRenormSys s; parentChannel := parentChannel s;
     allowRemapOfSyst := allowRemapOfSyst s;
     mergeOverallSysSet := mergeOverallSysSet s;
     toBeMerged := toBeMerged s |}.

Definition set_overrideTreename (v : string) (s : Sample) : Sample :=
  {| name := name s; color := color s; isData := isData s; isQCD := isQCD s;
     isDiscovery := isDiscovery s; write := write s;
     normByTheory := normByTheory s; statConfig := statConfig s;
     histoSystList := histoSystList s; shapeSystList := shapeSystList s;
     overallSystList := overallSystList s;
     shapeFactorList := shapeFactorList s; systList := systList s;
     weights := weights s; tempWeights := tempWeights s;
     systDict := systDict s; currentSystematic := currentSystematic s;
     normFactor := normFactor s; qcdSyst := qcdSyst s; unit_ := unit_ s;
     cutsDict := cutsDict s; input_files := input_files s;
     overrideTreename := v; prefixTreeName := prefixTreeName s;
     suffixTreeName := suffixTreeName s; friendTreeName := friendTreeName s;
     additionalCuts := additionalCuts s; xsecWeight := xsecWeight s;
     xsecUp := xsecUp s; xsecDown := xsecDown s;
     normRegions := normRegions s; normSampleRemap := normSampleRemap s;
     noRenormSys := noRenormSys s; parentChannel := parentChannel s;
     allowRemapOfSyst := allowRemapOfSyst s;
     mergeOverallSysSet := mergeOverallSysSet s;
     toBeMerged := toBeMerged s |}.

Definition set_suffixTreeName (v : string) (s : Sample) : Sample :=
  {| name := name s; color := color s; isData := isData s; isQCD := isQCD s;
     isDiscovery := isDiscovery s; write := write s;
     normByTheory := normByTheory s; statConfig := statConfig s;
     histoSystList := histoSystList s; shapeSystList := shapeSystList s;
     overallSystList := overallSystList s;
     shapeFactorList := shapeFactorList s; systList := systList s;
     weights := weights s; tempWeights := tempWeights s;
     systDict := systDict s; currentSystematic := currentSystematic s;
     normFactor := normFactor s; qcdSyst := qcdSyst s; unit_ := unit_ s;
     cutsDict := cutsDict s; input_files := input_files s;
     overrideTreename := overrideTreename s;
     prefixTreeName := prefixTreeName s; suffixTreeName := v;
     friendTreeName := friendTreeName s; additionalCuts := additionalCuts s;
     xsecWeight := xsecWeight s; xsecUp := xsecUp s; xsecDown := xsecDown s;
     normRegions := normRegions s; normSampleRemap := normSampleRemap s;
     noRenormSys := noRenormSys s; parentChannel := parentChannel s;
     allowRemapOfSyst := allowRemapOfSyst s;
     mergeOverallSysSet := mergeOverallSysSet s;
     toBeMerged := toBeMerged s |}.

Definition set_normList (v : list string) (c : ConfigMgr) : ConfigMgr :=
  {| cfg_hists := cfg_hists c; cfg_histCacheFile := cfg_histCacheFile c;
     cfg_nomName := cfg_nomName c; cfg_systDict := cfg_systDict c;
     cfg_normList := v |}.

(** ** More of Python *)

(** [l[idx]] on a list. *)
Definition list_item {S R A} (l : list A) (idx : nat) : Proc S R A :=
  match l !! idx with
  | Some a => ret a
  | None => raise IndexError
  end.

(** [enumerate(l)]. *)
Definition enumerate {A} (l : list A) : list (nat * A) := zip (seq 0 (length l)) l.

(** [str.lower()] on the ASCII letters. *)
Definition lower_char (c : ascii) : ascii :=
  let n := nat_of_ascii c in
  if (65 <=? n)%nat && (n <=? 90)%nat then ascii_of_nat (n + 32) else c.

Fixpoint lower (s : string) : string :=
  match s with
  | EmptyString => EmptyString
  | String c rest => String (lower_char c) (lower rest)
  end.

(** [try: body / except: handler], which catches every exception. *)
Definition try_except {S R A} (body handler : Proc S R A) : Proc S R A :=
  fun s =>
    match body s with
    | (Raise _, s') => handler s'
    | r => r
    end.

(** ** Flags and tree-name settings *)

(** [Sample.setData(isData=True)], lines 303-310. *)
Definition setData {R'} (isData : bool) : Proc World R' unit :=
  call (
    modify_self (set_isData isData);;
    return_ tt).

(** [Sample.setQCD(isQCD=True, qcdSyst="uncorr")], lines 369-378. *)
Definition setQCD {R'} (isQCD : bool) (qcdSyst : string) : Proc World R' unit :=
  call (
    modify_self (set_isQCD isQCD);;
    modify_self (set_qcdSyst (Some qcdSyst));;
    return_ tt).

(** [Sample.setDiscovery(isDiscovery=True)], lines 380-387. *)
Definition setDiscovery {R'} (isDiscovery : bool) : Proc World R' unit :=
  call (
    modify_self (set_isDiscovery isDiscovery);;
    return_ tt).

(** [Sample.setPrefixTreeName(prefixTreeName)], lines 430-437. *)
Definition setPrefixTreeName {R'} (prefixTreeName : string) : Proc World R' unit :=
  call (
    modify_self (set_prefixTreeName prefixTreeName);;
    return_ tt).

(** [Sample.setSuffixTreeName(suffixTreeName)], lines 439-446. *)
Definition setSuffixTreeName {R'} (suffixTreeName : string) : Proc World R' unit :=
  call (
    modify_self (set_suffixTreeName suffixTreeName);;
    return_ tt).

(** [Sample.setOverrideTreename(name)], lines 547-548. *)
Definition setOverrideTreename {R'} (name_ : string) : Proc World R' unit :=
  call (modify_self (set_overrideTreename name_)).

(** ** The current systematic *)

(** A systematic handed over by name or as a descriptor; the methods
    tell the two apart with [isinstance(x, SystematicBase)]. *)
Definition SystRef : Type := (string + SystematicBase)%type.

(** [self.systDict[name]] as an expression. *)
Definition systDict_item {R} (name_ : string) : Proc World R SystematicBase :=
  d ← get_self systDict;
  match d !! name_ with
  | Some syst => ret syst
  | None => raise (KeyError name_)
  end.

(** [Sample.removeCurrentSystematic()], lines 550-551. *)
Definition removeCurrentSystematic {R'} : Proc World R' unit :=
  call (modify_self (set_currentSystematic None)).

(** [Sample.setCurrentSystematic(name, mode="nominal")], lines 553-579;
    [name] is [None], a string or a descriptor. *)
Definition setCurrentSystematic {R'} (name_ : option SystRef) (mode : string)
    : Proc World R' unit :=
  call (
    match name_ with
    | None =>
        removeCurrentSystematic;;
        return_ tt
    | Some ref =>
        _name ←
          match ref with
          | inr syst =>
              let _name := syst_name syst in
              when (bool_decide (syst_type syst = "weight")) (
                n ← get_self name;
                _ ← format
                      "setCurrentSystematic: sample {}, name {} is a weight - not setting suffix"
                      [n; _name];
                return_ tt);;
              ret _name
          | inl n => ret n
          end;
        n ← get_self name;
        _ ← format "setCurrentSystematic: sample {}, name {}" [n; _name];
        d ← get_self systDict;
        when (negb (has_key d _name)) (
          n ← get_self name;
          msg ← format "Sample {}: cannot set systematic to unknown {}" [n; _name];
          raise (ValueError msg));;
        when (bool_decide (lower mode = "high") || bool_decide (lower mode = "up")) (
          syst ← systDict_item _name;
          modify_self (set_currentSystematic (Some (syst_high syst)));;
          return_ tt);;
        when (bool_decide (lower mode = "low") || bool_decide (lower mode = "down")) (
          syst ← systDict_item _name;
          modify_self (set_currentSystematic (Some (syst_low syst)));;
          return_ tt);;
        syst ← systDict_item _name;
        modify_self (set_currentSystematic (Some (syst_nominal syst)))
    end).

(** ** Weights *)

(** [Sample.setWeights(weights)], lines 312-319. *)
Definition setWeights {R'} (weights : list string) : Proc World R' unit :=
  call (
    modify_self (set_weights weights);;
    return_ tt).

(** [Sample.addSampleSpecificWeight(weight)], lines 321-332. *)
Definition addSampleSpecificWeight {R'} (weight : string) : Proc World R' unit :=
  call (
    tw ← get_self tempWeights;
    if negb (bool_decide (weight ∈ tw)) then
      modify_self (fun s => set_tempWeights (tempWeights s ++ [weight])%list s)
    else
      n ← get_self name;
      raise (RuntimeError
               ("Weight " +:+ weight +:+ " already defined for sample " +:+ n))).

(** ** Normalisation and shape factors *)

(** [if not name in configMgr.normList: configMgr.normList.append(name)]. *)
Definition register_norm {R} (name_ : string) : Proc World R unit :=
  nl ← get_cfg cfg_normList;
  when (negb (bool_decide (name_ ∈ nl)))
    (liftC (modify (fun c => set_normList (cfg_normList c ++ [name_])%list c))).

(** [Sample.addNormFactor(name, val, high, low, const=False)],
    lines 1155-1168. *)
Definition addNormFactor {R'} (name_ : string) (val high low : Q) (const : bool)
    : Proc World R' unit :=
  call (
    modify_self (fun s =>
      set_normFactor (normFactor s ++ [(name_, val, high, low, const)])%list s);;
    register_norm name_;;
    return_ tt).

(** [Sample.setNormFactor(name, val, low, high, const=False)],
    lines 1170-1184. *)
Definition setNormFactor {R'} (name_ : string) (val low high : Q) (const : bool)
    : Proc World R' unit :=
  call (
    modify_self (set_normFactor []);;
    modify_self (fun s =>
      set_normFactor (normFactor s ++ [(name_, val, high, low, const)])%list s);;
    register_norm name_;;
    return_ tt).

(** [Sample.addShapeFactor(name)], lines 1246-1252. *)
Definition addShapeFactor {R'} (name_ : string) : Proc World R' unit :=
  call (
    modify_self (fun s => set_shapeFactorList (shapeFactorList s ++ [name_])%list s)).

(** ** Methods that raise [Exception]

    [addSystematic] and [buildStatErrors] raise the base class [Exception]
    itself.  In their bodies such a raise is never caught, so it leaves
    the body the way a [return] does; the method then ends with the
    exception. *)

(** What a method ends with when it does not return. *)
Inductive Raised : Type :=
| Builtin (e : PyExc)
| Exception (msg : string).

(** How the body of such a method is left early. *)
Inductive Exit (A : Type) : Type :=
| Returned (a : A)
| Raised_Exception (msg : string).
Arguments Returned {A} a.
Arguments Raised_Exception {A} msg.

Definition Method (S A : Type) : Type := S -> (Raised + A) * S.

(** [raise Exception(msg)]. *)
Definition raise_Exception {S A B} (msg : string) : Proc S (Exit A) B :=
  return_ (Raised_Exception msg).

(** The method with the given body. *)
Definition method {S A} (body : Proc S (Exit A) A) : Method S A :=
  fun s =>
    match body s with
    | (Normal a, s') => (inr a, s')
    | (Return (Returned a), s') => (inr a, s')
    | (Return (Raised_Exception msg), s') => (inl (Exception msg), s')
    | (Raise e, s') => (inl (Builtin e), s')
    end.

(** A call of such a method from the body of another. *)
Definition invoke {S A B} (m : Method S A) : Proc S (Exit B) A :=
  fun s =>
    match m s with
    | (inr a, s') => (Normal a, s')
    | (inl (Builtin e), s') => (Raise e, s')
    | (inl (Exception msg), s') => (Return (Raised_Exception msg), s')
    end.

(** ** The sample's own systematics *)

(** [name = systName; if isinstance(systName, SystematicBase):
    name = systName.name]. *)
Definition ref_name (systName : SystRef) : string :=
  match systName with
  | inl n => n
  | inr syst => syst_name syst
  end.

Section Systematics.
(** [hex(id(self))], the address of the sample. *)
Variable hex_id_self : string.

(** [Sample.addSystematic(syst)], lines 1254-1269.  [syst.Clone()] is a
    copy of the descriptor with the same attributes. *)
Definition addSystematic (syst : SystematicBase) : Method World unit :=
  method (
    data ← get_self isData;
    when data (
      n ← get_self name;
      _ ← format "Sample {} is data - not adding systematic {}" [n; syst_name syst];
      return_ (Returned tt));;
    n ← get_self name;
    _ ← format "Adding systematic {} to sample {} ({})" [syst_name syst; n; hex_id_self];
    d ← get_self systDict;
    if has_key d (syst_name syst) then
      n ← get_self name;
      raise_Exception
        ("Attempt to overwrite systematic " +:+ syst_name syst +:+ " in Sample " +:+ n
         +:+ " (" +:+ hex_id_self +:+ ")")
    else
      modify_self (fun s => set_systDict (<[syst_name syst := syst]> (systDict s)) s);;
      return_ (Returned tt)).

(** [Sample.getSystematic(systName)], lines 1342-1359. *)
Definition getSystematic {R'} (systName : SystRef)
    : Proc World R' (option SystematicBase) :=
  call (
    let name_ := ref_name systName in
    d ← get_self systDict;
    match d !! name_ with
    | Some syst => return_ (Some syst)
    | None => ret tt
    end;;
    return_ None).

(** [Sample.removeSystematic(systName)], lines 1361-1372. *)
Definition removeSystematic {R'} (systName : SystRef) : Proc World R' unit :=
  call (
    let name_ := ref_name systName in
    d ← get_self systDict;
    if has_key d name_ then
      modify_self (fun s => set_systDict (delete name_ (systDict s)) s)
    else raise (KeyError name_)).

(** [Sample.clearSystematics()], lines 1374-1379. *)
Definition clearSystematics {R'} : Proc World R' unit :=
  call (
    n ← get_self name;
    _ ← format "Clearing systematics for {} ({})" [n; hex_id_self];
    modify_self (set_systDict ∅)).

(** [Sample.replaceSystematic(old, new)], lines 1381-1390. *)
Definition replaceSystematic (old : SystRef) (new : SystematicBase) : Method World unit :=
  method (
    removeSystematic old;;
    invoke (addSystematic new)).
End Systematics.

(** ** Reading and editing the stored systematics *)

(** [syst[0]] on an entry of [overallSystList]. *)
Definition overallSys_name (syst : string * Q * Q) : string := syst.1.1.

(** [syst[0]] on an entry of [histoSystList]. *)
Definition histoSys_name (syst : HistoSysEntry) : string :=
  let '(systName, _, _, _, _, _, _, _) := syst in systName.

(** [Sample.getOverallSys(name)], lines 1271-1279. *)
Definition getOverallSys {R'} (name_ : string)
    : Proc World R' (option (string * Q * Q)) :=
  call (
    l ← get_self overallSystList;
    for_ l (fun syst =>
      when (bool_decide (name_ = overallSys_name syst)) (return_ (Some syst)));;
    return_ None).

(** [Sample.replaceOverallSys(rsyst)], lines 1281-1291. *)
Definition replaceOverallSys {R'} (rsyst : string * Q * Q) : Proc World R' unit :=
  call (
    l ← get_self overallSystList;
    for_ (xrange 0 (length l)) (fun idx =>
      l ← get_self overallSystList;
      syst ← list_item l idx;
      when (bool_decide (overallSys_name rsyst = overallSys_name syst)) (
        modify_self (fun s => set_overallSystList (<[idx := rsyst]> (overallSystList s)) s);;
        return_ tt))).

(** [Sample.getHistoSys(name)], lines 1293-1301. *)
Definition getHistoSys {R'} (name_ : string) : Proc World R' (option HistoSysEntry) :=
  call (
    l ← get_self histoSystList;
    for_ l (fun syst =>
      when (bool_decide (name_ = histoSys_name syst)) (return_ (Some syst)));;
    return_ None).

(** [Sample.replaceHistoSys(rsyst)], lines 1303-1313. *)
Definition replaceHistoSys {R'} (rsyst : HistoSysEntry) : Proc World R' unit :=
  call (
    l ← get_self histoSystList;
    for_ (xrange 0 (length l)) (fun idx =>
      l ← get_self histoSystList;
      syst ← list_item l idx;
      when (bool_decide (histoSys_name rsyst = histoSys_name syst)) (
        modify_self (fun s => set_histoSystList (<[idx := rsyst]> (histoSystList s)) s);;
        return_ tt))).

(** [Sample.removeOverallSys(systName)], lines 1315-1326. *)
Definition removeOverallSys {R'} (systName : string) : Proc World R' unit :=
  call (
    l ← get_self overallSystList;
    for_ (xrange 0 (length l)) (fun idx =>
      l ← get_self overallSystList;
      syst ← list_item l idx;
      when (bool_decide (systName = overallSys_name syst)) (
        modify_self (fun s => set_overallSystList (delete idx (overallSystList s)) s);;
        removeSystematic (inl systName);;
        return_ tt))).

(** ** Histograms given by hand *)

(** ROOT's [TH1F(name, title, nbinsx, xlow, xup)], of the same external
    library as [Hist]: a histogram of [nbinsx] bins, all cells empty;
    asked for no bin it makes one.  The embedding of a histogram holds the
    name, the contents and the errors; the title and the axis range are
    not part of it. *)
Definition TH1F (name_ title : string) (nbinsx : nat) (xlow xup : Q) : Hist :=
  {| GetName := name_;
     fArray := replicate (Nat.max 1 nbinsx + 2) 0;
     fSumw2 := replicate (Nat.max 1 nbinsx + 2) 0 |}.

(** A sample together with the attributes that [__init__] does not
    create; such an attribute is [None] until a method assigns it, and
    reading it before that is an [AttributeError]. *)
Record Object : Type := mkObject {
  world : World;
  histoName : option string;
  binValues : option (gmap (string * string) (list Q));
  binStatErrors : option (gmap (string * string) (list Q))
}.

Definition set_world (v : World) (o : Object) : Object :=
  {| world := v; histoName := histoName o; binValues := binValues o;
     binStatErrors := binStatErrors o |}.

Definition set_histoName (v : option string) (o : Object) : Object :=
  {| world := world o; histoName := v; binValues := binValues o;
     binStatErrors := binStatErrors o |}.

Definition set_binValues (v : option (gmap (string * string) (list Q))) (o : Object)
    : Object :=
  {| world := world o; histoName := histoName o; binValues := v;
     binStatErrors := binStatErrors o |}.

Definition set_binStatErrors (v : option (gmap (string * string) (list Q))) (o : Object)
    : Object :=
  {| world := world o; histoName := histoName o; binValues := binValues o;
     binStatErrors := v |}.

(** A sample as [__init__] leaves it. *)
Definition new_Object (w : World) : Object :=
  {| world := w; histoName := None; binValues := None; binStatErrors := None |}.

(** How Python shows the key [(region, var)] of a [KeyError], for strings
    without quotes or escapes. *)
Definition key_repr (key : string * string) : string :=
  "('" +:+ key.1 +:+ "', '" +:+ key.2 +:+ "')".

Section ObjectAccess.
Context {R : Type}.

(** Run a statement that does not touch these attributes. *)
Definition liftW {A} (m : Proc World R A) : Proc Object R A :=
  fun o => let '(r, w) := m (world o) in (r, set_world w o).

(** [self.attribute] as an expression. *)
Definition attribute {A} (f : Object -> option A) : Proc Object R A :=
  fun o =>
    match f o with
    | Some a => (Normal a, o)
    | None => (Raise AttributeError, o)
    end.

(** [d[key]] on a dictionary keyed by [(region, var)]. *)
Definition dict_item {S A : Type} (d : gmap (string * string) A) (key : string * string)
    : Proc S R A :=
  match d !! key with
  | Some a => ret a
  | None => raise (KeyError (key_repr key))
  end.

(** The name of the sample's own histogram in a region, lines 236-239
    and 265-268. *)
Definition assign_histoName (region var : string) : Proc Object R unit :=
  data ← liftW (get_self isData);
  n ← liftW (get_self name);
  if negb data then
    modify (set_histoName (Some ("h" +:+ n +:+ "Nom_" +:+ region +:+ "_obs_" +:+ var)))
  else
    modify (set_histoName (Some ("h" +:+ n +:+ "_" +:+ region +:+ "_obs_" +:+ var))).
End ObjectAccess.

(** [Sample.setHistoName(histoName)], lines 411-419. *)
Definition setHistoName {R'} (histoName_ : string) : Proc Object R' unit :=
  call (
    _ ← format "Setting histoName to {}" [histoName_];
    modify (set_histoName (Some histoName_));;
    return_ tt).

(** [Sample.buildHisto(binValues, region, var, binLow=0.5, binWidth=1.)],
    lines 221-246. *)
Definition buildHisto {R'} (binValues_ : list Q) (region var : string)
    (binLow binWidth : Q) : Proc Object R' unit :=
  call (
    try_AttributeError
      (d ← attribute binValues;
       modify (set_binValues (Some (<[(region, var) := binValues_]> d))))
      (modify (set_binValues (Some ∅));;
       d ← attribute binValues;
       modify (set_binValues (Some (<[(region, var) := binValues_]> d))));;
    assign_histoName region var;;
    hName ← attribute histoName;
    d ← attribute binValues;
    vals ← dict_item d (region, var);
    let nbins := length vals in
    liftW (liftC (hists_set hName
      (Some (TH1F hName hName nbins binLow
               (inject_Z (Z.of_nat nbins) * binWidth + binLow)))));;
    d ← attribute binValues;
    vals ← dict_item d (region, var);
    for_ (enumerate vals) (fun p =>
      let '(iBin, val) := p in
      hName ← attribute histoName;
      liftW (liftC (hists_update hName (SetBinContent (iBin + 1) val))));;
    return_ tt).

(** [Sample.buildStatErrors(binStatErrors, region, var)], lines 248-274. *)
Definition buildStatErrors (binStatErrors_ : list Q) (region var : string)
    : Method Object unit :=
  method (
    try_AttributeError
      (d ← attribute binStatErrors;
       modify (set_binStatErrors (Some (<[(region, var) := binStatErrors_]> d))))
      (modify (set_binStatErrors (Some ∅));;
       d ← attribute binStatErrors;
       modify (set_binStatErrors (Some (<[(region, var) := binStatErrors_]> d))));;
    d ← attribute binStatErrors;
    errs ← dict_item d (region, var);
    d ← attribute binValues;
    vals ← dict_item d (region, var);
    when (negb (length errs =? length vals)%nat)
      (raise_Exception
         ("Length of errors list in region " +:+ region +:+ " and variable " +:+ var
          +:+ " does not match the nominal histogram!"));;
    assign_histoName region var;;
    d ← attribute binStatErrors;
    errs ← dict_item d (region, var);
    for_ (enumerate errs) (fun p =>
      let '(iBin, err) := p in
      try_except
        (hName ← attribute histoName;
         liftW (liftC (hists_update hName (SetBinError (iBin + 1) err))))
        (raise_Exception "Errors specified without building histogram!"))).

(** ** [Sample.addShapeStat] *)

Section ShapeStat.
(** The square root on floats, by which a histogram turns the sum of
    squared weights it keeps into the error of a bin. *)
Variable sqrt : Q -> Q.

(** [GetBinError(i)]. *)
Definition GetBinError (h : Hist) (i : nat) : Q := sqrt (default 0 (fSumw2 h !! i)).

(** [Sample.addShapeStat(systName, nomName, constraintType="Gaussian",
    statErrorThreshold=None)], lines 1070-1096. *)
Definition addShapeStat {R'} (systName nomName constraintType : string)
    (statErrorThreshold : option Q) : Proc World R' unit :=
  call (
    let histName := nomName +:+ "Norm" in
    liftC (clone_as histName nomName);;
    h0 ← liftC (hists_obj histName);
    for_ (xrange 0 (GetNbinsX h0 + 1)) (fun iBin =>
      liftC (
        try_ZeroDivisionError (
          hn ← hists_obj nomName;
          let err := GetBinError hn iBin in
          hn ← hists_obj nomName;
          ratio ← py_div err (GetBinContent hn iBin);
          let ratio :=
            match statErrorThreshold with
            | Some threshold => if Qltb ratio threshold then 0.0 else ratio
            | None => ratio
            end in
          hists_update histName (SetBinContent iBin ratio);;
          hists_update histName (SetBinError iBin 0.0);;
          _ ← hists_obj histName;
          ret tt)
        (hists_update histName (SetBinContent iBin 0.0);;
         hists_update histName (SetBinError iBin 0.0))));;
    register_syst systName;;
    return_ tt).
End ShapeStat.

(** * The vocabulary of the properties

    Definitions in which the properties below are stated: closed forms of
    what a method computes, the relations a call keeps between the world
    before and after it, sequences of calls, and the worlds of the
    examples. *)

(** ** [addOverallSys] in closed form

    What the method stores is a function of [high] and [low] alone. *)

(** Lines 1116-1128: the mirror steps. *)
Definition overall_mirrored (high low : Q) : Q * Q :=
  let low := if Qeq_bool high low then 2.0 - high else low in
  let high :=
    if Qeq_bool high 1.0 && Qltb 0.0 low && negb (Qeq_bool low 1.0)
    then 2.0 - low else high in
  let low :=
    if Qeq_bool low 1.0 && Qltb 0.0 high && negb (Qeq_bool high 1.0)
    then 2.0 - high else low in
  (high, low).

(** Lines 1130-1136: the floor at [0.01]. *)
Definition overall_clamped (p : Q * Q) : Q * Q :=
  let '(high, low) := p in
  let low := if Qltb low 0.01 then 0.01 else low in
  let high := if Qltb high 0.01 then 0.01 else high in
  (high, low).

(** Lines 1108-1114: the no-information tests on the arguments. *)
Definition overall_exact_noinfo (high low : Q) : bool :=
  (Qeq_bool high 1.0 && Qeq_bool low 1.0) || (Qeq_bool high 0.0 && Qeq_bool low 0.0).

(** Lines 1142-1148: the same tests, with tolerance, on the resolved
    pair. *)
Definition overall_near_noinfo (p : Q * Q) : bool :=
  let '(high, low) := p in
  (Qltb (fabs (high - 1.0)) 1E-5 && Qltb (fabs (low - 1.0)) 1E-5)
  || (Qltb (fabs high) 1E-5 && Qltb (fabs low) 1E-5).

(** Lines 1150-1152: the entry is stored and the name registered. *)
Definition overall_stored (systName : string) (p : Q * Q) (w : World) : World :=
  let '(high, low) := p in
  let s := self w in
  let s := set_overallSystList (overallSystList s ++ [(systName, high, low)]) s in
  let s :=
    if has_key (cfg_systDict (configMgr w)) systName then s
    else set_systList (systList s ++ [systName]) s in
  mkWorld (configMgr w) s.

(** The pair that is stored, if any. *)
Definition overall_resolved (high low : Q) : option (Q * Q) :=
  if overall_exact_noinfo high low then None
  else
    let p := overall_clamped (overall_mirrored high low) in
    if overall_near_noinfo p then None else Some p.

(** An entry without information content: high and low both within
    [1e-5] of [1.0], or both within [1e-5] of [0.0]. *)
Definition no_information (e : string * Q * Q) : Prop :=
  let '(_, high, low) := e in
  (Qabs (high - 1) < 1e-5 /\ Qabs (low - 1) < 1e-5)
  \/ (Qabs (high - 0) < 1e-5 /\ Qabs (low - 0) < 1e-5).

(** ** Frames *)

(** [stays Rel m]: whatever the outcome of [m] (also an early return or a
    raise), the final state is [Rel]-related to the initial one. *)
Definition stays {S R A} (Rel : S -> S -> Prop) (m : Proc S R A) : Prop :=
  forall s, Rel s (snd (m s)).

(** The histogram store is the only part of [configMgr] that differs. *)
Definition only_hists (c c' : ConfigMgr) : Prop :=
  c' = set_hists (cfg_hists c') c.

(** The name is not a key of [configMgr.systDict]. *)
Definition unregistered (c : ConfigMgr) (x : string) : Prop :=
  has_key (cfg_systDict c) x = false.

(** What a systematics call can change in the world.  Besides the
    histogram store: [histoSystList], [overallSystList] and [systList]
    only grow at their end, [overallSystList] only by entries that carry
    information, [systList] only by names that are not keys of
    [configMgr.systDict], and [shapeSystList] stays as it is. *)
Definition sys_step (w w' : World) : Prop :=
  only_hists (configMgr w) (configMgr w')
  /\ shapeSystList (self w') = shapeSystList (self w)
  /\ (exists l, histoSystList (self w') = (histoSystList (self w) ++ l)%list)
  /\ (exists l, overallSystList (self w') = (overallSystList (self w) ++ l)%list
                /\ Forall (fun e => ~ no_information e) l)
  /\ (exists l, systList (self w') = (systList (self w) ++ l)%list
                /\ Forall (unregistered (configMgr w)) l).

(** ** Sequences of calls *)

(** A call of one of the two methods, with its arguments. *)
Inductive SystCall : Type :=
| Call_addOverallSys (systName : string) (high low : Q)
| Call_addHistoSys (systName nomName highName lowName : string)
    (includeOverallSys normalizeSys symmetrize oneSide : bool)
    (samName normString nomSysName : string) (symmetrizeEnvelope : bool).

(** The world after a call, whatever its outcome. *)
Definition run_call (c : SystCall) (w : World) : World :=
  match c with
  | Call_addOverallSys systName high low =>
      snd (@addOverallSys unit systName high low w)
  | Call_addHistoSys systName nomName highName lowName
      includeOverallSys normalizeSys symmetrize oneSide
      samName normString nomSysName symmetrizeEnvelope =>
      snd (@addHistoSys systName nomName highName lowName oneSide samName normString
             nomSysName symmetrizeEnvelope unit includeOverallSys normalizeSys symmetrize w)
  end.

(** The world after a sequence of calls; a caller may catch what a call
    raises and go on. *)
Definition run_calls (cs : list SystCall) (w : World) : World :=
  fold_left (fun w c => run_call c w) cs w.

(** ** Closed forms of names and entries *)

(** The variation after the renamings of lines 516-523. *)
Definition resolved_variation (variation : string) : string :=
  let variation := if bool_decide (variation = "") then "Nom" else variation in
  let variation := if bool_decide (variation = "Up") then "High" else variation in
  if bool_decide (variation = "Down") then "Low" else variation.

(** What [getTreenameSuffix] returns, as a function of the state it
    reads. *)
Definition treename_suffix (w : World) : string :=
  let s := self w in
  if negb (bool_decide (suffixTreeName s = "")) then suffixTreeName s
  else if negb (isData s) && negb (isQCD s) && negb (isDiscovery s) then
    match currentSystematic s with
    | Some sys => sys
    | None => cfg_nomName (configMgr w)
    end
  else "".

(** The entry of [histoSystList] for a systematic. *)
Definition histoSys_entry (c : ConfigMgr) (systName high low : string) : HistoSysEntry :=
  (systName, high, low, cfg_histCacheFile c, "", "", "", "").

(** The sample after [register_syst]. *)
Definition registered (c : ConfigMgr) (systName : string) (s : Sample) : Sample :=
  if has_key (cfg_systDict c) systName then s
  else set_systList (systList s ++ [systName]) s.

(** ** The envelope, bin by bin *)

(** The half-width of the symmetric envelope in bin [i], lines 115-118. *)
Definition envelope_err (hn hl hh : Hist) (i : nat) : Q :=
  py_max (fabs (GetBinContent hn i - GetBinContent hl i))
         (fabs (GetBinContent hh i - GetBinContent hn i)).

(** One turn of the loop, on the low and the high histogram. *)
Definition envelope_bin (hn : Hist) (lh : Hist * Hist) (i : nat) : Hist * Hist :=
  let '(hl, hh) := lh in
  (SetBinContent i (GetBinContent hn i - envelope_err hn hl hh i) hl,
   SetBinContent i (GetBinContent hn i + envelope_err hn hl hh i) hh).

(** The store with the low and the high histogram replaced. *)
Definition envelope_store (lowName highName : string) (c : ConfigMgr)
    (lh : Hist * Hist) : ConfigMgr :=
  set_hists (<[lowName := Some (fst lh)]> (<[highName := Some (snd lh)]> (cfg_hists c))) c.

(** ** Worlds of the examples *)

(** A histogram with the given contents in bins [1 .. N], empty underflow
    and overflow, and unit squared errors. *)
Definition hist_of_bins (name : string) (binValues : list Q) : Hist :=
  {| GetName := name;
     fArray := (0 :: binValues ++ [0])%list;
     fSumw2 := replicate (length binValues + 2) 1 |}.

(** A configuration manager with an empty systematics registry and the
    given histograms. *)
Definition cfg_with (hs : list (string * list Q)) : ConfigMgr :=
  {| cfg_hists := list_to_map (map (fun '(n, l) => (n, Some (hist_of_bins n l))) hs);
     cfg_histCacheFile := "data/histCache.root";
     cfg_nomName := "_NoSys";
     cfg_systDict := ∅;
     cfg_normList := [] |}.

(** A fresh sample named [ttbar] in such a configuration. *)
Definition world_with (hs : list (string * list Q)) : World :=
  mkWorld (cfg_with hs) (new_Sample "ttbar" 1).

(** ** More worlds of the examples *)

(** A channel of one region [SR], binned in [cuts], that blinds no fit
    configuration. *)
Definition channel_SR : Channel :=
  {| regions := ["SR"];
     variableName := "cuts";
     channel_isBlinded := fun _ => false;
     parentTopLvl := {| channels := []; bkgConstrainChannels := []; signalChannels := [] |} |}.

(** The sample [s] placed in the channel [ch]. *)
Definition in_channel (ch : Channel) (s : Sample) : Sample :=
  {| name := name s; color := color s; isData := isData s; isQCD := isQCD s;
     isDiscovery := isDiscovery s; write := write s;
     normByTheory := normByTheory s; statConfig := statConfig s;
     histoSystList := histoSystList s; shapeSystList := shapeSystList s;
     overallSystList := overallSystList s;
     shapeFactorList := shapeFactorList s; systList := systList s;
     weights := weights s; tempWeights := tempWeights s;
     systDict := systDict s; currentSystematic := currentSystematic s;
     normFactor := normFactor s; qcdSyst := qcdSyst s; unit_ := unit_ s;
     cutsDict := cutsDict s; input_files := input_files s;
     overrideTreename := overrideTreename s;
     prefixTreeName := prefixTreeName s; suffixTreeName := suffixTreeName s;
     friendTreeName := friendTreeName s; additionalCuts := additionalCuts s;
     xsecWeight := xsecWeight s; xsecUp := xsecUp s; xsecDown := xsecDown s;
     normRegions := normRegions s; normSampleRemap := normSampleRemap s;
     noRenormSys := noRenormSys s; parentChannel := Some ch;
     allowRemapOfSyst := allowRemapOfSyst s;
     mergeOverallSysSet := mergeOverallSysSet s;
     toBeMerged := toBeMerged s |}.

(** A tree systematic with the usual suffixes. *)
Definition syst_JES : SystematicBase :=
  {| syst_name := "JES"; syst_type := "tree"; syst_nominal := "_NoSys";
     syst_high := "_JESup"; syst_low := "_JESdown" |}.

(** ** The suffix of a variation *)

(** The tree suffix that [setCurrentSystematic] takes from a descriptor:
    the mode is compared in lower case, [high] and [up] select the high
    suffix, [low] and [down] the low one, anything else the nominal
    one. *)
Definition variation_suffix (mode : string) (syst : SystematicBase) : string :=
  if bool_decide (lower mode = "high") || bool_decide (lower mode = "up")
  then syst_high syst
  else if bool_decide (lower mode = "low") || bool_decide (lower mode = "down")
       then syst_low syst
       else syst_nominal syst.

(** The prefix of the tree name once it has been read. *)
Definition tree_prefix (s : Sample) : string :=
  if bool_decide (prefixTreeName s = "") then name s else prefixTreeName s.

(** The fresh sample [ttbar] holding the systematic [JES]. *)
Definition world_with_JES : World :=
  mkWorld (cfg_with [])
    (set_systDict (<["JES" := syst_JES]> ∅) (new_Sample "ttbar" 1)).

(** ** Sequences of further calls *)

(** The world after adding the systematics one after the other; a caller
    may catch what a call raises and go on. *)
Definition addSystematics (hex_id_self : string) (systs : list SystematicBase)
    (w : World) : World :=
  fold_left (fun w syst => snd (addSystematic hex_id_self syst w)) systs w.

(** ** Lists of entries searched by name *)

(** The list with its first entry of the name of [rsyst] replaced by
    [rsyst]. *)
Fixpoint replace_first {E} (entry_name : E -> string) (rsyst : E) (l : list E) : list E :=
  match l with
  | [] => []
  | e :: l' =>
      if bool_decide (entry_name rsyst = entry_name e) then rsyst :: l'
      else e :: replace_first entry_name rsyst l'
  end.

(** The list without its first entry of the given name. *)
Fixpoint remove_first {E} (entry_name : E -> string) (n : string) (l : list E) : list E :=
  match l with
  | [] => []
  | e :: l' =>
      if bool_decide (n = entry_name e) then l'
      else e :: remove_first entry_name n l'
  end.

(** The first entry of the given name. *)
Definition first_named {E} (entry_name : E -> string) (n : string) (l : list E)
    : option E :=
  find (fun e => bool_decide (n = entry_name e)) l.

(** A call of one of the two methods that store a normalisation factor,
    with its arguments in the order of the method's parameters. *)
Inductive NormCall : Type :=
| Call_addNormFactor (name_ : string) (val high low : Q) (const : bool)
| Call_setNormFactor (name_ : string) (val low high : Q) (const : bool).

Definition run_norm_call (c : NormCall) (w : World) : World :=
  match c with
  | Call_addNormFactor name_ val high low const =>
      snd (@addNormFactor unit name_ val high low const w)
  | Call_setNormFactor name_ val low high const =>
      snd (@setNormFactor unit name_ val low high const w)
  end.

Definition run_norm_calls (cs : list NormCall) (w : World) : World :=
  fold_left (fun w c => run_norm_call c w) cs w.

(** [normFactor[0]] on an entry of [normFactor]. *)
Definition normFactor_name (e : string * Q * Q * Q * bool) : string :=
  let '(n, _, _, _, _) := e in n.

(** The sample-specific weights added one after the other. *)
Definition addSampleSpecificWeights (weights : list string) (w : World) : World :=
  fold_left (fun w weight => snd (@addSampleSpecificWeight unit weight w)) weights w.

(** ** Histograms given by hand *)

(** The name of the sample's own histogram in a region. *)
Definition own_histoName (s : Sample) (region var : string) : string :=
  if negb (isData s) then "h" +:+ name s +:+ "Nom_" +:+ region +:+ "_obs_" +:+ var
  else "h" +:+ name s +:+ "_" +:+ region +:+ "_obs_" +:+ var.

(** The histogram with the given contents in its bins, empty underflow
    and overflow, and no errors; without contents it has one empty bin. *)
Definition hist_by_hand (hName : string) (vals : list Q) : Hist :=
  {| GetName := hName;
     fArray := (0 :: match vals with [] => [0] | _ => vals end ++ [0])%list;
     fSumw2 := replicate (Nat.max 1 (length vals) + 2) 0 |}.

(** The object after [buildHisto]. *)
Definition built (binValues_ : list Q) (region var : string) (o : Object) : Object :=
  let w := world o in
  let hName := own_histoName (self w) region var in
  {| world :=
       mkWorld
         (set_hists (<[hName := Some (hist_by_hand hName binValues_)]>
                       (cfg_hists (configMgr w))) (configMgr w))
         (self w);
     histoName := Some hName;
     binValues := Some (<[(region, var) := binValues_]> (default ∅ (binValues o)));
     binStatErrors := binStatErrors o |}.

(** The errors of a histogram set bin by bin from bin 1 on; they are kept
    as squares. *)
Definition with_errors (errs : list Q) (h : Hist) : Hist :=
  fold_left (fun h p => SetBinError (p.1 + 1) p.2 h) (enumerate errs) h.

(** The object once [buildStatErrors] has recorded the errors it was
    given. *)
Definition errors_recorded (binStatErrors_ : list Q) (region var : string) (o : Object)
    : Object :=
  set_binStatErrors
    (Some (<[(region, var) := binStatErrors_]> (default ∅ (binStatErrors o)))) o.

(** The object with the histogram of the given name replaced. *)
Definition with_hist (hName : string) (h : Hist) (o : Object) : Object :=
  set_world
    (mkWorld
       (set_hists (<[hName := Some h]> (cfg_hists (configMgr (world o))))
          (configMgr (world o)))
       (self (world o))) o.

(** ** The floor of the overall systematics *)

(** Both values of the entry are at least [0.01]. *)
Definition floored (e : string * Q * Q) : Prop :=
  0.01 <= e.1.2 /\ 0.01 <= e.2.

(** [overallSystList] has only grown at its end, by floored entries. *)
Definition overall_step (w w' : World) : Prop :=
  exists l, overallSystList (self w') = (overallSystList (self w) ++ l)%list
            /\ Forall floored l.

(** ** The one-sided mirror, bin by bin *)

(** One turn of the loop that sets the negative bins of the mirrored
    histogram to zero. *)
Definition clamp_bin (h : Hist) (iBin : nat) : Hist :=
  if Qltb (GetBinContent h iBin) 0.0 then SetBinContent iBin 0.0 h else h.

(** The mirrored histogram before the loop: twice the nominal minus the
    high one. *)
Definition mirrored_low (lowName : string) (hn hh : Hist) : Hist :=
  Add (Some hh) (-1.0) (Scale 2.0 (Clone lowName hn)).

(** The low histogram after the one-sided mirror. *)
Definition oneSide_low (lowName : string) (hn hh : Hist) : Hist :=
  fold_left clamp_bin (xrange 1 (GetNbinsX (mirrored_low lowName hn hh) + 1))
    (mirrored_low lowName hn hh).

(** ** [addShapeStat], bin by bin *)

(** The relative statistical error that [addShapeStat] stores for a bin:
    zero for an empty bin and for a ratio below the threshold. *)
Definition stat_ratio (sqrt : Q -> Q) (statErrorThreshold : option Q) (hn : Hist)
    (iBin : nat) : Q :=
  if Qeq_bool (GetBinContent hn iBin) 0 then 0.0
  else
    let ratio := GetBinError sqrt hn iBin / GetBinContent hn iBin in
    match statErrorThreshold with
    | Some threshold => if Qltb ratio threshold then 0.0 else ratio
    | None => ratio
    end.

(** One turn of its loop. *)
Definition stat_bin (sqrt : Q -> Q) (statErrorThreshold : option Q) (hn : Hist)
    (h : Hist) (iBin : nat) : Hist :=
  SetBinError iBin 0.0 (SetBinContent iBin (stat_ratio sqrt statErrorThreshold hn iBin) h).

(** The histogram it stores. *)
Definition shapeStat_hist (sqrt : Q -> Q) (statErrorThreshold : option Q)
    (histName : string) (hn : Hist) : Hist :=
  fold_left (stat_bin sqrt statErrorThreshold hn)
    (xrange 0 (GetNbinsX (Clone histName hn) + 1)) (Clone histName hn).

(** ** The default normalisation regions *)

(** The regions [addHistoSys] takes from the parent channel's top-level
    configuration when the sample has none, lines 686-697: those of its
    constraining and signal channels. *)
Definition default_normRegions (ch : Channel) : list (string * string) :=
  let tl := parentTopLvl ch in
  map (fun ch => (regionString ch, ref_variableName ch))
    (filter (fun ch =>
               channelName ch ∈ bkgConstrainChannels tl
               ∨ channelName ch ∈ signalChannels tl)
       (channels tl)).

(** ** [addShapeSys], bin by bin *)

(** The relative deviation of a content from the nominal one; zero where
    the nominal content is zero. *)
Definition rel_dev (content nominal : Q) : Q :=
  if Qeq_bool nominal 0 then 0.0 else fabs (content / nominal - 1.0).

(** One turn of the loops over the high and the low copy. *)
Definition rel_bin (hn h : Hist) (iBin : nat) : Hist :=
  SetBinError iBin 0.0
    (SetBinContent iBin (rel_dev (GetBinContent h iBin) (GetBinContent hn iBin)) h).

(** The copy of [h] after such a loop. *)
Definition relative_hist (histName : string) (hn h : Hist) : Hist :=
  fold_left (rel_bin hn) (xrange 0 (GetNbinsX (Clone histName h) + 1)) (Clone histName h).

(** One turn of the loop over the nominal copy. *)
Definition max_bin (relHigh relLow h : Hist) (iBin : nat) : Hist :=
  SetBinError iBin 0.0
    (SetBinContent iBin (py_max (GetBinContent relHigh iBin) (GetBinContent relLow iBin)) h).

(** The nominal copy after its loop. *)
Definition shapeSys_hist (histName : string) (hn relHigh relLow : Hist) : Hist :=
  fold_left (max_bin relHigh relLow) (xrange 0 (GetNbinsX (Clone histName hn) + 1))
    (Clone histName hn).

(** * Properties *)

(** ** Comparisons *)

Lemma Qltb_lt (a b : Q) : Qltb a b = true <-> a < b.
Proof.
  unfold Qltb. rewrite negb_true_iff.
  split; intros H.
  - apply Qnot_le_lt. intros Hle. apply Qle_bool_iff in Hle. congruence.
  - destruct (Qle_bool b a) eqn:E; [|reflexivity].
    apply Qle_bool_iff in E. exfalso. eapply Qlt_not_le; eauto.
Qed.

Lemma Qltb_ge (a b : Q) : Qltb a b = false <-> b <= a.
Proof.
  unfold Qltb. rewrite negb_false_iff. apply Qle_bool_iff.
Qed.

Lemma Qeq_bool_false (a b : Q) : Qeq_bool a b = false <-> ~ a == b.
Proof.
  split; intros H.
  - intros E. apply Qeq_bool_iff in E. congruence.
  - destruct (Qeq_bool a b) eqn:E; [|reflexivity].
    apply Qeq_bool_iff in E. contradiction.
Qed.

(** Turn the boolean tests of the embedding found in the context into
    (in)equalities of rationals. *)
Ltac reflect_Q :=
  repeat match goal with
    | H : _ && _ = true |- _ => apply andb_true_iff in H; destruct H
    | H : _ || _ = false |- _ => apply orb_false_iff in H; destruct H
    | H : negb _ = true |- _ => apply negb_true_iff in H
    | H : negb _ = false |- _ => apply negb_false_iff in H
    | H : Qltb _ _ = true |- _ => apply Qltb_lt in H
    | H : Qltb _ _ = false |- _ => apply Qltb_ge in H
    | H : Qeq_bool _ _ = true |- _ => apply Qeq_bool_iff in H
    | H : Qeq_bool _ _ = false |- _ => apply Qeq_bool_false in H
    end.

Lemma Qabs_pos_or_neg (x : Q) :
  (0 <= x /\ Qabs x == x) \/ (x <= 0 /\ Qabs x == - x).
Proof.
  destruct (Qlt_le_dec x 0) as [H | H].
  - right. split; [lra|]. apply Qabs_neg. lra.
  - left. split; [lra|]. apply Qabs_pos. exact H.
Qed.

(** Replace every absolute value by a variable constrained by its two
    cases, for linear arithmetic. *)
Ltac elim_Qabs_of t :=
  let a := fresh "a" in
  let Ha := fresh "Ha" in
  pose proof (Qabs_pos_or_neg t) as [[? ?] | [? ?]];
  remember (Qabs t) as a eqn:Ha; clear Ha.

Ltac elim_Qabs :=
  repeat match goal with
    | |- context [Qabs ?t] => elim_Qabs_of t
    | H : context [Qabs ?t] |- _ => elim_Qabs_of t
    end.

(** The literal [1E-5] of the source is read as a quotient; linear
    arithmetic wants it as the numeral it is convertible with. *)
Ltac sci_literals := change (1E-5) with (0.00001) in *.

(** Establish the value of a comparison of the embedding by linear
    arithmetic. *)
Ltac by_lra :=
  first
    [ apply Qeq_bool_iff; lra
    | apply Qeq_bool_false; intros ?; lra
    | apply Qltb_lt; lra
    | apply Qltb_ge; lra ].

(** ** Running statements *)

(** Run the statements of a method as far as they are determined: the
    state-passing combinators and the attribute reads are unfolded, the
    arithmetic, the store and the strings are left alone. *)
Ltac run_proc :=
  repeat (progress (
    cbv beta iota zeta delta
      [call bind when get_self get_cfg gets return_ ret raise log_fatal modify_self
       modify liftC];
    cbn [self configMgr fst snd andb orb negb
         name color isData isQCD isDiscovery write normByTheory statConfig
         histoSystList shapeSystList overallSystList shapeFactorList systList weights
         tempWeights systDict currentSystematic normFactor qcdSyst unit_ cutsDict
         input_files overrideTreename prefixTreeName suffixTreeName friendTreeName
         additionalCuts xsecWeight xsecUp xsecDown normRegions normSampleRemap
         noRenormSys parentChannel allowRemapOfSyst mergeOverallSysSet toBeMerged
         set_name set_histoSystList set_overallSystList set_systList
         set_prefixTreeName set_normRegions set_noRenormSys
         cfg_hists cfg_histCacheFile cfg_nomName cfg_systDict cfg_normList set_hists])).

Lemma bind_run {S R A B} (m : Proc S R A) (k : A -> Proc S R B) (s s' : S) (a : A) :
  m s = (Normal a, s') -> bind m k s = k a s'.
Proof. intros H. unfold bind. rewrite H. reflexivity. Qed.

(** A loop whose every turn succeeds and moves a represented value by
    [step] computes the fold of [step]. *)
Lemma for_fold_run {S R A X : Type} (Rep : X -> S -> Prop)
    (body : A -> Proc S R unit) (step : X -> A -> X) :
  (forall a x s, Rep x s -> exists s', body a s = (Normal tt, s') /\ Rep (step x a) s') ->
  forall (xs : list A) (x : X) (s : S),
    Rep x s ->
    exists s', for_ xs body s = (Normal tt, s') /\ Rep (fold_left step xs x) s'.
Proof.
  intros Hbody xs. induction xs as [|a xs IH]; intros x s Hrep; cbn [for_ fold_left].
  - exists s. split; [reflexivity | exact Hrep].
  - destruct (Hbody a x s Hrep) as (s1 & E1 & Hrep1).
    destruct (IH (step x a) s1 Hrep1) as (s2 & E2 & Hrep2).
    exists s2. split; [|exact Hrep2].
    unfold bind. rewrite E1. exact E2.
Qed.

Lemma hists_obj_run {R} (name : string) (c : ConfigMgr) (h : Hist) :
  cfg_hists c !! name = Some (Some h) -> @hists_obj R name c = (Normal h, c).
Proof. intros H. unfold hists_obj, hists_get, bind. rewrite H. reflexivity. Qed.

Lemma integral_of_run {R} (name : string) (c : ConfigMgr) (h : Hist) :
  cfg_hists c !! name = Some (Some h) -> @integral_of R name c = (Normal (Integral h), c).
Proof. intros H. unfold integral_of, bind. rewrite (hists_obj_run _ _ _ H). reflexivity. Qed.

Lemma clone_as_run {R} (newName oldName : string) (c : ConfigMgr) (h : Hist) :
  cfg_hists c !! oldName = Some (Some h) ->
  @clone_as R newName oldName c
  = (Normal tt, set_hists (<[newName := Some (Clone newName h)]> (cfg_hists c)) c).
Proof. intros H. unfold clone_as, bind. rewrite (hists_obj_run _ _ _ H). reflexivity. Qed.

Lemma py_div_run {S R} (a b : Q) (s : S) :
  ~ b == 0 -> @py_div S R a b s = (Normal (a / b), s).
Proof.
  intros H. unfold py_div. apply Qeq_bool_false in H. rewrite H. reflexivity.
Qed.

Lemma py_div_zero {S R} (a b : Q) (s : S) :
  b == 0 -> @py_div S R a b s = (Raise ZeroDivisionError, s).
Proof.
  intros H. unfold py_div. apply Qeq_bool_iff in H. rewrite H. reflexivity.
Qed.

Lemma append_empty_r (s : string) : s +:+ "" = s.
Proof.
  induction s as [|c s IH]; [reflexivity|].
  change (String c (s +:+ "") = String c s). rewrite IH. reflexivity.
Qed.

(** ** [addOverallSys] in closed form

    The method never raises, and what it stores is [overall_resolved]. *)

Lemma addOverallSys_closed_form {R'} (systName : string) (high low : Q) (w : World) :
  @addOverallSys R' systName high low w =
    (Normal tt,
     match overall_resolved high low with
     | Some p => overall_stored systName p w
     | None => w
     end).
Proof.
  unfold addOverallSys, overall_resolved, overall_exact_noinfo, overall_near_noinfo,
    overall_clamped, overall_mirrored, overall_stored, register_syst.
  unfold call, bind, when, return_, ret, modify_self, modify, get_cfg, gets.
  cbv zeta.
  destruct w as [c s]; cbn [configMgr self].
  destruct (Qeq_bool high 1.0 && Qeq_bool low 1.0); [reflexivity|].
  destruct (Qeq_bool high 0.0 && Qeq_bool low 0.0); [reflexivity|].
  cbn [orb].
  set (low1 := if Qeq_bool high low then 2.0 - high else low).
  set (high1 := if Qeq_bool high 1.0 && Qltb 0.0 low1 && negb (Qeq_bool low1 1.0)
                then 2.0 - low1 else high).
  set (low2 := if Qeq_bool low1 1.0 && Qltb 0.0 high1 && negb (Qeq_bool high1 1.0)
               then 2.0 - high1 else low1).
  set (low3 := if Qltb low2 0.01 then 0.01 else low2).
  set (high2 := if Qltb high1 0.01 then 0.01 else high1).
  destruct (Qltb (fabs (high2 - 1.0)) 1E-5 && Qltb (fabs (low3 - 1.0)) 1E-5);
    [reflexivity|].
  destruct (Qltb (fabs high2) 1E-5 && Qltb (fabs low3) 1E-5); [reflexivity|].
  cbn [orb configMgr self].
  destruct (has_key (cfg_systDict c) systName); reflexivity.
Qed.

Lemma overall_near_noinfo_false (high low : Q) (systName : string) :
  overall_near_noinfo (high, low) = false -> ~ no_information (systName, high, low).
Proof.
  unfold overall_near_noinfo, no_information, fabs. intros H.
  apply orb_false_iff in H. destruct H as [H1 H0].
  apply andb_false_iff in H1. apply andb_false_iff in H0.
  intros [[Ha Hb] | [Ha Hb]].
  - destruct H1 as [H | H]; apply Qltb_ge in H; elim_Qabs; lra.
  - destruct H0 as [H | H]; apply Qltb_ge in H; elim_Qabs; lra.
Qed.

Lemma overall_resolved_informative (high low : Q) (p : Q * Q) (systName : string) :
  overall_resolved high low = Some p -> ~ no_information (systName, fst p, snd p).
Proof.
  unfold overall_resolved. destruct (overall_exact_noinfo high low); [discriminate|].
  cbv zeta. destruct (overall_clamped (overall_mirrored high low)) as [h l].
  destruct (overall_near_noinfo (h, l)) eqn:E; [discriminate|].
  intros [= <-]. apply overall_near_noinfo_false. exact E.
Qed.

(** ** Frame reasoning

    For a preorder [Rel], [stays Rel] is closed under every statement form
    of the embedding. *)

Section Stays.
Context {S : Type} (Rel : S -> S -> Prop).
Hypothesis Rel_refl : forall s, Rel s s.
Hypothesis Rel_trans : forall s1 s2 s3, Rel s1 s2 -> Rel s2 s3 -> Rel s1 s3.

Lemma stays_ret {R A} (a : A) : stays Rel (@ret S R A a).
Proof. intros s. apply Rel_refl. Qed.

Lemma stays_return {R A} (r : R) : stays Rel (@return_ S R A r).
Proof. intros s. apply Rel_refl. Qed.

Lemma stays_raise {R A} (e : PyExc) : stays Rel (@raise S R A e).
Proof. intros s. apply Rel_refl. Qed.

Lemma stays_log_fatal {R A} (msg : string) : stays Rel (@log_fatal S R A msg).
Proof. intros s. apply Rel_refl. Qed.

Lemma stays_gets {R A} (f : S -> A) : stays Rel (@gets S R A f).
Proof. intros s. apply Rel_refl. Qed.

Lemma stays_py_div {R} (a b : Q) : stays Rel (@py_div S R a b).
Proof. intros s. unfold py_div. destruct (Qeq_bool b 0); apply Rel_refl. Qed.

Lemma stays_name_lookup {R} (locals : list string) (x : string) :
  stays Rel (@name_lookup S R locals x).
Proof. intros s. unfold name_lookup. case_bool_decide; apply Rel_refl. Qed.

Lemma stays_format {R} (template : string) (args : list string) :
  stays Rel (@format S R template args).
Proof. intros s. unfold format. destruct (py_format template args); apply Rel_refl. Qed.

Lemma stays_bind {R A B} (m : Proc S R A) (k : A -> Proc S R B) :
  stays Rel m -> (forall a, stays Rel (k a)) -> stays Rel (bind m k).
Proof.
  intros Hm Hk s. unfold bind. specialize (Hm s).
  destruct (m s) as [[a | r | e] s']; cbn [snd] in *; try assumption.
  eapply Rel_trans; [exact Hm | apply Hk].
Qed.

Lemma stays_when {R} (b : bool) (body : Proc S R unit) :
  stays Rel body -> stays Rel (when b body).
Proof. intros H. destruct b; [exact H | apply stays_ret]. Qed.

Lemma stays_try_ZeroDivisionError {R A} (body handler : Proc S R A) :
  stays Rel body -> stays Rel handler -> stays Rel (try_ZeroDivisionError body handler).
Proof.
  intros Hb Hh s. unfold try_ZeroDivisionError. specialize (Hb s).
  destruct (body s) as [[a | r | []] s']; cbn [snd] in *; try assumption.
  eapply Rel_trans; [exact Hb | apply Hh].
Qed.

Lemma stays_try_AttributeError {R A} (body handler : Proc S R A) :
  stays Rel body -> stays Rel handler -> stays Rel (try_AttributeError body handler).
Proof.
  intros Hb Hh s. unfold try_AttributeError. specialize (Hb s).
  destruct (body s) as [[a | r | []] s']; cbn [snd] in *; try assumption.
  eapply Rel_trans; [exact Hb | apply Hh].
Qed.

Lemma stays_for {R A} (xs : list A) (body : A -> Proc S R unit) :
  (forall x, stays Rel (body x)) -> stays Rel (for_ xs body).
Proof.
  intros Hb. induction xs as [|x xs IH]; cbn [for_].
  - apply stays_ret.
  - apply stays_bind; [apply Hb | intros _; exact IH].
Qed.

Lemma stays_call {R R'} (body : Proc S R R) : stays Rel body -> stays Rel (@call S R R' body).
Proof.
  intros Hb s. unfold call. specialize (Hb s).
  destruct (body s) as [[a | r | e] s']; exact Hb.
Qed.

Lemma stays_checkNormalizationEffect {R'} (hNom hUp hDown : Hist) (t : Q) :
  stays Rel (@checkNormalizationEffect S R' hNom hUp hDown t).
Proof.
  unfold checkNormalizationEffect. apply stays_call. cbv zeta.
  repeat first
    [ apply stays_bind; [|intros ?] | apply stays_when | apply stays_py_div
    | apply stays_name_lookup | apply stays_return ].
Qed.
End Stays.

(** Structural steps of a [stays] proof for a relation with reflexivity
    proof [refl] and transitivity proof [trans]; [leaf] closes the
    primitive statements.  Statements are recognised by their head, so that
    no definition is unfolded behind the scenes. *)
Ltac stays_with refl trans leaf :=
  repeat (cbv beta zeta;
    first
      [ leaf
      | lazymatch goal with
        | |- stays _ (ret _) => apply (stays_ret _ refl)
        | |- stays _ (return_ _) => apply (stays_return _ refl)
        | |- stays _ (raise _) => apply (stays_raise _ refl)
        | |- stays _ (log_fatal _) => apply (stays_log_fatal _ refl)
        | |- stays _ (gets _) => apply (stays_gets _ refl)
        | |- stays _ (py_div _ _) => apply (stays_py_div _ refl)
        | |- stays _ (name_lookup _ _) => apply (stays_name_lookup _ refl)
        | |- stays _ (format _ _) => apply (stays_format _ refl)
        | |- stays _ (checkNormalizationEffect _ _ _ _) =>
            apply (stays_checkNormalizationEffect _ refl trans)
        | |- stays _ (when _ _) => apply (stays_when _ refl)
        | |- stays _ (try_ZeroDivisionError _ _) =>
            apply (stays_try_ZeroDivisionError _ trans)
        | |- stays _ (try_AttributeError _ _) =>
            apply (stays_try_AttributeError _ trans)
        | |- stays _ (for_ _ _) => apply (stays_for _ refl trans); intros ?
        | |- stays _ (call _) => apply stays_call
        | |- stays _ (bind _ _) => apply (stays_bind _ trans); [|intros ?]
        | |- stays _ (if ?b then _ else _) => destruct b
        | |- stays _ (match ?x with _ => _ end) => destruct x
        end ]).

(** *** The histogram store is the only part of [configMgr] that changes *)

Lemma only_hists_refl (c : ConfigMgr) : only_hists c c.
Proof. destruct c; reflexivity. Qed.

Lemma only_hists_trans (c1 c2 c3 : ConfigMgr) :
  only_hists c1 c2 -> only_hists c2 c3 -> only_hists c1 c3.
Proof.
  unfold only_hists. intros H12 H23. rewrite H23, H12. reflexivity.
Qed.

Lemma stays_hists_get {R} (name : string) : stays only_hists (@hists_get R name).
Proof.
  intros c. unfold hists_get. destruct (cfg_hists c !! name); apply only_hists_refl.
Qed.

Lemma stays_hists_set {R} (name : string) (v : option Hist) :
  stays only_hists (@hists_set R name v).
Proof. intros c. reflexivity. Qed.

Ltac stays_cfg :=
  stays_with only_hists_refl only_hists_trans
    ltac:(idtac; lazymatch goal with
          | |- stays _ (hists_get _) => apply stays_hists_get
          | |- stays _ (hists_set _ _) => apply stays_hists_set
          end).

Lemma stays_hists_obj {R} (name : string) : stays only_hists (@hists_obj R name).
Proof. unfold hists_obj. stays_cfg. Qed.

Lemma stays_hists_update {R} (name : string) (f : Hist -> Hist) :
  stays only_hists (@hists_update R name f).
Proof. unfold hists_update, hists_obj. stays_cfg. Qed.

Lemma stays_clone_as {R} (newName oldName : string) :
  stays only_hists (@clone_as R newName oldName).
Proof. unfold clone_as, hists_obj. stays_cfg. Qed.

Lemma stays_integral_of {R} (name : string) : stays only_hists (@integral_of R name).
Proof. unfold integral_of, hists_obj. stays_cfg. Qed.

Ltac stays_store :=
  stays_with only_hists_refl only_hists_trans
    ltac:(idtac; lazymatch goal with
          | |- stays _ (hists_get _) => apply stays_hists_get
          | |- stays _ (hists_set _ _) => apply stays_hists_set
          | |- stays _ (hists_obj _) => apply stays_hists_obj
          | |- stays _ (hists_update _ _) => apply stays_hists_update
          | |- stays _ (clone_as _ _) => apply stays_clone_as
          | |- stays _ (integral_of _) => apply stays_integral_of
          end).

Lemma stays_oneSideSymmetrize {R} (nomName highName lowName : string) :
  stays only_hists (@oneSideSymmetrize R nomName highName lowName).
Proof. unfold oneSideSymmetrize. stays_store. Qed.

Lemma stays_alignToNomSys {R} (nomName highName lowName nomSysName : string) :
  stays only_hists (@alignToNomSys R nomName highName lowName nomSysName).
Proof.
  unfold alignToNomSys, divide_by, multiply_by. stays_store.
Qed.

Lemma stays_symmetrizeSystematicEnvelope {R'} (nomName lowName highName : string) :
  stays only_hists (@symmetrizeSystematicEnvelope R' nomName lowName highName).
Proof.
  unfold symmetrizeSystematicEnvelope. stays_store.
Qed.

(** *** What a systematics call can change in the world *)

Lemma only_hists_systDict (c c' : ConfigMgr) :
  only_hists c c' -> cfg_systDict c' = cfg_systDict c.
Proof. intros H. rewrite H. reflexivity. Qed.

Lemma sys_step_same_self (c c' : ConfigMgr) (s : Sample) :
  only_hists c c' -> sys_step (mkWorld c s) (mkWorld c' s).
Proof.
  intros Hc. unfold sys_step. cbn [configMgr self].
  split; [exact Hc|]. split; [reflexivity|].
  split; [exists []; rewrite app_nil_r; reflexivity|].
  split; exists []; rewrite app_nil_r; auto.
Qed.

Lemma sys_step_refl (w : World) : sys_step w w.
Proof. destruct w as [c s]. apply sys_step_same_self, only_hists_refl. Qed.

Lemma sys_step_trans (w1 w2 w3 : World) :
  sys_step w1 w2 -> sys_step w2 w3 -> sys_step w1 w3.
Proof.
  intros (Hc & Hs & [lh Hh] & [lo [Ho Hi]] & [ls [Hl Hu]])
         (Hc' & Hs' & [lh' Hh'] & [lo' [Ho' Hi']] & [ls' [Hl' Hu']]).
  unfold sys_step. split; [eapply only_hists_trans; eauto|].
  split; [congruence|].
  split; [exists (lh ++ lh')%list; rewrite Hh', Hh, app_assoc; reflexivity|].
  split.
  - exists (lo ++ lo')%list. split; [rewrite Ho', Ho, app_assoc; reflexivity|].
    apply Forall_app. split; assumption.
  - exists (ls ++ ls')%list. split.
    + rewrite Hl', Hl, app_assoc. reflexivity.
    + apply Forall_app. split; [exact Hu|].
      unfold unregistered in *. rewrite <- (only_hists_systDict _ _ Hc). exact Hu'.
Qed.

Lemma stays_liftC {R A} (m : Proc ConfigMgr R A) :
  stays only_hists m -> stays sys_step (liftC m).
Proof.
  intros Hm [c s]. unfold liftC. cbn [configMgr self]. specialize (Hm c).
  destruct (m c) as [o c']. cbn [snd] in *.
  apply sys_step_same_self. exact Hm.
Qed.

Lemma stays_append_histoSys {R} (systName high low : string) :
  stays sys_step (@append_histoSys R systName high low).
Proof.
  intros [c s]. cbn. unfold sys_step. cbn.
  split; [apply only_hists_refl|]. split; [reflexivity|].
  split; [eexists; reflexivity|].
  split; exists []; rewrite ?app_nil_r; auto.
Qed.

Lemma stays_register_syst {R} (systName : string) :
  stays sys_step (@register_syst R systName).
Proof.
  intros [c s]. unfold register_syst, bind, get_cfg, gets, when. cbn [configMgr].
  destruct (has_key (cfg_systDict c) systName) eqn:E; cbn.
  - apply sys_step_refl.
  - unfold sys_step. cbn.
    split; [apply only_hists_refl|]. split; [reflexivity|].
    split; [exists []; rewrite app_nil_r; reflexivity|].
    split; [exists []; rewrite app_nil_r; auto|].
    exists [systName]. split; [reflexivity|].
    constructor; [exact E | constructor].
Qed.

Lemma stays_setNormRegions {R'} (regions : list (string * string)) :
  stays sys_step (@setNormRegions R' regions).
Proof.
  intros [c s]. cbn. unfold sys_step. cbn.
  split; [apply only_hists_refl|]. split; [reflexivity|].
  split; [exists []; rewrite app_nil_r; reflexivity|].
  split; exists []; rewrite app_nil_r; auto.
Qed.

Lemma stays_addOverallSys {R'} (systName : string) (high low : Q) :
  stays sys_step (@addOverallSys R' systName high low).
Proof.
  intros [c s]. rewrite addOverallSys_closed_form. cbn [snd].
  destruct (overall_resolved high low) as [[h l]|] eqn:Er; [|apply sys_step_refl].
  apply (overall_resolved_informative _ _ _ systName) in Er. cbn [fst snd] in Er.
  unfold overall_stored, sys_step. cbn [configMgr self].
  split; [apply only_hists_refl|].
  destruct (has_key (cfg_systDict c) systName) eqn:E; cbn.
  - split; [reflexivity|]. split; [exists []; rewrite app_nil_r; reflexivity|].
    split; [eexists; split; [reflexivity|]; constructor; [exact Er | constructor]|].
    exists []. rewrite app_nil_r. auto.
  - split; [reflexivity|]. split; [exists []; rewrite app_nil_r; reflexivity|].
    split; [eexists; split; [reflexivity|]; constructor; [exact Er | constructor]|].
    exists [systName]. split; [reflexivity|].
    constructor; [exact E | constructor].
Qed.

Ltac stays_sys :=
  stays_with sys_step_refl sys_step_trans
    ltac:(idtac; lazymatch goal with
          | |- stays _ (append_histoSys _ _ _) => apply stays_append_histoSys
          | |- stays _ (register_syst _) => apply stays_register_syst
          | |- stays _ (setNormRegions _) => apply stays_setNormRegions
          | |- stays _ (addOverallSys _ _ _) => apply stays_addOverallSys
          | |- stays _ (get_self _) => apply (stays_gets _ sys_step_refl)
          | |- stays _ (get_cfg _) => apply (stays_gets _ sys_step_refl)
          | |- stays _ (liftC _) =>
              apply stays_liftC;
              first [ apply stays_symmetrizeSystematicEnvelope
                    | apply stays_oneSideSymmetrize
                    | apply stays_alignToNomSys
                    | apply stays_integral_of
                    | apply stays_clone_as
                    | apply stays_hists_update
                    | apply stays_hists_obj
                    | apply stays_hists_get
                    | apply stays_hists_set
                    | solve [stays_store] ]
          end).

Lemma stays_parentChannel_obj {R} : stays sys_step (@parentChannel_obj R).
Proof. unfold parentChannel_obj. stays_sys. Qed.

Lemma stays_addShapeSys {R'} (systName nomName highName lowName constraintType : string) :
  stays sys_step (@addShapeSys R' systName nomName highName lowName constraintType).
Proof. unfold addShapeSys. stays_sys. Qed.

Lemma stays_addHistoSys_case1
    (systName nomName highName lowName : string) (oneSide : bool)
    (samName normString nomSysName : string) (symmetrizeEnvelope : bool)
    (includeOverallSys symmetrize : bool) :
  stays sys_step
    (addHistoSys_case1 systName nomName highName lowName oneSide samName normString
       nomSysName symmetrizeEnvelope includeOverallSys symmetrize).
Proof. unfold addHistoSys_case1. stays_sys. Qed.

Lemma stays_addHistoSys_case2
    (systName nomName highName lowName : string) (oneSide symmetrizeEnvelope : bool)
    (symmetrize : bool) :
  stays sys_step
    (addHistoSys_case2 systName nomName highName lowName oneSide symmetrizeEnvelope
       symmetrize).
Proof. unfold addHistoSys_case2. stays_sys. Qed.

Lemma stays_addHistoSys_case3
    (systName nomName highName lowName : string) (oneSide symmetrizeEnvelope : bool)
    (symmetrize : bool) :
  stays sys_step
    (addHistoSys_case3 systName nomName highName lowName oneSide symmetrizeEnvelope
       symmetrize).
Proof. unfold addHistoSys_case3. stays_sys. Qed.

Lemma stays_addHistoSys {R'}
    (systName nomName highName lowName : string) (oneSide : bool)
    (samName normString nomSysName : string) (symmetrizeEnvelope : bool)
    (includeOverallSys normalizeSys symmetrize : bool) :
  stays sys_step
    (@addHistoSys systName nomName highName lowName oneSide samName normString
       nomSysName symmetrizeEnvelope R' includeOverallSys normalizeSys symmetrize).
Proof.
  unfold addHistoSys.
  stays_with sys_step_refl sys_step_trans
    ltac:(idtac; lazymatch goal with
          | |- stays _ (addHistoSys_case1 _ _ _ _ _ _ _ _ _ _ _) =>
              apply stays_addHistoSys_case1
          | |- stays _ (addHistoSys_case2 _ _ _ _ _ _ _) => apply stays_addHistoSys_case2
          | |- stays _ (addHistoSys_case3 _ _ _ _ _ _ _) => apply stays_addHistoSys_case3
          | |- stays _ parentChannel_obj => apply stays_parentChannel_obj
          | |- stays _ (register_syst _) => apply stays_register_syst
          | |- stays _ (setNormRegions _) => apply stays_setNormRegions
          | |- stays _ (get_self _) => apply (stays_gets _ sys_step_refl)
          | |- stays _ (liftC _) => apply stays_liftC; apply stays_alignToNomSys
          end).
Qed.

(** Every sequence of calls is such a step. *)
Lemma run_calls_sys_step (cs : list SystCall) (w : World) : sys_step w (run_calls cs w).
Proof.
  unfold run_calls. revert w. induction cs as [|c cs IH]; intros w; cbn [fold_left].
  - apply sys_step_refl.
  - eapply sys_step_trans; [|apply IH].
    destruct c; cbn [run_call]; [apply stays_addOverallSys | apply stays_addHistoSys].
Qed.

(** ** C1: [checkNormalizationEffect] *)

(** C1.  The outcome of [checkNormalizationEffect] for all inputs: [True]
    when the nominal integral is zero; otherwise, when the larger of the
    two relative deviations is below the threshold, the call does not
    return [False] but raises [NameError] (the log message names
    [threshold], which is not defined; the parameter is [norm_threshold]);
    and [True] in the remaining case.  So the function never returns
    [False]. *)
Theorem checkNormalizationEffect_outcome {S R' : Type}
    (hNom hUp hDown : Hist) (norm_threshold : Q) (st : S) :
  let up_norm := Integral hUp / Integral hNom in
  let down_norm := Integral hDown / Integral hNom in
  @checkNormalizationEffect S R' hNom hUp hDown norm_threshold st =
    ((if Qeq_bool (Integral hNom) 0 then Normal true
      else if Qltb (py_max (Qabs (up_norm - 1)) (Qabs (down_norm - 1))) norm_threshold
           then Raise (NameError "threshold")
           else Normal true), st)
  /\ fst (@checkNormalizationEffect S R' hNom hUp hDown norm_threshold st) <> Normal false.
Proof.
  cbv zeta.
  assert (E : @checkNormalizationEffect S R' hNom hUp hDown norm_threshold st =
    ((if Qeq_bool (Integral hNom) 0 then Normal true
      else if Qltb (py_max (Qabs (Integral hUp / Integral hNom - 1))
                      (Qabs (Integral hDown / Integral hNom - 1))) norm_threshold
           then Raise (NameError "threshold")
           else Normal true), st)).
  { unfold checkNormalizationEffect, call, bind, when, py_div, return_, ret, raise.
    cbv zeta.
    destruct (Qeq_bool (Integral hNom) 0); [reflexivity|].
    destruct (Qltb _ norm_threshold); reflexivity. }
  split; [exact E|].
  rewrite E. cbn [fst].
  destruct (Qeq_bool (Integral hNom) 0); [discriminate|].
  destruct (Qltb _ norm_threshold); discriminate.
Qed.

(** Scenario A of the spec: integrals 100, 100.4 and 99.7 at threshold
    0.005. *)
Example checkNormalizationEffect_scenario_A :
  fst (@checkNormalizationEffect unit unit
         (hist_of_bins "hNom" [100]) (hist_of_bins "hUp" [100.4])
         (hist_of_bins "hDown" [99.7]) 0.005 tt)
  = Raise (NameError "threshold").
Proof. vm_compute. reflexivity. Qed.

(** The larger variation of Scenario A (100.6 and 99.3) is kept. *)
Example checkNormalizationEffect_scenario_A_large :
  fst (@checkNormalizationEffect unit unit
         (hist_of_bins "hNom" [100]) (hist_of_bins "hUp" [100.6])
         (hist_of_bins "hDown" [99.3]) 0.005 tt)
  = Normal true.
Proof. vm_compute. reflexivity. Qed.

(** ** C2: [symmetrizeSystematicEnvelope] *)

Lemma GetBinContent_SetBinContent_eq (h : Hist) (i : nat) (v : Q) :
  (i < length (fArray h))%nat -> GetBinContent (SetBinContent i v h) i = v.
Proof.
  intros Hi. unfold GetBinContent, SetBinContent. cbn [fArray].
  rewrite list_lookup_insert_eq by exact Hi. reflexivity.
Qed.

Lemma GetBinContent_SetBinContent_ne (h : Hist) (i j : nat) (v : Q) :
  i <> j -> GetBinContent (SetBinContent i v h) j = GetBinContent h j.
Proof.
  intros Hij. unfold GetBinContent, SetBinContent. cbn [fArray].
  rewrite list_lookup_insert_ne by exact Hij. reflexivity.
Qed.

Lemma SetBinContent_length (h : Hist) (i : nat) (v : Q) :
  length (fArray (SetBinContent i v h)) = length (fArray h).
Proof. unfold SetBinContent. cbn [fArray]. apply length_insert. Qed.

Lemma envelope_bins_length (hn : Hist) (bins : list nat) (lh : Hist * Hist) :
  length (fArray (fst (fold_left (envelope_bin hn) bins lh))) = length (fArray (fst lh))
  /\ length (fArray (snd (fold_left (envelope_bin hn) bins lh))) = length (fArray (snd lh)).
Proof.
  revert lh. induction bins as [|i bins IH]; intros [hl hh]; cbn [fold_left].
  - split; reflexivity.
  - destruct (IH (envelope_bin hn (hl, hh) i)) as [H1 H2].
    rewrite H1, H2. cbn [envelope_bin fst snd].
    rewrite !SetBinContent_length. split; reflexivity.
Qed.

Lemma envelope_bins_other (hn : Hist) (bins : list nat) (lh : Hist * Hist) (j : nat) :
  j ∉ bins ->
  GetBinContent (fst (fold_left (envelope_bin hn) bins lh)) j = GetBinContent (fst lh) j
  /\ GetBinContent (snd (fold_left (envelope_bin hn) bins lh)) j = GetBinContent (snd lh) j.
Proof.
  revert lh. induction bins as [|i bins IH]; intros [hl hh] Hj; cbn [fold_left].
  - split; reflexivity.
  - apply not_elem_of_cons in Hj. destruct Hj as [Hne Hj].
    destruct (IH (envelope_bin hn (hl, hh) i) Hj) as [H1 H2].
    rewrite H1, H2. cbn [envelope_bin fst snd].
    rewrite !GetBinContent_SetBinContent_ne by congruence. split; reflexivity.
Qed.

(** After the loop over distinct bins, every visited bin holds the
    nominal content minus, resp. plus, the half-width computed from the
    original contents.  Nothing floors the low value. *)
Lemma envelope_bins_visited (hn : Hist) (bins : list nat) (hl hh : Hist) (i : nat) :
  NoDup bins -> i ∈ bins ->
  (i < length (fArray hl))%nat -> (i < length (fArray hh))%nat ->
  GetBinContent (fst (fold_left (envelope_bin hn) bins (hl, hh))) i
  = GetBinContent hn i - envelope_err hn hl hh i
  /\ GetBinContent (snd (fold_left (envelope_bin hn) bins (hl, hh))) i
     = GetBinContent hn i + envelope_err hn hl hh i.
Proof.
  revert hl hh. induction bins as [|b bins IH]; intros hl hh Hnd Hin Hl Hh.
  - apply elem_of_nil in Hin. contradiction.
  - apply NoDup_cons in Hnd. destruct Hnd as [Hb Hnd]. cbn [fold_left].
    destruct (decide (i = b)) as [->|Hne].
    + destruct (envelope_bins_other hn bins (envelope_bin hn (hl, hh) b) b Hb) as [H1 H2].
      rewrite H1, H2. cbn [envelope_bin fst snd].
      rewrite !GetBinContent_SetBinContent_eq by assumption. split; reflexivity.
    + apply elem_of_cons in Hin. destruct Hin as [Hin | Hin]; [contradiction|].
      cbn [envelope_bin].
      set (hl1 := SetBinContent b (GetBinContent hn b - envelope_err hn hl hh b) hl).
      set (hh1 := SetBinContent b (GetBinContent hn b + envelope_err hn hl hh b) hh).
      assert (Hl1 : (i < length (fArray hl1))%nat)
        by (subst hl1; rewrite SetBinContent_length; exact Hl).
      assert (Hh1 : (i < length (fArray hh1))%nat)
        by (subst hh1; rewrite SetBinContent_length; exact Hh).
      destruct (IH hl1 hh1 Hnd Hin Hl1 Hh1) as [H1 H2].
      rewrite H1, H2. subst hl1 hh1. unfold envelope_err.
      rewrite !GetBinContent_SetBinContent_ne by congruence. split; reflexivity.
Qed.

Section Envelope.
Variables (nomName lowName highName : string).
Hypothesis nom_low : nomName <> lowName.
Hypothesis nom_high : nomName <> highName.
Hypothesis low_high : lowName <> highName.
Variables (c : ConfigMgr) (hn : Hist).
Hypothesis Hnom : cfg_hists c !! nomName = Some (Some hn).

Lemma envelope_store_init (hl hh : Hist) :
  cfg_hists c !! lowName = Some (Some hl) ->
  cfg_hists c !! highName = Some (Some hh) ->
  envelope_store lowName highName c (hl, hh) = c.
Proof.
  intros Hl Hh. unfold envelope_store. cbn [fst snd].
  rewrite (insert_id (cfg_hists c) highName (Some hh) Hh).
  rewrite (insert_id (cfg_hists c) lowName (Some hl) Hl).
  destruct c; reflexivity.
Qed.

Lemma envelope_store_lookups (lh : Hist * Hist) :
  cfg_hists (envelope_store lowName highName c lh) !! lowName = Some (Some (fst lh))
  /\ cfg_hists (envelope_store lowName highName c lh) !! highName = Some (Some (snd lh))
  /\ cfg_hists (envelope_store lowName highName c lh) !! nomName = Some (Some hn).
Proof.
  unfold envelope_store. cbn [cfg_hists set_hists].
  split; [apply lookup_insert_eq|]. split.
  - rewrite lookup_insert_ne by exact low_high. apply lookup_insert_eq.
  - rewrite !lookup_insert_ne by congruence. exact Hnom.
Qed.

(** The call as a whole: it completes, and replaces the low and the high
    histogram by the fold of [envelope_bin] over bins [1 .. N]. *)
Lemma symmetrizeSystematicEnvelope_run {R' : Type} (hl hh : Hist) :
  cfg_hists c !! lowName = Some (Some hl) ->
  cfg_hists c !! highName = Some (Some hh) ->
  @symmetrizeSystematicEnvelope R' nomName lowName highName c
  = (Normal tt,
     envelope_store lowName highName c
       (fold_left (envelope_bin hn) (xrange 1 (GetNbinsX hl + 1)) (hl, hh))).
Proof.
  intros Hl Hh. unfold symmetrizeSystematicEnvelope, call.
  rewrite (bind_run _ _ _ _ _ (hists_obj_run lowName _ _ Hl)).
  match goal with
  | |- context [for_ ?bins ?body] =>
      destruct (for_fold_run (fun lh s => s = envelope_store lowName highName c lh) body (envelope_bin hn))
        with (xs := bins) (x := (hl, hh)) (s := c) as (s' & E & Hs')
  end.
  - intros i [l h] s ->.
    destruct (envelope_store_lookups (l, h)) as (El & Eh & En). cbn [fst snd] in *.
    eexists. split; [|reflexivity].
    cbv beta zeta. unfold hists_update.
    rewrite (bind_run _ _ _ _ _ (hists_obj_run lowName _ _ El)).
    rewrite (bind_run _ _ _ _ _ (hists_obj_run highName _ _ Eh)).
    rewrite (bind_run _ _ _ _ _ (hists_obj_run nomName _ _ En)).
    erewrite (bind_run (bind (hists_obj highName) _));
      [|rewrite (bind_run _ _ _ _ _ (hists_obj_run highName _ _ Eh)); reflexivity].
    erewrite (bind_run (hists_obj lowName));
      [|apply hists_obj_run; cbn [cfg_hists set_hists];
        rewrite lookup_insert_ne by congruence; exact El].
    unfold hists_set, modify, envelope_bin, envelope_err, envelope_store, set_hists.
    cbn [cfg_hists cfg_histCacheFile cfg_nomName cfg_systDict cfg_normList fst snd].
    do 2 f_equal. apply map_eq. intros k.
    destruct (decide (k = lowName)) as [->|Hkl].
    + rewrite !lookup_insert_eq. reflexivity.
    + destruct (decide (k = highName)) as [->|Hkh].
      * rewrite !(lookup_insert_ne _ lowName) by congruence.
        rewrite !lookup_insert_eq. reflexivity.
      * rewrite !lookup_insert_ne by congruence. reflexivity.
  - symmetry. apply envelope_store_init; assumption.
  - rewrite (bind_run _ _ _ _ _ E). subst s'. reflexivity.
Qed.

(** C2.  For three distinct names of histograms with the same binning the
    call completes and, in every bin [1 .. N], leaves
    [nominal + max(|nominal - low|, |high - nominal|)] in the high
    histogram, as claimed, and [nominal - max(|nominal - low|,
    |high - nominal|)] in the low one: the value is stored as it is, also
    when it is negative.  The floor at zero that the comment at line 120
    and the warning at line 123 announce is not applied. *)
Theorem symmetrizeSystematicEnvelope_bins {R' : Type} (hl hh : Hist) :
  cfg_hists c !! lowName = Some (Some hl) ->
  cfg_hists c !! highName = Some (Some hh) ->
  length (fArray hh) = length (fArray hl) ->
  exists hl' hh' : Hist,
    @symmetrizeSystematicEnvelope R' nomName lowName highName c
    = (Normal tt, envelope_store lowName highName c (hl', hh'))
    /\ forall i : nat,
         (1 <= i <= GetNbinsX hl)%nat ->
         GetBinContent hh' i = GetBinContent hn i + envelope_err hn hl hh i
         /\ GetBinContent hl' i = GetBinContent hn i - envelope_err hn hl hh i.
Proof.
  intros Hl Hh Hlen.
  exists (fst (fold_left (envelope_bin hn) (xrange 1 (GetNbinsX hl + 1)) (hl, hh))).
  exists (snd (fold_left (envelope_bin hn) (xrange 1 (GetNbinsX hl + 1)) (hl, hh))).
  split.
  - rewrite (symmetrizeSystematicEnvelope_run hl hh Hl Hh).
    destruct (fold_left _ _ _); reflexivity.
  - intros i [Hi1 HiN].
    assert (Hin : i ∈ xrange 1 (GetNbinsX hl + 1)).
    { unfold xrange. apply elem_of_seq. lia. }
    assert (Hil : (i < length (fArray hl))%nat) by (unfold GetNbinsX in HiN; lia).
    assert (Hih : (i < length (fArray hh))%nat) by (rewrite Hlen; exact Hil).
    destruct (envelope_bins_visited hn _ hl hh i (NoDup_seq _ _) Hin Hil Hih) as [H1 H2].
    split; assumption.
Qed.
End Envelope.

(** The envelope of nominal [1, 10], low [0.5, 8] and high [3, 11]: bin 1
    of the low histogram ends at [1 - 2 = -1]. *)
Lemma symmetrizeSystematicEnvelope_negative_low :
  let c := cfg_with [("hNom", [1; 10]); ("hLow", [0.5; 8]); ("hHigh", [3; 11])] in
  exists hl' hh' : Hist,
    @symmetrizeSystematicEnvelope unit "hNom" "hLow" "hHigh" c
    = (Normal tt, envelope_store "hLow" "hHigh" c (hl', hh'))
    /\ GetBinContent hl' 1 == -1
    /\ GetBinContent hl' 1 < 0
    /\ GetBinContent hh' 1 == 3.
Proof.
  cbv zeta.
  destruct (@symmetrizeSystematicEnvelope_bins "hNom" "hLow" "hHigh"
              ltac:(discriminate) ltac:(discriminate) ltac:(discriminate)
              (cfg_with [("hNom", [1; 10]); ("hLow", [0.5; 8]); ("hHigh", [3; 11])])
              (hist_of_bins "hNom" [1; 10]) eq_refl unit
              (hist_of_bins "hLow" [0.5; 8]) (hist_of_bins "hHigh" [3; 11])
              eq_refl eq_refl eq_refl)
    as (hl' & hh' & E & Hbins).
  exists hl', hh'. split; [exact E|].
  destruct (Hbins 1%nat ltac:(vm_compute; split; repeat constructor)) as [Hh Hl].
  rewrite Hh, Hl. repeat split; vm_compute; reflexivity.
Defined.

(** ** C3: [addOverallSys] stores no entry without information *)

(** C3.  [addOverallSys] never raises; it leaves [overallSystList] as it
    was or appends one entry, and an appended entry never has high and low
    both within 1e-5 of 1.0 nor both within 1e-5 of 0.0.  Called with
    [high == low == 1.0] or [high == low == 0.0] it changes nothing at
    all, [systList] included.  Over every sequence of [addOverallSys] and
    [addHistoSys] calls the entries that [overallSystList] gains all
    carry information. *)
Theorem addOverallSys_stores_no_empty_information {R' : Type}
    (systName : string) (w : World) :
  (forall high low,
     let r := @addOverallSys R' systName high low w in
     fst r = Normal tt
     /\ (overallSystList (self (snd r)) = overallSystList (self w)
         \/ exists h l,
              overallSystList (self (snd r))
              = (overallSystList (self w) ++ [(systName, h, l)])%list
              /\ ~ no_information (systName, h, l)))
  /\ (forall high low,
        (high == 1 /\ low == 1) \/ (high == 0 /\ low == 0) ->
        @addOverallSys R' systName high low w = (Normal tt, w))
  /\ (forall cs : list SystCall,
        exists added,
          overallSystList (self (run_calls cs w))
          = (overallSystList (self w) ++ added)%list
          /\ Forall (fun e => ~ no_information e) added).
Proof.
  split; [|split].
  - intros high low. cbv zeta. rewrite addOverallSys_closed_form. cbn [fst snd].
    split; [reflexivity|].
    destruct (overall_resolved high low) as [[h l]|] eqn:E; [|left; reflexivity].
    right. exists h, l. split.
    + unfold overall_stored. cbn [self].
      destruct (has_key _ _); reflexivity.
    + apply (overall_resolved_informative _ _ _ systName) in E. exact E.
  - intros high low H. rewrite addOverallSys_closed_form.
    unfold overall_resolved, overall_exact_noinfo.
    destruct H as [[Hh Hl] | [Hh Hl]].
    + assert (E1 : Qeq_bool high 1.0 = true) by (apply Qeq_bool_iff; rewrite Hh; reflexivity).
      assert (E2 : Qeq_bool low 1.0 = true) by (apply Qeq_bool_iff; rewrite Hl; reflexivity).
      rewrite E1, E2. reflexivity.
    + assert (E1 : Qeq_bool high 0.0 = true) by (apply Qeq_bool_iff; rewrite Hh; reflexivity).
      assert (E2 : Qeq_bool low 0.0 = true) by (apply Qeq_bool_iff; rewrite Hl; reflexivity).
      rewrite E1, E2. rewrite orb_true_r. reflexivity.
  - intros cs. destruct (run_calls_sys_step cs w) as (_ & _ & _ & H & _). exact H.
Qed.

(** Scenario B of the spec, through C3: [addOverallSys("JES", 1.0, 1.0)]
    and [addOverallSys("JES", 0.0, 0.0)] on a fresh sample. *)
Lemma addOverallSys_scenario_B :
  @addOverallSys unit "JES" 1.0 1.0 (world_with []) = (Normal tt, world_with [])
  /\ @addOverallSys unit "JES" 0.0 0.0 (world_with []) = (Normal tt, world_with []).
Proof.
  split.
  - apply (proj1 (proj2
      (@addOverallSys_stores_no_empty_information unit "JES" (world_with [])))).
    left. split; reflexivity.
  - apply (proj1 (proj2
      (@addOverallSys_stores_no_empty_information unit "JES" (world_with [])))).
    right. split; reflexivity.
Defined.

(** ** C4: what is appended to [systList] *)

(** C4, as stated, fails when the name is not a key of
    [configMgr.systDict]: two [addOverallSys] calls with the same name and
    values put the name into [systList] twice, and so does one
    [addHistoSys] call of Case 2, which registers the name once through
    [addOverallSys] and once more at its end. *)
Lemma systList_holds_a_name_twice :
  systList (self (run_calls [Call_addOverallSys "JES" 1.2 0.8;
                             Call_addOverallSys "JES" 1.2 0.8] (world_with [])))
  = ["JES"; "JES"]
  /\ systList (self (run_calls
       [Call_addHistoSys "JES" "hNom" "hHigh" "hLow" true false false false "" "" "" false]
       (world_with [("hNom", [60; 40]); ("hHigh", [66; 44]); ("hLow", [54; 36])])))
     = ["JES"; "JES"].
Proof. split; vm_compute; reflexivity. Qed.

(** C4, amended.  Over every sequence of [addOverallSys] and
    [addHistoSys] calls on one sample, [systList] only grows at its end,
    and only by names that are not keys of [configMgr.systDict]: a name
    registered there is never added, so it occurs in [systList] exactly
    as often after the calls as before. *)
Theorem systList_never_gains_a_registered_name (cs : list SystCall) (w : World) :
  exists added : list string,
    systList (self (run_calls cs w)) = (systList (self w) ++ added)%list
    /\ Forall (unregistered (configMgr w)) added
    /\ forall x : string,
         has_key (cfg_systDict (configMgr w)) x = true ->
         (x ∉ added)
         /\ filter (fun y => y = x) (systList (self (run_calls cs w)))
            = filter (fun y => y = x) (systList (self w)).
Proof.
  destruct (run_calls_sys_step cs w) as (_ & _ & _ & _ & added & Hl & Hu).
  exists added. split; [exact Hl|]. split; [exact Hu|].
  intros x Hx.
  assert (Hn : x ∉ added).
  { intros Hin. rewrite Forall_forall in Hu. specialize (Hu x Hin).
    unfold unregistered in Hu. congruence. }
  split; [exact Hn|].
  rewrite Hl, filter_app.
  replace (filter (fun y => y = x) added) with (@nil string); [apply app_nil_r|].
  symmetry. clear Hl Hu. induction added as [|a added IH]; [reflexivity|].
  rewrite filter_cons. destruct (decide (a = x)) as [->|Hne].
  - exfalso. apply Hn. left.
  - apply IH. intros Hin. apply Hn. right. exact Hin.
Qed.

(** With the name ["JES"] registered in [configMgr.systDict], the calls of
    the counterexample leave [systList] without it. *)
Lemma systList_registered_name_example :
  let c := cfg_with [("hNom", [60; 40]); ("hHigh", [66; 44]); ("hLow", [54; 36])] in
  let registry := {[ "JES" := mkSystematic "JES" "tree" "_NoSys" "_JESup" "_JESdown" ]} in
  let w := mkWorld (mkConfigMgr (cfg_hists c) (cfg_histCacheFile c) (cfg_nomName c)
                      registry (cfg_normList c))
                   (new_Sample "ttbar" 1) in
  let cs := [Call_addOverallSys "JES" 1.2 0.8; Call_addOverallSys "JES" 1.2 0.8;
             Call_addHistoSys "JES" "hNom" "hHigh" "hLow" true false false false
               "" "" "" false] in
  filter (fun y => y = "JES") (systList (self (run_calls cs w))) = [].
Proof.
  cbv zeta.
  destruct (systList_never_gains_a_registered_name
    [Call_addOverallSys "JES" 1.2 0.8; Call_addOverallSys "JES" 1.2 0.8;
     Call_addHistoSys "JES" "hNom" "hHigh" "hLow" true false false false "" "" "" false]
    (mkWorld
       (mkConfigMgr
          (cfg_hists (cfg_with [("hNom", [60; 40]); ("hHigh", [66; 44]); ("hLow", [54; 36])]))
          "data/histCache.root" "_NoSys"
          {[ "JES" := mkSystematic "JES" "tree" "_NoSys" "_JESup" "_JESdown" ]} [])
       (new_Sample "ttbar" 1)))
    as (added & _ & _ & H).
  exact (proj2 (H "JES" eq_refl)).
Defined.

(** ** C5: [addOverallSys] with equal arguments *)

(** C5, as stated, fails: for [v = 3] the mirrored low [2.0 - 3 = -1] is
    floored to [0.01] before it is stored, and for [v = 1.000001] both
    values end up within 1e-5 of 1.0 and nothing is stored. *)
Lemma addOverallSys_equal_inputs_not_always_mirrored :
  let w3 := snd (@addOverallSys unit "JES" 3 3 (world_with [])) in
  let w1 := snd (@addOverallSys unit "JES" 1.000001 1.000001 (world_with [])) in
  (overallSystList (self w3) = [("JES", 3, 0.01)] /\ ~ 0.01 == 2.0 - 3)
  /\ overallSystList (self w1) = [].
Proof.
  cbv zeta. split; [split|].
  - vm_compute. reflexivity.
  - intros H. vm_compute in H. discriminate H.
  - vm_compute. reflexivity.
Qed.

(** C5, amended.  For [addOverallSys(name, v, v)] with [v] neither 0 nor
    1 the low value is first mirrored to [2.0 - v], from the original
    high; then both values are floored at 0.01; the entry
    [(max(v, 0.01), max(2.0 - v, 0.01))] is appended unless [v] is within
    1e-5 of 1, in which case nothing changes.  So the stored low is
    [2.0 - v] whenever [v <= 1.99] and [|v - 1| >= 1e-5], and the stored
    pair is never [(v, v)]. *)
Theorem addOverallSys_equal_inputs {R' : Type} (systName : string) (v : Q) (w : World) :
  ~ v == 0 -> ~ v == 1 ->
  let r := @addOverallSys R' systName v v w in
  let high' := if Qltb v 0.01 then 0.01 else v in
  let low' := if Qltb (2.0 - v) 0.01 then 0.01 else 2.0 - v in
  fst r = Normal tt
  /\ (Qabs (v - 1) < 1e-5 -> snd r = w)
  /\ (1e-5 <= Qabs (v - 1) ->
      overallSystList (self (snd r))
      = (overallSystList (self w) ++ [(systName, high', low')])%list)
  /\ (v <= 1.99 -> low' = 2.0 - v)
  /\ ~ (high' == v /\ low' == v).
Proof.
  intros H0 H1. cbv zeta. rewrite addOverallSys_closed_form. cbn [fst snd].
  sci_literals.
  assert (Ex : overall_exact_noinfo v v = false).
  { unfold overall_exact_noinfo.
    replace (Qeq_bool v 1.0) with false by (symmetry; by_lra).
    replace (Qeq_bool v 0.0) with false by (symmetry; by_lra). reflexivity. }
  assert (Em : overall_mirrored v v = (v, 2.0 - v)).
  { unfold overall_mirrored.
    replace (Qeq_bool v v) with true by (symmetry; by_lra).
    replace (Qeq_bool v 1.0) with false by (symmetry; by_lra).
    replace (Qeq_bool (2.0 - v) 1.0) with false by (symmetry; by_lra).
    reflexivity. }
  unfold overall_resolved. rewrite Ex, Em. cbv zeta.
  unfold overall_clamped.
  split; [reflexivity|].
  split; [|split; [|split]].
  - intros Hn.
    assert (En : Qltb v 0.01 = false) by (elim_Qabs; by_lra).
    assert (El : Qltb (2.0 - v) 0.01 = false) by (elim_Qabs; by_lra).
    rewrite En, El. unfold overall_near_noinfo, fabs. sci_literals.
    replace (Qltb (Qabs (v - 1.0)) 0.00001) with true
      by (symmetry; apply Qltb_lt; elim_Qabs; lra).
    replace (Qltb (Qabs (2.0 - v - 1.0)) 0.00001) with true
      by (symmetry; apply Qltb_lt; elim_Qabs; lra).
    reflexivity.
  - intros Hf.
    assert (En : overall_near_noinfo
                   (if Qltb v 0.01 then 0.01 else v,
                    if Qltb (2.0 - v) 0.01 then 0.01 else 2.0 - v) = false).
    { unfold overall_near_noinfo, fabs. sci_literals. apply orb_false_iff. split.
      - destruct (Qltb v 0.01) eqn:Ev.
        + replace (Qltb (Qabs (0.01 - 1.0)) 0.00001) with false by reflexivity.
          reflexivity.
        + replace (Qltb (Qabs (v - 1.0)) 0.00001) with false
            by (symmetry; apply Qltb_ge; elim_Qabs; lra).
          reflexivity.
      - destruct (Qltb v 0.01) eqn:Ev.
        + replace (Qltb (Qabs 0.01) 0.00001) with false by reflexivity. reflexivity.
        + apply Qltb_ge in Ev.
          replace (Qltb (Qabs v) 0.00001) with false
            by (symmetry; apply Qltb_ge; elim_Qabs; lra).
          reflexivity. }
    rewrite En. unfold overall_stored. cbn [self].
    destruct (has_key _ _); reflexivity.
  - intros Hv. replace (Qltb (2.0 - v) 0.01) with false by (symmetry; by_lra).
    reflexivity.
  - intros [Hh Hl].
    destruct (Qltb v 0.01) eqn:Ev; destruct (Qltb (2.0 - v) 0.01) eqn:El;
      reflect_Q; lra.
Qed.

(** Scenario D of the spec, through C5: [addOverallSys("JES", 0.3, 0.3)]
    stores [(0.3, 1.7)]. *)
Lemma addOverallSys_scenario_D :
  overallSystList (self (snd (@addOverallSys unit "JES" 0.3 0.3 (world_with []))))
  = [("JES", 0.3, 2.0 - 0.3)]
  /\ 2.0 - 0.3 == 1.7.
Proof.
  split; [|reflexivity].
  refine (proj1 (proj2 (proj2
    (@addOverallSys_equal_inputs unit "JES" 0.3 (world_with []) _ _))) _).
  - intros H. vm_compute in H. discriminate H.
  - intros H. vm_compute in H. discriminate H.
  - vm_compute. discriminate.
Defined.

(** ** C6: [addOverallSys] with one side at 1.0 *)

(** C6.  When exactly one of [high], [low] equals 1.0 and the other lies
    in (0, ∞) and differs from 1, the mirror steps replace the 1.0-valued
    side by [2.0] minus the other side and leave the other side alone; the
    call then proceeds exactly as [addOverallSys] on the mirrored pair:
    the pair is floored at 0.01 and stored unless it carries no
    information. *)
Theorem addOverallSys_mirrors_unit_side {R' : Type}
    (systName : string) (high low : Q) (w : World) :
  (high == 1 /\ 0 < low /\ ~ low == 1) \/ (low == 1 /\ 0 < high /\ ~ high == 1) ->
  let high' := if Qeq_bool high 1.0 then 2.0 - low else high in
  let low' := if Qeq_bool low 1.0 then 2.0 - high else low in
  overall_mirrored high low = (high', low')
  /\ @addOverallSys R' systName high low w = @addOverallSys R' systName high' low' w
  /\ @addOverallSys R' systName high low w
     = (Normal tt,
        if overall_near_noinfo (overall_clamped (high', low')) then w
        else overall_stored systName (overall_clamped (high', low')) w).
Proof.
  intros H. cbv zeta.
  assert (Hm : overall_mirrored high low
               = (if Qeq_bool high 1.0 then 2.0 - low else high,
                  if Qeq_bool low 1.0 then 2.0 - high else low)
               /\ overall_exact_noinfo high low = false
               /\ overall_resolved
                    (if Qeq_bool high 1.0 then 2.0 - low else high)
                    (if Qeq_bool low 1.0 then 2.0 - high else low)
                  = overall_resolved high low).
  { unfold overall_resolved, overall_exact_noinfo, overall_mirrored.
    destruct H as [(Hh & Hp & Hl) | (Hl & Hp & Hh)].
    - assert (E1 : Qeq_bool high 1.0 = true) by by_lra.
      assert (E2 : Qeq_bool low 1.0 = false) by by_lra.
      assert (E3 : Qeq_bool high low = false) by by_lra.
      assert (E4 : Qeq_bool high 0.0 = false) by by_lra.
      assert (E5 : Qltb 0.0 low = true) by by_lra.
      assert (E6 : Qeq_bool (2.0 - low) 1.0 = false) by by_lra.
      assert (E7 : Qeq_bool (2.0 - low) low = false) by by_lra.
      assert (E8 : Qeq_bool low 0.0 = false) by by_lra.
      repeat first
        [ rewrite E1 | rewrite E2 | rewrite E3 | rewrite E4 | rewrite E5
        | rewrite E6 | rewrite E7 | rewrite E8 | rewrite andb_false_r
        | progress cbn [andb orb negb] ].
      repeat split; reflexivity.
    - assert (E1 : Qeq_bool low 1.0 = true) by by_lra.
      assert (E2 : Qeq_bool high 1.0 = false) by by_lra.
      assert (E3 : Qeq_bool high low = false) by by_lra.
      assert (E4 : Qeq_bool high 0.0 = false) by by_lra.
      assert (E5 : Qltb 0.0 high = true) by by_lra.
      assert (E6 : Qeq_bool (2.0 - high) 1.0 = false) by by_lra.
      assert (E7 : Qeq_bool high (2.0 - high) = false) by by_lra.
      repeat first
        [ rewrite E1 | rewrite E2 | rewrite E3 | rewrite E4 | rewrite E5
        | rewrite E6 | rewrite E7 | rewrite andb_false_r
        | progress cbn [andb orb negb] ].
      repeat split; reflexivity. }
  destruct Hm as (Hm & Hx & Hr).
  split; [exact Hm|].
  rewrite !addOverallSys_closed_form, Hr.
  split; [reflexivity|].
  unfold overall_resolved. rewrite Hx, Hm. cbv zeta.
  destruct (overall_near_noinfo _); reflexivity.
Qed.

(** Scenario C of the spec, through C6: [addOverallSys("JES", 1.0, 0.8)]
    stores [(1.2, 0.8)]. *)
Lemma addOverallSys_scenario_C :
  overallSystList (self (snd (@addOverallSys unit "JES" 1.0 0.8 (world_with []))))
  = [("JES", 2.0 - 0.8, 0.8)]
  /\ 2.0 - 0.8 == 1.2.
Proof.
  split; [|reflexivity].
  assert (Hyp : (1.0 == 1 /\ 0 < 0.8 /\ ~ 0.8 == 1)
                \/ (0.8 == 1 /\ 0 < 1.0 /\ ~ 1.0 == 1)).
  { left. split; [reflexivity|]. split; [reflexivity|].
    intros H. vm_compute in H. discriminate H. }
  rewrite (proj2 (proj2
    (@addOverallSys_mirrors_unit_side unit "JES" 1.0 0.8 (world_with []) Hyp))).
  reflexivity.
Defined.

(** ** C7: [addShapeSys] *)

(** C7.  [addShapeSys] appends nothing to [shapeSystList]: for all
    arguments and every world, whatever the outcome, the list is the same
    after the call as before.  (The method builds the three relative
    histograms and registers the name in [systList]; the entry
    [(systName, histName, constraintType)] is never stored, and
    [constraintType] is not used.) *)
Theorem addShapeSys_appends_no_entry {R' : Type}
    (systName nomName highName lowName constraintType : string) (w : World) :
  shapeSystList
    (self (snd (@addShapeSys R' systName nomName highName lowName constraintType w)))
  = shapeSystList (self w).
Proof.
  pose proof (@stays_addShapeSys R' systName nomName highName lowName constraintType w)
    as (_ & H & _).
  exact H.
Qed.

(** [addShapeSys] on nominal [60, 40], high [50, 40], low [50, 35]: the
    derived histograms hold the relative deviations in the underflow cell
    and bins 1 and 2 with zero errors, the overflow cell keeps the content
    and error of the clone, and [shapeSystList] stays empty. *)
Example addShapeSys_example :
  let w := world_with [("hNom", [60; 40]); ("hHigh", [50; 40]); ("hLow", [50; 35])] in
  let r := @addShapeSys unit "JES" "hNom" "hHigh" "hLow" "Gaussian" w in
  let hist n := default None (cfg_hists (configMgr (snd r)) !! n) in
  fst r = Normal tt
  /\ (fArray <$> hist "hHighNorm") = Some [0.0; 100 # 600; 0 # 400; 0]
  /\ (fArray <$> hist "hLowNorm") = Some [0.0; 100 # 600; 50 # 400; 0]
  /\ (fArray <$> hist "hNomNorm") = Some [0.0; 100 # 600; 50 # 400; 0]
  /\ (fSumw2 <$> hist "hNomNorm") = Some [0.0 * 0.0; 0.0 * 0.0; 0.0 * 0.0; 1]
  /\ shapeSystList (self (snd r)) = []
  /\ systList (self (snd r)) = ["JES"].
Proof. vm_compute. repeat split; reflexivity. Qed.

(** ** C8: Case 3 with plain symmetrization *)

Section Case3.
Variables (systName nomName highName lowName : string).
Variables (c : ConfigMgr) (s : Sample) (hn hh hl : Hist).
Hypothesis Hnom : cfg_hists c !! nomName = Some (Some hn).
Hypothesis Hhigh : cfg_hists c !! highName = Some (Some hh).
Hypothesis Hlow : cfg_hists c !! lowName = Some (Some hl).

(** The first branch of the plain symmetrization, lines 938-946. *)
Lemma addHistoSys_case3_mirror_high :
  let high_ratio := Integral hh / Integral hn in
  let low_ratio := Integral hl / Integral hn in
  ~ Integral hn == 0 ->
  high_ratio < 1 -> 0 < low_ratio -> low_ratio < 1 -> ~ high_ratio == 0 ->
  addHistoSys_case3 systName nomName highName lowName false false true (mkWorld c s)
  = (Normal tt,
     mkWorld
       (set_hists
          (<[highName +:+ "Norm" :=
               Some (Scale ((2.0 - low_ratio) / high_ratio)
                       (Clone (highName +:+ "Norm") hh))]> (cfg_hists c)) c)
       (set_histoSystList
          (histoSystList s
           ++ [histoSys_entry c systName (highName +:+ "Norm") lowName])%list s)).
Proof.
  intros high_ratio low_ratio Hn0 Hh1 Hl0 Hl1 Hh0. subst high_ratio low_ratio.
  unfold addHistoSys_case3. cbn [andb orb negb].
  unfold append_histoSys, try_ZeroDivisionError.
  run_proc.
  rewrite (integral_of_run _ _ _ Hnom). run_proc.
  rewrite (integral_of_run _ _ _ Hlow). run_proc.
  rewrite (integral_of_run _ _ _ Hhigh). run_proc.
  rewrite !(py_div_run _ _ _ Hn0). run_proc.
  replace (Qltb (Integral hh / Integral hn) 1.0) with true by (symmetry; by_lra).
  replace (Qltb (Integral hl / Integral hn) 1.0) with true by (symmetry; by_lra).
  replace (Qltb 0.0 (Integral hl / Integral hn)) with true by (symmetry; by_lra).
  run_proc.
  rewrite (clone_as_run _ _ _ _ Hhigh). run_proc.
  rewrite (hists_obj_run (highName +:+ "Norm") _ (Clone (highName +:+ "Norm") hh))
    by (cbn [cfg_hists set_hists]; apply lookup_insert_eq).
  run_proc.
  rewrite (py_div_run _ _ _ Hh0). run_proc.
  unfold hists_set. run_proc.
  rewrite insert_insert_eq. destruct c; reflexivity.
Qed.

(** The same branch when the high integral is zero: the division at line
    942 raises, the handler returns, and nothing is appended. *)
Lemma addHistoSys_case3_zero_high :
  let low_ratio := Integral hl / Integral hn in
  ~ Integral hn == 0 ->
  Integral hh == 0 -> 0 < low_ratio -> low_ratio < 1 ->
  addHistoSys_case3 systName nomName highName lowName false false true (mkWorld c s)
  = (Return tt,
     mkWorld
       (set_hists
          (<[highName +:+ "Norm" := Some (Clone (highName +:+ "Norm") hh)]> (cfg_hists c))
          c)
       s).
Proof.
  intros low_ratio Hn0 Hh0 Hl0 Hl1. subst low_ratio.
  assert (Hr : Integral hh / Integral hn == 0).
  { rewrite Hh0. unfold Qdiv. ring. }
  unfold addHistoSys_case3. cbn [andb orb negb].
  unfold append_histoSys, try_ZeroDivisionError.
  run_proc.
  rewrite (integral_of_run _ _ _ Hnom). run_proc.
  rewrite (integral_of_run _ _ _ Hlow). run_proc.
  rewrite (integral_of_run _ _ _ Hhigh). run_proc.
  rewrite !(py_div_run _ _ _ Hn0). run_proc.
  replace (Qltb (Integral hh / Integral hn) 1.0) with true by (symmetry; by_lra).
  replace (Qltb (Integral hl / Integral hn) 1.0) with true by (symmetry; by_lra).
  replace (Qltb 0.0 (Integral hl / Integral hn)) with true by (symmetry; by_lra).
  run_proc.
  rewrite (clone_as_run _ _ _ _ Hhigh). run_proc.
  rewrite (hists_obj_run (highName +:+ "Norm") _ (Clone (highName +:+ "Norm") hh))
    by (cbn [cfg_hists set_hists]; apply lookup_insert_eq).
  run_proc.
  rewrite (py_div_zero _ _ _ Hr). run_proc.
  reflexivity.
Qed.
End Case3.

(** C8, as stated, fails when the high integral is zero: with nominal
    integral 100, high integral 0 and low integral 85 the ratios are
    [0 < 1.0] and [0 < 0.85 < 1], the rescaling factor [(2 - 0.85)/0]
    cannot be formed, its [ZeroDivisionError] is caught at line 943 and
    the systematic is dropped: nothing is appended to [histoSystList]
    and the name is not registered. *)
Lemma plain_symmetrize_drops_empty_high :
  let w := world_with [("hNom", [60; 40]); ("hHigh", [0; 0]); ("hLow", [50; 35])] in
  let r := @addHistoSys "JES" "hNom" "hHigh" "hLow" false "" "" "" false unit
             false false true w in
  let high_ratio := Integral (hist_of_bins "hHigh" [0; 0])
                    / Integral (hist_of_bins "hNom" [60; 40]) in
  let low_ratio := Integral (hist_of_bins "hLow" [50; 35])
                   / Integral (hist_of_bins "hNom" [60; 40]) in
  (high_ratio < 1 /\ 0 < low_ratio /\ low_ratio < 1)
  /\ fst r = Normal tt
  /\ histoSystList (self (snd r)) = []
  /\ systList (self (snd r)) = [].
Proof.
  cbv zeta. split; [|split; [|split]].
  - repeat split; vm_compute; reflexivity.
  - vm_compute. reflexivity.
  - vm_compute. reflexivity.
  - vm_compute. reflexivity.
Qed.

(** C8, amended.  In Case 3 (no renormalisation in effect: [normalizeSys]
    false, or switched off by [noRenormSys]; [includeOverallSys] false)
    with [symmetrize] and neither [oneSide] nor [symmetrizeEnvelope], when
    the nominal, high and low histograms exist after the optional
    alignment to [nomSysName], [high_ratio < 1.0], [0 < low_ratio < 1]
    and [high_ratio] is not zero: the call completes, the store gains
    under [highName + "Norm"] a clone of the high histogram scaled by
    [(2 - low_ratio) / high_ratio] and is otherwise unchanged (so the low
    histogram is as it was, unless it goes by that very name), the entry
    [(systName, highName + "Norm", lowName, cacheFile, "", "", "", "")]
    is appended to [histoSystList], and the name is registered. *)
Theorem addHistoSys_plain_symmetrize_mirrors_high {R' : Type}
    (systName nomName highName lowName samName normString nomSysName : string)
    (normalizeSys : bool) (w : World) (c1 : ConfigMgr) (hn hh hl : Hist) :
  @alignToNomSys unit nomName highName lowName nomSysName (configMgr w) = (Normal tt, c1) ->
  normalizeSys = false \/ noRenormSys (self w) = true ->
  cfg_hists c1 !! nomName = Some (Some hn) ->
  cfg_hists c1 !! highName = Some (Some hh) ->
  cfg_hists c1 !! lowName = Some (Some hl) ->
  let high_ratio := Integral hh / Integral hn in
  let low_ratio := Integral hl / Integral hn in
  high_ratio < 1 -> 0 < low_ratio -> low_ratio < 1 -> ~ high_ratio == 0 ->
  let w' :=
    mkWorld
      (set_hists
         (<[highName +:+ "Norm" :=
              Some (Scale ((2.0 - low_ratio) / high_ratio)
                      (Clone (highName +:+ "Norm") hh))]> (cfg_hists c1)) c1)
      (registered c1 systName
         (set_histoSystList
            (histoSystList (self w)
             ++ [histoSys_entry c1 systName (highName +:+ "Norm") lowName])%list
            (self w))) in
  @addHistoSys systName nomName highName lowName false samName normString nomSysName
     false R' false normalizeSys true w
  = (Normal tt, w')
  /\ (lowName <> highName +:+ "Norm" ->
      cfg_hists (configMgr w') !! lowName = Some (Some hl)).
Proof.
  intros Hal Hnorm Hn Hh Hl high_ratio low_ratio Hh1 Hl0 Hl1 Hh0. cbv zeta.
  split;
    [|intros Hne; cbn [configMgr cfg_hists set_hists];
      rewrite lookup_insert_ne by congruence; exact Hl].
  assert (Hn0 : ~ Integral hn == 0).
  { intros E. subst low_ratio. rewrite E in Hl0. unfold Qdiv in Hl0.
    change (/ 0) with 0 in Hl0. lra. }
  destruct w as [c s]. cbn [configMgr self] in *.
  unfold addHistoSys. run_proc. rewrite Hal. run_proc.
  replace (if noRenormSys s && normalizeSys then false else normalizeSys) with false
    by (destruct Hnorm as [-> | ->]; [rewrite andb_false_r | destruct normalizeSys];
        reflexivity).
  run_proc.
  rewrite (addHistoSys_case3_mirror_high systName nomName highName lowName
             c1 s hn hh hl Hn Hh Hl Hn0 Hh1 Hl0 Hl1 Hh0).
  unfold register_syst, registered. run_proc.
  destruct (has_key (cfg_systDict c1) systName); reflexivity.
Qed.

(** Scenario E of the spec, through C8: nominal integral 100, high
    integral 90, low integral 85. *)
Lemma addHistoSys_scenario_E :
  let hNom := hist_of_bins "hNom" [60; 40] in
  let hHigh := hist_of_bins "hHigh" [50; 40] in
  let hLow := hist_of_bins "hLow" [50; 35] in
  let w := world_with [("hNom", [60; 40]); ("hHigh", [50; 40]); ("hLow", [50; 35])] in
  let c := configMgr w in
  (Integral hHigh / Integral hNom == 0.9 /\ Integral hLow / Integral hNom == 0.85)
  /\ @addHistoSys "JES" "hNom" "hHigh" "hLow" false "" "" "" false unit false false true w
     = (Normal tt,
        mkWorld
          (set_hists
             (<["hHighNorm" :=
                  Some (Scale ((2.0 - Integral hLow / Integral hNom)
                               / (Integral hHigh / Integral hNom))
                          (Clone "hHighNorm" hHigh))]> (cfg_hists c)) c)
          (registered c "JES"
             (set_histoSystList [histoSys_entry c "JES" "hHighNorm" "hLow"] (self w)))).
Proof.
  cbv zeta. split; [split; vm_compute; reflexivity|].
  refine (proj1 (@addHistoSys_plain_symmetrize_mirrors_high unit
            "JES" "hNom" "hHigh" "hLow" "" "" "" false
            (world_with [("hNom", [60; 40]); ("hHigh", [50; 40]); ("hLow", [50; 35])])
            (cfg_with [("hNom", [60; 40]); ("hHigh", [50; 40]); ("hLow", [50; 35])])
            (hist_of_bins "hNom" [60; 40]) (hist_of_bins "hHigh" [50; 40])
            (hist_of_bins "hLow" [50; 35]) eq_refl (or_introl eq_refl)
            eq_refl eq_refl eq_refl _ _ _ _)).
  - vm_compute. reflexivity.
  - vm_compute. reflexivity.
  - vm_compute. reflexivity.
  - intros H. vm_compute in H. discriminate H.
Defined.

(** ** C9: [getHistogramName] *)

(** C9.  For a sample that is not data, a variation that is none of
    [""], [Nom], [High], [Low], [Up], [Down] does not end in the
    [ValueError] the method means to raise: the message template has two
    fields and [format] is given one argument, so building the message
    raises [IndexError]. *)
Theorem getHistogramName_unknown_variation (replaceSymbols : string -> string)
    {R' : Type} (fitConfig : FitConfig) (syst_name variation : string) (w : World) :
  isData (self w) = false ->
  resolved_variation variation ∉ ["Nom"; "High"; "Low"] ->
  @getHistogramName replaceSymbols R' fitConfig syst_name variation w
  = (Raise IndexError, w).
Proof.
  intros Hd Hv. destruct w as [c s]. destruct s. cbn [self isData] in Hd. subst.
  unfold getHistogramName, isBlinded. run_proc.
  fold (resolved_variation variation).
  rewrite bool_decide_eq_false_2 by exact Hv.
  reflexivity.
Qed.

(** The unknown variation ["Foo"] on a fresh sample. *)
Lemma getHistogramName_Foo :
  @getHistogramName (fun s => s) unit (mkFitConfig "fit") "JES" "Foo" (world_with [])
  = (Raise IndexError, world_with []).
Proof.
  apply getHistogramName_unknown_variation.
  - reflexivity.
  - apply (bool_decide_eq_false_1 (resolved_variation "Foo" ∈ ["Nom"; "High"; "Low"])).
    reflexivity.
Defined.

(** A variation requested on a data sample is refused with [ValueError]. *)
Lemma getHistogramName_data_variation (replaceSymbols : string -> string)
    {R' : Type} (fitConfig : FitConfig) (syst_name variation : string) (w : World) :
  isData (self w) = true ->
  variation <> "" ->
  @getHistogramName replaceSymbols R' fitConfig syst_name variation w
  = (Raise (ValueError
       ("Sample " +:+ name (self w) +:+ ": is data, cannot specify variation!")), w).
Proof.
  intros Hd Hv. destruct w as [c s]. destruct s. cbn [self isData name] in *. subst.
  unfold getHistogramName. run_proc.
  rewrite (bool_decide_eq_false_2 _ Hv).
  reflexivity.
Qed.

(** A known variation on a sample that is not data and has a parent
    channel yields the name, without raising. *)
Lemma getHistogramName_known_variation (replaceSymbols : string -> string)
    {R' : Type} (fitConfig : FitConfig) (syst_name variation : string) (w : World)
    (ch : Channel) :
  isData (self w) = false ->
  parentChannel (self w) = Some ch ->
  resolved_variation variation ∈ ["Nom"; "High"; "Low"] ->
  @getHistogramName replaceSymbols R' fitConfig syst_name variation w
  = (Normal ("h" +:+ name (self w) +:+ syst_name +:+ resolved_variation variation
             +:+ "_" +:+ join (regions ch) +:+ "_obs_"
             +:+ replaceSymbols (variableName ch)), w).
Proof.
  intros Hd Hp Hv. destruct w as [c s]. destruct s.
  cbn [self isData name parentChannel] in *. subst.
  unfold getHistogramName, isBlinded, parentChannel_obj. run_proc.
  fold (resolved_variation variation).
  rewrite bool_decide_eq_true_2 by exact Hv.
  unfold format. cbn [py_format]. run_proc. rewrite append_empty_r. reflexivity.
Qed.

(** ** C10: reading [treename] *)

Lemma getTreenameSuffix_pure {R' : Type} (w : World) :
  @getTreenameSuffix R' w = (Normal (treename_suffix w), w).
Proof.
  destruct w as [c s]. destruct s. unfold getTreenameSuffix, treename_suffix. run_proc.
  destruct (bool_decide (suffixTreeName0 = "")); [|reflexivity].
  destruct isData0, isQCD0, isDiscovery0, currentSystematic0; reflexivity.
Qed.

(** C10.  Reading [treename] on a sample whose [overrideTreename] and
    [prefixTreeName] are empty returns the sample's name followed by the
    tree suffix, and leaves the world as it was except that
    [prefixTreeName] now holds the sample's name.  From then on the tree
    name no longer follows the sample's name: after any renaming the same
    tree name is returned (the name being non-empty, as [__init__]
    requires). *)
Theorem treename_read_sets_prefix {R' : Type} (w : World) :
  overrideTreename (self w) = "" ->
  prefixTreeName (self w) = "" ->
  name (self w) <> "" ->
  let w' := mkWorld (configMgr w) (set_prefixTreeName (name (self w)) (self w)) in
  let tree := name (self w) +:+ treename_suffix w in
  @treename R' w = (Normal tree, w')
  /\ forall newName : string,
       let renamed := mkWorld (configMgr w') (set_name newName (self w')) in
       @treename R' renamed = (Normal tree, renamed).
Proof.
  intros Ho Hp Hn. destruct w as [c s]. destruct s.
  cbn [self overrideTreename prefixTreeName name] in Ho, Hp, Hn. subst.
  cbv zeta. split.
  - unfold treename, getTreename.
    repeat (progress (run_proc; rewrite ?(bool_decide_eq_true_2 ("" = "") eq_refl))).
    rewrite getTreenameSuffix_pure.
    unfold format. cbn [py_format]. run_proc. rewrite append_empty_r. reflexivity.
  - intros newName. unfold treename, getTreename.
    repeat (progress (run_proc;
                      rewrite ?(bool_decide_eq_true_2 ("" = "") eq_refl),
                              ?(bool_decide_eq_false_2 (name0 = "") Hn))).
    rewrite getTreenameSuffix_pure.
    unfold format. cbn [py_format]. run_proc. rewrite append_empty_r. reflexivity.
Qed.

(** On a fresh sample named [ttbar] the tree name is [ttbar_NoSys], also
    after the sample is renamed. *)
Lemma treename_read_fresh_sample :
  let w' := mkWorld (cfg_with []) (set_prefixTreeName "ttbar" (new_Sample "ttbar" 1)) in
  @treename unit (world_with []) = (Normal "ttbar_NoSys", w')
  /\ @treename unit (mkWorld (cfg_with []) (set_name "top" (self w')))
     = (Normal "ttbar_NoSys", mkWorld (cfg_with []) (set_name "top" (self w'))).
Proof.
  assert (Hn : name (self (world_with [])) <> "") by discriminate.
  pose proof (@treename_read_sets_prefix unit (world_with []) eq_refl eq_refl Hn) as H.
  cbv zeta in H. destruct H as [H1 H2].
  split; [exact H1 | exact (H2 "top")].
Defined.

(** * The rest of the sample's interface: properties *)

(** Run the statements of the further methods as far as they are
    determined. *)
Ltac run_more :=
  repeat (progress (
    run_proc;
    cbv beta iota zeta delta
      [method invoke raise_Exception removeCurrentSystematic systDict_item
       register_norm list_item];
    cbn [self configMgr fst snd andb orb negb
         name color isData isQCD isDiscovery write normByTheory statConfig
         histoSystList shapeSystList overallSystList shapeFactorList systList weights
         tempWeights systDict currentSystematic normFactor qcdSyst unit_ cutsDict
         input_files overrideTreename prefixTreeName suffixTreeName friendTreeName
         additionalCuts xsecWeight xsecUp xsecDown normRegions normSampleRemap
         noRenormSys parentChannel allowRemapOfSyst mergeOverallSysSet toBeMerged
         set_name set_histoSystList set_overallSystList set_systList
         set_prefixTreeName set_normRegions set_noRenormSys
         set_isData set_isQCD set_isDiscovery set_qcdSyst set_weights set_tempWeights
         set_systDict set_currentSystematic set_normFactor set_shapeFactorList
         set_overrideTreename set_suffixTreeName in_channel
         cfg_hists cfg_histCacheFile cfg_nomName cfg_systDict cfg_normList
         set_hists set_normList ref_name
         syst_name syst_type syst_nominal syst_high syst_low])).

(** ** Histogram names *)

(** The names [getHistogramName] gives.  For a data sample the
    systematic plays no part: a variation is refused with [ValueError],
    and without one the name is [h<name>_<regions>_obs_<variable>], or,
    when the channel is blinded for the fit, [h<fit><name>Blind_<regions>_obs],
    in which the variable does not occur.  For any other sample in a
    channel, a variation that resolves to [Nom], [High] or [Low] gives
    [h<name><syst><variation>_<regions>_obs_<variable>].  No call changes
    the sample, and [Up] and [Down] end as [High] and [Low] do, also when
    the call raises. *)
Theorem getHistogramName_names (replaceSymbols : string -> string)
    {R' : Type} (fitConfig : FitConfig) (syst_name variation : string) (w : World) :
  (isData (self w) = true -> variation <> "" ->
   @getHistogramName replaceSymbols R' fitConfig syst_name variation w
   = (Raise (ValueError
               ("Sample " +:+ name (self w) +:+ ": is data, cannot specify variation!")), w))
  /\ (forall ch : Channel,
        parentChannel (self w) = Some ch -> isData (self w) = true ->
        @getHistogramName replaceSymbols R' fitConfig syst_name "" w
        = (Normal
             (if channel_isBlinded ch fitConfig
              then "h" +:+ fc_name fitConfig +:+ name (self w) +:+ "Blind_"
                   +:+ join (regions ch) +:+ "_obs"
              else "h" +:+ name (self w) +:+ "_" +:+ join (regions ch) +:+ "_obs_"
                   +:+ replaceSymbols (variableName ch)), w))
  /\ (forall ch : Channel,
        parentChannel (self w) = Some ch -> isData (self w) = false ->
        resolved_variation variation ∈ ["Nom"; "High"; "Low"] ->
        @getHistogramName replaceSymbols R' fitConfig syst_name variation w
        = (Normal ("h" +:+ name (self w) +:+ syst_name +:+ resolved_variation variation
                   +:+ "_" +:+ join (regions ch) +:+ "_obs_"
                   +:+ replaceSymbols (variableName ch)), w))
  /\ @getHistogramName replaceSymbols R' fitConfig syst_name "Up" w
     = @getHistogramName replaceSymbols R' fitConfig syst_name "High" w
  /\ @getHistogramName replaceSymbols R' fitConfig syst_name "Down" w
     = @getHistogramName replaceSymbols R' fitConfig syst_name "Low" w.
Proof.
  destruct w as [c s]. destruct s. cbn [self isData name parentChannel].
  split; [|split; [|split; [|split]]].
  - intros Hd Hv. subst. unfold getHistogramName. run_proc.
    rewrite (bool_decide_eq_false_2 _ Hv). reflexivity.
  - intros ch Hp Hd. subst.
    unfold getHistogramName, isBlinded, parentChannel_obj.
    rewrite (bool_decide_eq_true_2 ("" = "") eq_refl). run_proc.
    destruct (channel_isBlinded ch fitConfig); run_proc;
      unfold format; cbn [py_format]; run_proc; rewrite ?append_empty_r; reflexivity.
  - intros ch Hp Hd Hv. subst.
    unfold getHistogramName, isBlinded, parentChannel_obj. run_proc.
    fold (resolved_variation variation).
    rewrite bool_decide_eq_true_2 by exact Hv.
    unfold format. cbn [py_format]. run_proc. rewrite append_empty_r. reflexivity.
  - unfold getHistogramName, isBlinded, parentChannel_obj.
    destruct isData0; run_proc; reflexivity.
  - unfold getHistogramName, isBlinded, parentChannel_obj.
    destruct isData0; run_proc; reflexivity.
Qed.

(** The name [httbarJESHigh_SR_obs_cuts] of the [Up] variation of [JES]
    for the sample [ttbar] in the channel [SR], and the name
    [hdata_SR_obs_cuts] of the same sample flagged as data. *)
Lemma getHistogramName_ttbar_SR :
  fst (@getHistogramName (fun s => s) unit (mkFitConfig "fit") "JES" "Up"
         (mkWorld (cfg_with []) (in_channel channel_SR (new_Sample "ttbar" 1))))
  = Normal "httbarJESHigh_SR_obs_cuts"
  /\ fst (@getHistogramName (fun s => s) unit (mkFitConfig "fit") "JES" ""
            (mkWorld (cfg_with [])
               (set_isData true (in_channel channel_SR (new_Sample "data" 1)))))
     = Normal "hdata_SR_obs_cuts".
Proof.
  assert (Hv : resolved_variation "Up" ∈ ["Nom"; "High"; "Low"])
    by (apply (bool_decide_eq_true_1 _); reflexivity).
  split.
  - destruct (@getHistogramName_names (fun s => s) unit (mkFitConfig "fit") "JES" "Up"
                (mkWorld (cfg_with []) (in_channel channel_SR (new_Sample "ttbar" 1))))
      as (_ & _ & H & _).
    rewrite (H channel_SR eq_refl eq_refl Hv). reflexivity.
  - destruct (@getHistogramName_names (fun s => s) unit (mkFitConfig "fit") "JES" ""
                (mkWorld (cfg_with [])
                   (set_isData true (in_channel channel_SR (new_Sample "data" 1)))))
      as (_ & H & _).
    rewrite (H channel_SR eq_refl eq_refl). reflexivity.
Defined.

(** ** Tree names *)

(** [copy] is no name of the module and no local of [getTreename]. *)
Lemma name_lookup_copy {S R} (s : S) :
  @name_lookup S R (["self"; "suffix"] ++ ["_suffix"]) "copy" s
  = (Raise (NameError "copy"), s).
Proof. reflexivity. Qed.

(** [getTreename] with a suffix of the caller's never returns a tree name
    unless the tree name is overridden: the suffix is handed to [copy],
    which the module does not import ([deepcopy] is), so the call raises
    [NameError].  By then the prefix has been set as on any other read. *)
Theorem getTreename_explicit_suffix {R' : Type} (suffix : string) (w : World) :
  suffix <> "" ->
  overrideTreename (self w) = "" ->
  @getTreename R' suffix w
  = (Raise (NameError "copy"),
     mkWorld (configMgr w)
       (if bool_decide (prefixTreeName (self w) = "")
        then set_prefixTreeName (name (self w)) (self w)
        else self w)).
Proof.
  intros Hs Ho. destruct w as [c s]. destruct s.
  cbn [self overrideTreename prefixTreeName name configMgr] in *. subst.
  unfold getTreename.
  repeat (progress (run_proc;
                    rewrite ?(bool_decide_eq_true_2 ("" = "") eq_refl),
                            ?(bool_decide_eq_false_2 (suffix = "") Hs))).
  destruct (bool_decide (prefixTreeName0 = "")) eqn:E; run_proc;
    rewrite name_lookup_copy; reflexivity.
Qed.

(** The tree [ttbar_JESup] asked for by suffix on a fresh sample. *)
Lemma getTreename_JESup_fresh_sample :
  @getTreename unit "_JESup" (world_with [])
  = (Raise (NameError "copy"),
     mkWorld (cfg_with []) (set_prefixTreeName "ttbar" (new_Sample "ttbar" 1))).
Proof.
  exact (@getTreename_explicit_suffix unit "_JESup" (world_with [])
           (bool_decide_eq_false_1 ("_JESup" = "") eq_refl) eq_refl).
Defined.

(** What the tree name is taken from, in order.  An override set with
    [setOverrideTreename] is returned as it is, whatever suffix is asked
    for; without an override, a suffix set with [setSuffixTreeName]
    follows the prefix, whatever the flags and the current systematic of
    the sample are. *)
Theorem treename_precedence {R' : Type} (w : World) :
  (forall n suffix : string,
     n <> "" ->
     let w1 := snd (@setOverrideTreename unit n w) in
     @getTreename R' suffix w1 = (Normal n, w1))
  /\ (forall sfx : string,
        sfx <> "" ->
        overrideTreename (self w) = "" ->
        let w1 := snd (@setSuffixTreeName unit sfx w) in
        fst (@treename R' w1) = Normal (tree_prefix (self w) +:+ sfx)).
Proof.
  destruct w as [c s]. destruct s. split.
  - intros n suffix Hn. unfold setOverrideTreename, getTreename. run_more.
    rewrite (bool_decide_eq_false_2 (n = "") Hn). reflexivity.
  - intros sfx Hs Ho. cbn [self overrideTreename] in Ho. subst.
    unfold setSuffixTreeName, treename, getTreename, tree_prefix.
    repeat (progress (run_more; rewrite ?(bool_decide_eq_true_2 ("" = "") eq_refl))).
    destruct (bool_decide (prefixTreeName0 = "")) eqn:E;
      repeat (progress (run_more; rewrite ?(bool_decide_eq_true_2 ("" = "") eq_refl)));
      rewrite getTreenameSuffix_pure; unfold treename_suffix; run_more;
      rewrite (bool_decide_eq_false_2 (sfx = "") Hs); run_more;
      unfold format; cbn [py_format]; run_more; rewrite append_empty_r; reflexivity.
Qed.

(** The override [tree_data] on a fresh sample. *)
Lemma treename_override_fresh_sample :
  @getTreename unit "_JESup" (snd (@setOverrideTreename unit "tree_data" (world_with [])))
  = (Normal "tree_data", snd (@setOverrideTreename unit "tree_data" (world_with []))).
Proof.
  exact (proj1 (@treename_precedence unit (world_with [])) "tree_data" "_JESup"
           (bool_decide_eq_false_1 ("tree_data" = "") eq_refl)).
Defined.

(** What the tree name ends with when no suffix is fixed and no override
    is set.  A sample flagged as data, as QCD or as discovery reads the
    prefix alone: neither the nominal suffix of [configMgr] nor the suffix
    of a current systematic is used, whatever systematic is current.  Any
    other sample without a current systematic reads the prefix followed
    by [configMgr.nomName].  A prefix set with [setPrefixTreeName]
    replaces the sample's name in the tree name and leaves the suffix as
    it is. *)
Theorem treename_of_flagged_sample {R' : Type} (w : World) :
  overrideTreename (self w) = "" ->
  suffixTreeName (self w) = "" ->
  (forall (qcdSyst : string) (w1 : World),
     w1 = snd (@setData unit true w) \/ w1 = snd (@setQCD unit true qcdSyst w)
     \/ w1 = snd (@setDiscovery unit true w) ->
     fst (@treename R' w1) = Normal (tree_prefix (self w)))
  /\ (isData (self w) = false -> isQCD (self w) = false -> isDiscovery (self w) = false ->
      currentSystematic (self w) = None ->
      fst (@treename R' w) = Normal (tree_prefix (self w) +:+ cfg_nomName (configMgr w)))
  /\ (forall p : string,
        p <> "" ->
        fst (@treename R' (snd (@setPrefixTreeName unit p w)))
        = Normal (p +:+ treename_suffix w)).
Proof.
  intros Ho Hs. destruct w as [c s]. destruct s.
  cbn [self overrideTreename suffixTreeName] in Ho, Hs. subst.
  split; [|split].
  - intros qcdSyst w1 [E | [E | E]]; subst w1;
      unfold setData, setQCD, setDiscovery, treename, getTreename, tree_prefix;
      repeat (progress (run_more; rewrite ?(bool_decide_eq_true_2 ("" = "") eq_refl)));
      destruct (bool_decide (prefixTreeName0 = "")) eqn:E;
      repeat (progress (run_more; rewrite ?(bool_decide_eq_true_2 ("" = "") eq_refl)));
      rewrite getTreenameSuffix_pure; unfold treename_suffix; run_more;
      rewrite ?(bool_decide_eq_true_2 ("" = "") eq_refl); run_more;
      rewrite ?andb_false_r; run_more;
      rewrite ?(bool_decide_eq_true_2 ("" = "") eq_refl); run_more;
      unfold format; cbn [py_format]; run_more; rewrite !append_empty_r; reflexivity.
  - cbn [self isData isQCD isDiscovery currentSystematic configMgr].
    intros Hd Hq Hdi Hc. subst.
    unfold treename, getTreename, tree_prefix.
    repeat (progress (run_more; rewrite ?(bool_decide_eq_true_2 ("" = "") eq_refl))).
    destruct (bool_decide (prefixTreeName0 = "")) eqn:E;
      repeat (progress (run_more; rewrite ?(bool_decide_eq_true_2 ("" = "") eq_refl)));
      rewrite getTreenameSuffix_pure; unfold treename_suffix; run_more;
      rewrite ?(bool_decide_eq_true_2 ("" = "") eq_refl); run_more;
      destruct (bool_decide (cfg_nomName c = "")); run_more;
      unfold format; cbn [py_format]; run_more; rewrite append_empty_r; reflexivity.
  - intros p Hp.
    unfold setPrefixTreeName, treename, getTreename.
    repeat (progress (run_more; rewrite ?(bool_decide_eq_true_2 ("" = "") eq_refl))).
    rewrite (bool_decide_eq_false_2 (p = "") Hp). run_more.
    rewrite getTreenameSuffix_pure. unfold treename_suffix. run_more.
    match goal with
    | |- context [bool_decide (?x = "")] => destruct (bool_decide (x = ""))
    end; run_more;
      unfold format; cbn [py_format]; run_more; rewrite ?append_empty_r; reflexivity.
Qed.

(** The sample [ttbar] with the systematic [JES] current, once flagged as
    data, reads the tree [ttbar]. *)
Lemma treename_of_data_sample :
  fst (@treename unit
         (snd (@setData unit true
                 (mkWorld (cfg_with [])
                    (set_currentSystematic (Some "_JESup") (new_Sample "ttbar" 1))))))
  = Normal "ttbar".
Proof.
  exact (proj1 (@treename_of_flagged_sample unit
                  (mkWorld (cfg_with [])
                     (set_currentSystematic (Some "_JESup") (new_Sample "ttbar" 1)))
                  eq_refl eq_refl)
           "" _ (or_introl eq_refl)).
Defined.

(** ** The current systematic *)

(** [setCurrentSystematic] with a systematic the sample holds (given by
    name, or by a descriptor that is not a weight systematic) makes the
    suffix of the chosen variation current; the suffix is that of the
    sample's own descriptor of that name, and an unrecognised mode is no
    error but selects the nominal suffix.  For a sample that is neither
    data, QCD nor discovery and has no fixed suffix or override, the tree
    read next is the prefix followed by that suffix. *)
Theorem setCurrentSystematic_selects_tree {R' : Type}
    (ref : SystRef) (mode : string) (syst : SystematicBase) (w : World) :
  systDict (self w) !! ref_name ref = Some syst ->
  (forall d, ref = inr d -> syst_type d <> "weight") ->
  let w1 :=
    mkWorld (configMgr w)
      (set_currentSystematic (Some (variation_suffix mode syst)) (self w)) in
  @setCurrentSystematic R' (Some ref) mode w = (Normal tt, w1)
  /\ (isData (self w) = false -> isQCD (self w) = false ->
      isDiscovery (self w) = false ->
      suffixTreeName (self w) = "" -> overrideTreename (self w) = "" ->
      fst (@treename R' w1)
      = Normal (tree_prefix (self w) +:+ variation_suffix mode syst)).
Proof.
  intros Hd Hw. destruct w as [c s]. destruct s.
  cbn [self systDict configMgr] in *. cbv zeta.
  assert (E : @setCurrentSystematic R' (Some ref) mode
                (mkWorld c
                   (mkSample name0 color0 isData0 isQCD0 isDiscovery0 write0 normByTheory0
                      statConfig0 histoSystList0 shapeSystList0 overallSystList0
                      shapeFactorList0 systList0 weights0 tempWeights0 systDict0
                      currentSystematic0 normFactor0 qcdSyst0 unit_0 cutsDict0 input_files0
                      overrideTreename0 prefixTreeName0 suffixTreeName0 friendTreeName0
                      additionalCuts0 xsecWeight0 xsecUp0 xsecDown0 normRegions0
                      normSampleRemap0 noRenormSys0 parentChannel0 allowRemapOfSyst0
                      mergeOverallSysSet0 toBeMerged0))
              = (Normal tt,
                 mkWorld c
                   (mkSample name0 color0 isData0 isQCD0 isDiscovery0 write0 normByTheory0
                      statConfig0 histoSystList0 shapeSystList0 overallSystList0
                      shapeFactorList0 systList0 weights0 tempWeights0 systDict0
                      (Some (variation_suffix mode syst)) normFactor0 qcdSyst0 unit_0
                      cutsDict0 input_files0
                      overrideTreename0 prefixTreeName0 suffixTreeName0 friendTreeName0
                      additionalCuts0 xsecWeight0 xsecUp0 xsecDown0 normRegions0
                      normSampleRemap0 noRenormSys0 parentChannel0 allowRemapOfSyst0
                      mergeOverallSysSet0 toBeMerged0))).
  { unfold setCurrentSystematic, variation_suffix.
    destruct ref as [n | d]; cbn [ref_name] in Hd.
    - run_more. unfold format. cbn [py_format]. run_more.
      unfold has_key. rewrite Hd. run_more.
      destruct (bool_decide (lower mode = "high") || bool_decide (lower mode = "up"));
        run_more; rewrite ?Hd; [reflexivity|].
      destruct (bool_decide (lower mode = "low") || bool_decide (lower mode = "down"));
        run_more; rewrite ?Hd; reflexivity.
    - run_more. rewrite (bool_decide_eq_false_2 _ (Hw d eq_refl)). run_more.
      unfold format. cbn [py_format]. run_more.
      unfold has_key. rewrite Hd. run_more.
      destruct (bool_decide (lower mode = "high") || bool_decide (lower mode = "up"));
        run_more; rewrite ?Hd; [reflexivity|].
      destruct (bool_decide (lower mode = "low") || bool_decide (lower mode = "down"));
        run_more; rewrite ?Hd; reflexivity. }
  split; [exact E|].
  cbn [isData isQCD isDiscovery suffixTreeName overrideTreename].
  intros -> -> -> -> ->.
  unfold treename, getTreename, tree_prefix.
  repeat (progress (run_more; rewrite ?(bool_decide_eq_true_2 ("" = "") eq_refl))).
  destruct (bool_decide (prefixTreeName0 = "")) eqn:E';
    repeat (progress (run_more; rewrite ?(bool_decide_eq_true_2 ("" = "") eq_refl)));
    rewrite getTreenameSuffix_pure; unfold treename_suffix; run_more;
    rewrite ?(bool_decide_eq_true_2 ("" = "") eq_refl); run_more;
    unfold format; cbn [py_format]; run_more; rewrite append_empty_r; reflexivity.
Qed.

(** The mode [UP] of [JES] on the sample [ttbar]: the tree is
    [ttbar_JESup]. *)
Lemma setCurrentSystematic_JES_UP :
  @setCurrentSystematic unit (Some (inl "JES")) "UP" world_with_JES
  = (Normal tt,
     mkWorld (cfg_with []) (set_currentSystematic (Some "_JESup") (self world_with_JES)))
  /\ fst (@treename unit
            (mkWorld (cfg_with [])
               (set_currentSystematic (Some "_JESup") (self world_with_JES))))
     = Normal "ttbar_JESup".
Proof.
  assert (Hd : systDict (self world_with_JES) !! ref_name (inl "JES") = Some syst_JES)
    by reflexivity.
  assert (Hw : forall d, @inl string SystematicBase "JES" = inr d -> syst_type d <> "weight")
    by discriminate.
  pose proof (@setCurrentSystematic_selects_tree unit (inl "JES") "UP" syst_JES
                world_with_JES Hd Hw) as H.
  cbv zeta in H. destruct H as [H1 H2].
  split; [exact H1 | exact (H2 eq_refl eq_refl eq_refl eq_refl eq_refl)].
Defined.

(** [setCurrentSystematic] with the name of a systematic the sample does
    not hold raises [ValueError] and changes nothing; a descriptor of a
    weight systematic is passed over without a change and without that
    check, whether the sample holds it or not. *)
Theorem setCurrentSystematic_unknown {R' : Type} (mode : string) (w : World) :
  (forall ref : SystRef,
     systDict (self w) !! ref_name ref = None ->
     (forall d, ref = inr d -> syst_type d <> "weight") ->
     @setCurrentSystematic R' (Some ref) mode w
     = (Raise (ValueError ("Sample " +:+ name (self w)
                           +:+ ": cannot set systematic to unknown " +:+ ref_name ref)), w))
  /\ (forall d : SystematicBase,
        syst_type d = "weight" ->
        @setCurrentSystematic R' (Some (inr d)) mode w = (Normal tt, w)).
Proof.
  destruct w as [c s]. destruct s. cbn [self systDict name]. split.
  - intros ref Hd Hw. unfold setCurrentSystematic.
    destruct ref as [n | d]; cbn [ref_name] in Hd.
    + run_more. unfold format. cbn [py_format]. run_more.
      unfold has_key. rewrite Hd. run_more. rewrite append_empty_r. reflexivity.
    + run_more. rewrite (bool_decide_eq_false_2 _ (Hw d eq_refl)). run_more.
      unfold format. cbn [py_format]. run_more.
      unfold has_key. rewrite Hd. run_more. rewrite append_empty_r. reflexivity.
  - intros d Hd. unfold setCurrentSystematic. run_more.
    rewrite (bool_decide_eq_true_2 _ Hd). run_more.
    unfold format. cbn [py_format]. run_more. reflexivity.
Qed.

(** The systematic [JER], which the sample [ttbar] does not hold. *)
Lemma setCurrentSystematic_JER :
  @setCurrentSystematic unit (Some (inl "JER")) "up" world_with_JES
  = (Raise (ValueError "Sample ttbar: cannot set systematic to unknown JER"),
     world_with_JES).
Proof.
  assert (Hd : systDict (self world_with_JES) !! ref_name (inl "JER") = None)
    by reflexivity.
  assert (Hw : forall d, @inl string SystematicBase "JER" = inr d -> syst_type d <> "weight")
    by discriminate.
  exact (proj1 (@setCurrentSystematic_unknown unit "up" world_with_JES) (inl "JER") Hd Hw).
Defined.

(** ** The sample's own systematics *)

(** [getSystematic] is a lookup that never raises. *)
Lemma getSystematic_lookup {R' : Type} (systName : SystRef) (w : World) :
  @getSystematic R' systName w = (Normal (systDict (self w) !! ref_name systName), w).
Proof.
  destruct w as [c s]. destruct s. unfold getSystematic. run_more.
  destruct (systDict0 !! ref_name systName); reflexivity.
Qed.

Lemma set_systDict_same (s : Sample) : set_systDict (systDict s) s = s.
Proof. destruct s. reflexivity. Qed.

Lemma set_systDict_twice (d d' : gmap string SystematicBase) (s : Sample) :
  set_systDict d (set_systDict d' s) = set_systDict d s.
Proof. destruct s. reflexivity. Qed.

(** [addSystematic] in closed form. *)
Lemma addSystematic_run (hex_id_self : string) (syst : SystematicBase) (w : World) :
  addSystematic hex_id_self syst w
  = if isData (self w) then (inr tt, w)
    else if has_key (systDict (self w)) (syst_name syst) then
      (inl (Exception
              ("Attempt to overwrite systematic " +:+ syst_name syst +:+ " in Sample "
               +:+ name (self w) +:+ " (" +:+ hex_id_self +:+ ")")), w)
    else
      (inr tt,
       mkWorld (configMgr w)
         (set_systDict (<[syst_name syst := syst]> (systDict (self w))) (self w))).
Proof.
  destruct w as [c s]. destruct s. unfold addSystematic. run_more.
  destruct isData0; run_more; unfold format; cbn [py_format]; run_more; [reflexivity|].
  destruct (has_key systDict0 (syst_name syst)); run_more; reflexivity.
Qed.

(** [removeSystematic] in closed form. *)
Lemma removeSystematic_run {R' : Type} (systName : SystRef) (w : World) :
  @removeSystematic R' systName w
  = if has_key (systDict (self w)) (ref_name systName) then
      (Normal tt,
       mkWorld (configMgr w)
         (set_systDict (delete (ref_name systName) (systDict (self w))) (self w)))
    else (Raise (KeyError (ref_name systName)), w).
Proof.
  destruct w as [c s]. destruct s. unfold removeSystematic. run_more.
  destruct (has_key systDict0 (ref_name systName)); run_more; reflexivity.
Qed.

Lemma has_key_lookup {V} (d : gmap string V) (key : string) :
  has_key d key = bool_decide (is_Some (d !! key)).
Proof.
  unfold has_key. destruct (d !! key) eqn:E.
  - symmetry. apply bool_decide_eq_true_2. eauto.
  - symmetry. apply bool_decide_eq_false_2. intros [? ?]. discriminate.
Qed.

Lemma has_key_None {V} (d : gmap string V) (key : string) :
  d !! key = None -> has_key d key = false.
Proof. intros H. unfold has_key. rewrite H. reflexivity. Qed.

Lemma has_key_Some {V} (d : gmap string V) (key : string) (v : V) :
  d !! key = Some v -> has_key d key = true.
Proof. intros H. unfold has_key. rewrite H. reflexivity. Qed.

(** A systematic added to a sample that is not data and does not hold
    the name is found again by [getSystematic] under that name, the other
    names are found as before, and [removeSystematic] of the name gives
    back the sample as it was. *)
Theorem addSystematic_round_trip (hex_id_self : string) {R' : Type}
    (syst : SystematicBase) (w : World) :
  isData (self w) = false ->
  systDict (self w) !! syst_name syst = None ->
  let w1 :=
    mkWorld (configMgr w)
      (set_systDict (<[syst_name syst := syst]> (systDict (self w))) (self w)) in
  addSystematic hex_id_self syst w = (inr tt, w1)
  /\ @getSystematic R' (inl (syst_name syst)) w1 = (Normal (Some syst), w1)
  /\ (forall n : string,
        n <> syst_name syst ->
        fst (@getSystematic R' (inl n) w1) = fst (@getSystematic R' (inl n) w))
  /\ @removeSystematic R' (inl (syst_name syst)) w1 = (Normal tt, w).
Proof.
  intros Hd Hn. cbv zeta. repeat split.
  - rewrite addSystematic_run, Hd, (has_key_None _ _ Hn). reflexivity.
  - rewrite getSystematic_lookup. destruct w as [c s]. destruct s.
    cbn [self systDict set_systDict ref_name]. rewrite lookup_insert_eq. reflexivity.
  - intros n Hne. rewrite !getSystematic_lookup. destruct w as [c s]. destruct s.
    cbn [self systDict set_systDict ref_name fst].
    rewrite lookup_insert_ne by congruence. reflexivity.
  - rewrite removeSystematic_run. destruct w as [c s].
    cbn [self configMgr ref_name].
    assert (E : systDict (set_systDict (<[syst_name syst := syst]> (systDict s)) s)
                = <[syst_name syst := syst]> (systDict s)) by (destruct s; reflexivity).
    rewrite E. rewrite (has_key_Some _ _ syst) by apply lookup_insert_eq.
    cbn [self] in Hn. rewrite (delete_insert_id _ _ _ Hn).
    rewrite set_systDict_twice, set_systDict_same. reflexivity.
Qed.

(** [JES] added to the fresh sample [ttbar], looked up and removed. *)
Lemma addSystematic_JES_fresh_sample :
  addSystematic "0x7f0" syst_JES (world_with []) = (inr tt, world_with_JES)
  /\ @getSystematic unit (inl "JES") world_with_JES = (Normal (Some syst_JES), world_with_JES)
  /\ @removeSystematic unit (inl "JES") world_with_JES = (Normal tt, world_with []).
Proof.
  assert (Hn : systDict (self (world_with [])) !! syst_name syst_JES = None)
    by reflexivity.
  pose proof (@addSystematic_round_trip "0x7f0" unit syst_JES (world_with []) eq_refl Hn)
    as H.
  cbv zeta in H. destruct H as (H1 & H2 & _ & H4).
  split; [exact H1 | split; [exact H2 | exact H4]].
Defined.

(** [addSystematic] never overwrites: whatever systematics are added, in
    whatever order, a descriptor the sample holds stays the one found
    under its name.  And a data sample takes no systematic at all. *)
Theorem addSystematic_never_overwrites (hex_id_self : string)
    (systs : list SystematicBase) (w : World) :
  (forall (n : string) (held : SystematicBase),
     systDict (self w) !! n = Some held ->
     systDict (self (addSystematics hex_id_self systs w)) !! n = Some held)
  /\ (isData (self w) = true -> addSystematics hex_id_self systs w = w).
Proof.
  unfold addSystematics. split.
  - revert w. induction systs as [|syst systs IH]; intros w n held Hn; cbn [fold_left].
    + exact Hn.
    + apply IH. rewrite addSystematic_run.
      destruct (isData (self w)); [exact Hn|].
      destruct (has_key (systDict (self w)) (syst_name syst)) eqn:E; [exact Hn|].
      destruct w as [c s]. destruct s. cbn [snd self systDict set_systDict] in *.
      destruct (decide (n = syst_name syst)) as [-> | Hne].
      * unfold has_key in E. rewrite Hn in E. discriminate.
      * rewrite lookup_insert_ne by congruence. exact Hn.
  - intros Hd. revert w Hd. induction systs as [|syst systs IH]; intros w Hd; cbn [fold_left].
    + reflexivity.
    + rewrite addSystematic_run, Hd. cbn [snd]. apply IH. exact Hd.
Qed.

(** A second descriptor for [JES], with other suffixes, does not replace
    the one the sample holds. *)
Lemma addSystematic_JES_twice :
  systDict (self (addSystematics "0x7f0"
                    [mkSystematic "JES" "tree" "_NoSys" "_JES2up" "_JES2down"]
                    world_with_JES)) !! "JES"
  = Some syst_JES.
Proof.
  assert (Hn : systDict (self world_with_JES) !! "JES" = Some syst_JES) by reflexivity.
  exact (proj1 (addSystematic_never_overwrites "0x7f0"
                  [mkSystematic "JES" "tree" "_NoSys" "_JES2up" "_JES2down"]
                  world_with_JES) "JES" syst_JES Hn).
Defined.

(** [replaceSystematic] in closed form: the removal, then the addition to
    what the removal has left. *)
Lemma replaceSystematic_run (hex_id_self : string) (old : SystRef)
    (new : SystematicBase) (w : World) :
  replaceSystematic hex_id_self old new w
  = if has_key (systDict (self w)) (ref_name old) then
      addSystematic hex_id_self new
        (mkWorld (configMgr w)
           (set_systDict (delete (ref_name old) (systDict (self w))) (self w)))
    else (inl (Builtin (KeyError (ref_name old))), w).
Proof.
  unfold replaceSystematic, method, invoke, bind.
  rewrite removeSystematic_run.
  destruct (has_key (systDict (self w)) (ref_name old)); [|reflexivity].
  destruct (addSystematic hex_id_self new _) as [[[e | msg] | []] w']; reflexivity.
Qed.

(** [clearSystematics] empties the sample's own [systDict] and nothing
    else.  Afterwards no systematic is found, removing one raises
    [KeyError] and selecting one by name raises [ValueError]; but a suffix
    made current before stays current, and the stored entries and
    [systList] still name the systematics that were cleared. *)
Theorem clearSystematics_forgets (hex_id_self : string) {R' : Type} (w : World) :
  let w1 := mkWorld (configMgr w) (set_systDict ∅ (self w)) in
  @clearSystematics hex_id_self R' w = (Normal tt, w1)
  /\ (forall ref : SystRef, @getSystematic R' ref w1 = (Normal None, w1))
  /\ (forall ref : SystRef,
        @removeSystematic R' ref w1 = (Raise (KeyError (ref_name ref)), w1))
  /\ (forall n mode : string,
        @setCurrentSystematic R' (Some (inl n)) mode w1
        = (Raise (ValueError ("Sample " +:+ name (self w)
                              +:+ ": cannot set systematic to unknown " +:+ n)), w1))
  /\ currentSystematic (self w1) = currentSystematic (self w)
  /\ systList (self w1) = systList (self w)
  /\ overallSystList (self w1) = overallSystList (self w)
  /\ histoSystList (self w1) = histoSystList (self w).
Proof.
  cbv zeta. split; [|split; [|split; [|split]]].
  - destruct w as [c s]. destruct s. unfold clearSystematics. run_more.
    unfold format. cbn [py_format]. run_more. reflexivity.
  - intros ref. rewrite getSystematic_lookup.
    destruct w as [c s]. destruct s. cbn [self systDict set_systDict].
    rewrite lookup_empty. reflexivity.
  - intros ref. rewrite removeSystematic_run.
    destruct w as [c s]. destruct s. cbn [self systDict set_systDict].
    rewrite has_key_None by apply lookup_empty. reflexivity.
  - intros n mode. destruct w as [c s]. destruct s.
    unfold setCurrentSystematic. run_more.
    unfold format. cbn [py_format]. run_more.
    rewrite has_key_None by apply lookup_empty. run_more.
    rewrite !append_empty_r. reflexivity.
  - destruct w as [c s]. destruct s. repeat split.
Qed.

(** [replaceSystematic(old, new)] on a sample that is not data and holds
    [old]: when the name of [new] is that of [old], or is not held, the
    sample afterwards holds [new] under its name and no longer holds
    [old]; every other systematic is as before. *)
Theorem replaceSystematic_replaces (hex_id_self : string) (old : SystRef)
    (new held : SystematicBase) (w : World) :
  isData (self w) = false ->
  systDict (self w) !! ref_name old = Some held ->
  syst_name new = ref_name old \/ systDict (self w) !! syst_name new = None ->
  replaceSystematic hex_id_self old new w
  = (inr tt,
     mkWorld (configMgr w)
       (set_systDict (<[syst_name new := new]> (delete (ref_name old) (systDict (self w))))
          (self w))).
Proof.
  intros Hd Ho Hn. rewrite replaceSystematic_run, (has_key_Some _ _ _ Ho).
  rewrite addSystematic_run. destruct w as [c s]. destruct s.
  cbn [self configMgr isData systDict set_systDict name] in *. rewrite Hd.
  rewrite has_key_None; [reflexivity|].
  destruct Hn as [-> | Hn].
  - apply lookup_delete_eq.
  - destruct (decide (ref_name old = syst_name new)) as [-> | Hne].
    + apply lookup_delete_eq.
    + rewrite lookup_delete_ne by exact Hne. exact Hn.
Qed.

(** [JES] replaced by a descriptor with other suffixes. *)
Lemma replaceSystematic_JES :
  replaceSystematic "0x7f0" (inl "JES")
    (mkSystematic "JES" "tree" "_NoSys" "_JES2up" "_JES2down") world_with_JES
  = (inr tt,
     mkWorld (cfg_with [])
       (set_systDict
          (<["JES" := mkSystematic "JES" "tree" "_NoSys" "_JES2up" "_JES2down"]>
             (delete "JES" (systDict (self world_with_JES))))
          (self world_with_JES))).
Proof.
  assert (Ho : systDict (self world_with_JES) !! ref_name (inl "JES") = Some syst_JES)
    by reflexivity.
  exact (replaceSystematic_replaces "0x7f0" (inl "JES")
           (mkSystematic "JES" "tree" "_NoSys" "_JES2up" "_JES2down") syst_JES
           world_with_JES eq_refl Ho (or_introl eq_refl)).
Defined.

(** [replaceSystematic] is not atomic.  When the sample does not hold
    [old], the call raises [KeyError] and [new] is not added.  When it
    holds [old] and is a data sample, [old] is removed and [new] is not
    added, without an error.  When it holds [old] and, under another
    name, a systematic of the name of [new], the call raises [Exception]
    after [old] has been removed. *)
Theorem replaceSystematic_failures (hex_id_self : string) (old : SystRef)
    (new : SystematicBase) (w : World) :
  let removed :=
    mkWorld (configMgr w)
      (set_systDict (delete (ref_name old) (systDict (self w))) (self w)) in
  (systDict (self w) !! ref_name old = None ->
   replaceSystematic hex_id_self old new w = (inl (Builtin (KeyError (ref_name old))), w))
  /\ (is_Some (systDict (self w) !! ref_name old) ->
      isData (self w) = true ->
      replaceSystematic hex_id_self old new w = (inr tt, removed))
  /\ (is_Some (systDict (self w) !! ref_name old) ->
      isData (self w) = false ->
      syst_name new <> ref_name old ->
      is_Some (systDict (self w) !! syst_name new) ->
      replaceSystematic hex_id_self old new w
      = (inl (Exception
                ("Attempt to overwrite systematic " +:+ syst_name new +:+ " in Sample "
                 +:+ name (self w) +:+ " (" +:+ hex_id_self +:+ ")")), removed)).
Proof.
  cbv zeta. rewrite replaceSystematic_run. repeat split.
  - intros Ho. rewrite (has_key_None _ _ Ho). reflexivity.
  - intros [held Ho] Hd. rewrite (has_key_Some _ _ _ Ho), addSystematic_run.
    destruct w as [c s]. destruct s. cbn [self isData set_systDict] in *.
    rewrite Hd. reflexivity.
  - intros [held Ho] Hd Hne [held' Hn].
    rewrite (has_key_Some _ _ _ Ho), addSystematic_run.
    destruct w as [c s]. destruct s. cbn [self isData set_systDict systDict name] in *.
    rewrite Hd. rewrite (has_key_Some _ _ held'); [reflexivity|].
    rewrite lookup_delete_ne by congruence. exact Hn.
Qed.

(** On the sample [ttbar] turned into data, [JES] is lost when it is
    replaced. *)
Lemma replaceSystematic_JES_on_data :
  replaceSystematic "0x7f0" (inl "JES")
    (mkSystematic "JES" "tree" "_NoSys" "_JES2up" "_JES2down")
    (snd (@setData unit true world_with_JES))
  = (inr tt,
     mkWorld (cfg_with [])
       (set_systDict (delete "JES" (systDict (self world_with_JES)))
          (self (snd (@setData unit true world_with_JES))))).
Proof.
  assert (Ho : is_Some (systDict (self (snd (@setData unit true world_with_JES)))
                          !! ref_name (inl "JES")))
    by (exists syst_JES; reflexivity).
  pose proof (replaceSystematic_failures "0x7f0" (inl "JES")
                (mkSystematic "JES" "tree" "_NoSys" "_JES2up" "_JES2down")
                (snd (@setData unit true world_with_JES))) as H.
  cbv zeta in H. destruct H as (_ & H2 & _).
  exact (H2 Ho eq_refl).
Defined.

(** ** Reading and editing the stored systematics *)

(** A loop that searches: each turn either leaves the loop for good or
    changes nothing. *)
Lemma for_search {S R A} (P : A -> bool) (body : A -> Proc S R unit)
    (leave : A -> Outcome R unit * S) (s : S) (xs : list A) :
  (forall x, body x s = if P x then leave x else (Normal tt, s)) ->
  (forall x, P x = true -> forall u, fst (leave x) <> Normal u) ->
  for_ xs body s = match find P xs with Some x => leave x | None => (Normal tt, s) end.
Proof.
  intros Hbody Hleave. induction xs as [|x xs IH]; cbn [for_ find]; [reflexivity|].
  unfold bind. rewrite Hbody. destruct (P x) eqn:E.
  - specialize (Hleave x E). destruct (leave x) as [[u | r | e] s']; cbn [fst] in *.
    + exfalso. exact (Hleave u eq_refl).
    + reflexivity.
    + reflexivity.
  - exact IH.
Qed.

(** [getOverallSys] returns the first entry of the name, and [None] when
    there is none; it never raises. *)
Lemma getOverallSys_first {R' : Type} (n : string) (w : World) :
  @getOverallSys R' n w
  = (Normal (first_named overallSys_name n (overallSystList (self w))), w).
Proof.
  unfold getOverallSys, first_named, call, bind, get_self, gets, return_.
  rewrite (for_search (fun e => bool_decide (n = overallSys_name e)) _
             (fun e => (Return (Some e), w))).
  - destruct (find _ _); reflexivity.
  - intros e. unfold when, return_, ret. destruct (bool_decide _); reflexivity.
  - intros e _ u. discriminate.
Qed.

(** [getHistoSys] likewise. *)
Lemma getHistoSys_first {R' : Type} (n : string) (w : World) :
  @getHistoSys R' n w
  = (Normal (first_named histoSys_name n (histoSystList (self w))), w).
Proof.
  unfold getHistoSys, first_named, call, bind, get_self, gets, return_.
  rewrite (for_search (fun e => bool_decide (n = histoSys_name e)) _
             (fun e => (Return (Some e), w))).
  - destruct (find _ _); reflexivity.
  - intros e. unfold when, return_, ret. destruct (bool_decide _); reflexivity.
  - intros e _ u. discriminate.
Qed.

Lemma first_named_app {E} (entry_name : E -> string) (n : string) (l l' : list E) :
  first_named entry_name n (l ++ l')
  = match first_named entry_name n l with
    | Some e => Some e
    | None => first_named entry_name n l'
    end.
Proof.
  unfold first_named. induction l as [|e l IH]; cbn [app find]; [reflexivity|].
  destruct (bool_decide (n = entry_name e)); [reflexivity | exact IH].
Qed.

(** What [getOverallSys] finds after [addOverallSys].  An entry already
    stored under the name stays the one that is found: the values added
    later under the same name are stored behind it and are not seen.
    When no entry of the name was stored, the resolved pair of the call
    is found, or nothing if the call dropped the systematic.  Other names
    are found as before. *)
Theorem getOverallSys_after_addOverallSys {R' : Type}
    (systName : string) (high low : Q) (w : World) :
  let w1 := snd (@addOverallSys unit systName high low w) in
  (forall e, fst (@getOverallSys R' systName w) = Normal (Some e) ->
             fst (@getOverallSys R' systName w1) = Normal (Some e))
  /\ (fst (@getOverallSys R' systName w) = Normal None ->
      fst (@getOverallSys R' systName w1)
      = Normal (match overall_resolved high low with
                | Some (h, l) => Some (systName, h, l)
                | None => None
                end))
  /\ (forall n, n <> systName ->
                fst (@getOverallSys R' n w1) = fst (@getOverallSys R' n w)).
Proof.
  cbv zeta. rewrite addOverallSys_closed_form. cbn [snd].
  assert (E : forall n,
            fst (@getOverallSys R' n
                   match overall_resolved high low with
                   | Some p => overall_stored systName p w
                   | None => w
                   end)
            = Normal
                match first_named overallSys_name n (overallSystList (self w)) with
                | Some e => Some e
                | None =>
                    match overall_resolved high low with
                    | Some (h, l) =>
                        if bool_decide (n = systName) then Some (systName, h, l) else None
                    | None => None
                    end
                end).
  { intros n. rewrite getOverallSys_first. cbn [fst]. f_equal.
    destruct (overall_resolved high low) as [[h l]|].
    - assert (L : overallSystList (self (overall_stored systName (h, l) w))
                  = (overallSystList (self w) ++ [(systName, h, l)])%list).
      { unfold overall_stored. destruct w as [c s]. destruct s.
        cbn [self configMgr overallSystList set_overallSystList].
        destruct (has_key _ _); reflexivity. }
      rewrite L, first_named_app.
      destruct (first_named overallSys_name n (overallSystList (self w))); [reflexivity|].
      unfold first_named. cbn [find overallSys_name fst].
      destruct (bool_decide (n = systName)); reflexivity.
    - destruct (first_named _ _ _); reflexivity. }
  repeat split.
  - intros e He. rewrite getOverallSys_first in He. cbn [fst] in He.
    injection He as He. rewrite E, He. reflexivity.
  - intros He. rewrite getOverallSys_first in He. cbn [fst] in He.
    injection He as He. rewrite E, He.
    destruct (overall_resolved high low) as [[h l]|]; [|reflexivity].
    rewrite bool_decide_eq_true_2 by reflexivity. reflexivity.
  - intros n Hn. rewrite E, getOverallSys_first. cbn [fst].
    destruct (first_named _ _ _); [reflexivity|].
    destruct (overall_resolved high low) as [[h l]|]; [|reflexivity].
    rewrite bool_decide_eq_false_2 by exact Hn. reflexivity.
Qed.

(** [JES] stored as [(1.1, 0.9)] and added again as [(1.3, 0.7)]: the
    first pair is the one found. *)
Lemma getOverallSys_JES_twice :
  fst (@getOverallSys unit "JES"
         (snd (@addOverallSys unit "JES" 1.3 0.7
                 (snd (@addOverallSys unit "JES" 1.1 0.9 (world_with []))))))
  = Normal (Some ("JES", 1.1, 0.9)).
Proof.
  pose proof (@getOverallSys_after_addOverallSys unit "JES" 1.3 0.7
                (snd (@addOverallSys unit "JES" 1.1 0.9 (world_with [])))) as H.
  cbv zeta in H. destruct H as (H1 & _ & _).
  exact (H1 ("JES", 1.1, 0.9) eq_refl).
Defined.

Lemma overallSystList_set (l : list (string * Q * Q)) (s : Sample) :
  overallSystList (set_overallSystList l s) = l.
Proof. destruct s. reflexivity. Qed.

Lemma set_overallSystList_twice (l l' : list (string * Q * Q)) (s : Sample) :
  set_overallSystList l (set_overallSystList l' s) = set_overallSystList l s.
Proof. destruct s. reflexivity. Qed.

Lemma set_overallSystList_same (s : Sample) :
  set_overallSystList (overallSystList s) s = s.
Proof. destruct s. reflexivity. Qed.

Lemma systDict_set_overallSystList (l : list (string * Q * Q)) (s : Sample) :
  systDict (set_overallSystList l s) = systDict s.
Proof. destruct s. reflexivity. Qed.

Lemma replace_first_length {E} (entry_name : E -> string) (rsyst : E) (l : list E) :
  length (replace_first entry_name rsyst l) = length l.
Proof.
  induction l as [|e l IH]; cbn [replace_first]; [reflexivity|].
  destruct (bool_decide _); cbn [length]; [reflexivity | rewrite IH; reflexivity].
Qed.

Lemma first_named_replace_first {E} (entry_name : E -> string) (rsyst : E) (l : list E) :
  first_named entry_name (entry_name rsyst) (replace_first entry_name rsyst l)
  = match first_named entry_name (entry_name rsyst) l with
    | Some _ => Some rsyst
    | None => None
    end.
Proof.
  unfold first_named. induction l as [|e l IH]; cbn [replace_first find]; [reflexivity|].
  destruct (bool_decide (entry_name rsyst = entry_name e)) eqn:E1; cbn [find].
  - rewrite bool_decide_eq_true_2 by reflexivity. reflexivity.
  - rewrite E1. exact IH.
Qed.

Lemma first_named_replace_first_ne {E} (entry_name : E -> string) (rsyst : E)
    (n : string) (l : list E) :
  n <> entry_name rsyst ->
  first_named entry_name n (replace_first entry_name rsyst l)
  = first_named entry_name n l.
Proof.
  intros Hn. unfold first_named.
  induction l as [|e l IH]; cbn [replace_first find]; [reflexivity|].
  destruct (bool_decide (entry_name rsyst = entry_name e)) eqn:E1; cbn [find].
  - apply bool_decide_eq_true_1 in E1.
    rewrite bool_decide_eq_false_2 by exact Hn.
    rewrite bool_decide_eq_false_2 by congruence. reflexivity.
  - destruct (bool_decide (n = entry_name e)); [reflexivity | exact IH].
Qed.

Lemma replace_first_none {E} (entry_name : E -> string) (rsyst : E) (l : list E) :
  first_named entry_name (entry_name rsyst) l = None ->
  replace_first entry_name rsyst l = l.
Proof.
  unfold first_named. induction l as [|e l IH]; cbn [replace_first find]; [reflexivity|].
  destruct (bool_decide (entry_name rsyst = entry_name e)); [discriminate|].
  intros H. rewrite (IH H). reflexivity.
Qed.

Lemma insert_middle {A} (l1 l2 : list A) (x y : A) :
  <[length l1 := y]> (l1 ++ x :: l2) = (l1 ++ y :: l2)%list.
Proof.
  rewrite <- (Nat.add_0_r (length l1)) at 1. rewrite insert_app_r. reflexivity.
Qed.

(** The loop of [replaceOverallSys] from index [length pre] on. *)
Lemma replaceOverallSys_loop (rsyst : string * Q * Q) (c : ConfigMgr)
    (s : Sample) (l pre : list (string * Q * Q)) :
  @for_ World unit nat (seq (length pre) (length l))
    (fun idx =>
       l ← get_self overallSystList;
       syst ← list_item l idx;
       when (bool_decide (overallSys_name rsyst = overallSys_name syst)) (
         modify_self (fun s => set_overallSystList (<[idx := rsyst]> (overallSystList s)) s);;
         return_ tt))
    (mkWorld c (set_overallSystList (pre ++ l) s))
  = (match first_named overallSys_name (overallSys_name rsyst) l with
     | Some _ => Return tt
     | None => Normal tt
     end,
     mkWorld c (set_overallSystList (pre ++ replace_first overallSys_name rsyst l) s)).
Proof.
  revert pre. induction l as [|e l IH]; intros pre.
  - reflexivity.
  - cbn [length seq for_ replace_first]. unfold first_named. cbn [find].
    unfold bind at 1. unfold bind at 1. unfold get_self, gets at 1.
    cbn [self]. rewrite overallSystList_set.
    unfold list_item at 1. rewrite list_lookup_middle by reflexivity.
    unfold ret at 1. unfold bind at 1.
    destruct (bool_decide (overallSys_name rsyst = overallSys_name e)) eqn:E1.
    + unfold when, bind, modify_self, modify, return_. cbn [self configMgr].
      rewrite overallSystList_set, set_overallSystList_twice.
      rewrite insert_middle. reflexivity.
    + unfold when at 1. unfold ret at 1.
      specialize (IH (pre ++ [e])%list).
      rewrite length_app in IH. cbn [length] in IH.
      rewrite Nat.add_1_r, <- !app_assoc in IH. cbn [app] in IH.
      exact IH.
Qed.

(** [replaceOverallSys] replaces the first entry of the name of [rsyst]
    and no other: the list keeps its length and its other entries,
    [getOverallSys] of the name then returns [rsyst], other names are
    found as before, and when no entry has the name nothing changes.
    The call never raises. *)
Theorem replaceOverallSys_first_entry {R' : Type} (rsyst : string * Q * Q) (w : World) :
  let l := overallSystList (self w) in
  let w1 :=
    mkWorld (configMgr w)
      (set_overallSystList (replace_first overallSys_name rsyst l) (self w)) in
  @replaceOverallSys R' rsyst w = (Normal tt, w1)
  /\ length (overallSystList (self w1)) = length l
  /\ (forall e, fst (@getOverallSys R' (overallSys_name rsyst) w) = Normal (Some e) ->
                fst (@getOverallSys R' (overallSys_name rsyst) w1) = Normal (Some rsyst))
  /\ (fst (@getOverallSys R' (overallSys_name rsyst) w) = Normal None -> w1 = w)
  /\ (forall n, n <> overallSys_name rsyst ->
                fst (@getOverallSys R' n w1) = fst (@getOverallSys R' n w)).
Proof.
  cbv zeta. destruct w as [c s]. cbn [self configMgr].
  repeat split.
  - unfold replaceOverallSys, call.
    rewrite (bind_run _ _ (mkWorld c s) (mkWorld c s) (overallSystList s)) by reflexivity.
    cbv beta. unfold xrange. rewrite Nat.sub_0_r.
    pose proof (replaceOverallSys_loop rsyst c s (overallSystList s) []) as L.
    cbn [app length] in L. rewrite set_overallSystList_same in L. rewrite L.
    destruct (first_named _ _ _); reflexivity.
  - rewrite overallSystList_set. apply replace_first_length.
  - intros e He. rewrite getOverallSys_first in *. cbn [fst self] in *.
    injection He as He. rewrite overallSystList_set, first_named_replace_first, He.
    reflexivity.
  - intros He. rewrite getOverallSys_first in He. cbn [fst self] in He.
    injection He as He. rewrite (replace_first_none _ _ _ He), set_overallSystList_same.
    reflexivity.
  - intros n Hn. rewrite !getOverallSys_first. cbn [fst self].
    rewrite overallSystList_set, first_named_replace_first_ne by exact Hn. reflexivity.
Qed.

(** [JES] stored as [(1.1, 0.9)] on a fresh sample and replaced by
    [(1.2, 0.8)]. *)
Lemma replaceOverallSys_JES :
  fst (@getOverallSys unit "JES"
         (snd (@replaceOverallSys unit ("JES", 1.2, 0.8)
                 (snd (@addOverallSys unit "JES" 1.1 0.9 (world_with []))))))
  = Normal (Some ("JES", 1.2, 0.8)).
Proof.
  pose proof (@replaceOverallSys_first_entry unit ("JES", 1.2, 0.8)
                (snd (@addOverallSys unit "JES" 1.1 0.9 (world_with [])))) as H.
  cbv zeta in H. destruct H as (H1 & _ & H3 & _).
  rewrite H1. exact (H3 ("JES", 1.1, 0.9) eq_refl).
Defined.

Lemma first_named_remove_first_ne {E} (entry_name : E -> string) (n n' : string)
    (l : list E) :
  n' <> n ->
  first_named entry_name n' (remove_first entry_name n l) = first_named entry_name n' l.
Proof.
  intros Hn. unfold first_named.
  induction l as [|e l IH]; cbn [remove_first find]; [reflexivity|].
  destruct (bool_decide (n = entry_name e)) eqn:E1; cbn [find].
  - apply bool_decide_eq_true_1 in E1.
    rewrite bool_decide_eq_false_2 by congruence. reflexivity.
  - destruct (bool_decide (n' = entry_name e)); [reflexivity | exact IH].
Qed.

Lemma remove_first_none {E} (entry_name : E -> string) (n : string) (l : list E) :
  first_named entry_name n l = None -> remove_first entry_name n l = l.
Proof.
  unfold first_named. induction l as [|e l IH]; cbn [remove_first find]; [reflexivity|].
  destruct (bool_decide (n = entry_name e)); [discriminate|].
  intros H. rewrite (IH H). reflexivity.
Qed.

(** The loop of [removeOverallSys] from index [length pre] on. *)
Lemma removeOverallSys_loop (systName : string) (c : ConfigMgr)
    (s : Sample) (l pre : list (string * Q * Q)) :
  @for_ World unit nat (seq (length pre) (length l))
    (fun idx =>
       l ← get_self overallSystList;
       syst ← list_item l idx;
       when (bool_decide (systName = overallSys_name syst)) (
         modify_self (fun s => set_overallSystList (delete idx (overallSystList s)) s);;
         removeSystematic (inl systName);;
         return_ tt))
    (mkWorld c (set_overallSystList (pre ++ l) s))
  = match first_named overallSys_name systName l with
    | Some _ =>
        let s1 := set_overallSystList (pre ++ remove_first overallSys_name systName l) s in
        if has_key (systDict s) systName
        then (Return tt, mkWorld c (set_systDict (delete systName (systDict s)) s1))
        else (Raise (KeyError systName), mkWorld c s1)
    | None => (Normal tt, mkWorld c (set_overallSystList (pre ++ l) s))
    end.
Proof.
  revert pre. induction l as [|e l IH]; intros pre.
  - reflexivity.
  - cbn [length seq for_ remove_first]. unfold first_named. cbn [find].
    unfold bind at 1. unfold bind at 1. unfold get_self, gets at 1.
    cbn [self]. rewrite overallSystList_set.
    unfold list_item at 1. rewrite list_lookup_middle by reflexivity.
    unfold ret at 1. unfold bind at 1.
    destruct (bool_decide (systName = overallSys_name e)) eqn:E1.
    + unfold when. unfold bind at 1. unfold bind at 1.
      unfold modify_self, modify. cbn [self configMgr].
      rewrite overallSystList_set, set_overallSystList_twice, delete_middle.
      unfold bind. rewrite removeSystematic_run. cbn [self configMgr ref_name].
      rewrite systDict_set_overallSystList.
      destruct (has_key (systDict s) systName); reflexivity.
    + unfold when at 1. unfold ret at 1.
      specialize (IH (pre ++ [e])%list).
      rewrite length_app in IH. cbn [length] in IH.
      rewrite Nat.add_1_r, <- !app_assoc in IH. cbn [app] in IH.
      refine (eq_trans IH _).
      fold (first_named overallSys_name systName l).
      destruct (first_named overallSys_name systName l); reflexivity.
Qed.

(** [removeOverallSys] deletes the first entry of the name and then
    removes the systematic of that name from the sample's own [systDict].
    So for a name that is listed but not held in [systDict] (as after
    [addOverallSys], which does not touch [systDict]) the call raises
    [KeyError] once the entry is deleted; [systList] keeps the name in
    every case.  A name that is not listed changes nothing and raises
    nothing. *)
Theorem removeOverallSys_outcome {R' : Type} (systName : string) (w : World) :
  let l := overallSystList (self w) in
  let unlisted :=
    mkWorld (configMgr w)
      (set_overallSystList (remove_first overallSys_name systName l) (self w)) in
  (first_named overallSys_name systName l = None ->
   @removeOverallSys R' systName w = (Normal tt, w))
  /\ (is_Some (first_named overallSys_name systName l) ->
      systDict (self w) !! systName = None ->
      @removeOverallSys R' systName w = (Raise (KeyError systName), unlisted))
  /\ (is_Some (first_named overallSys_name systName l) ->
      is_Some (systDict (self w) !! systName) ->
      @removeOverallSys R' systName w
      = (Normal tt,
         mkWorld (configMgr w)
           (set_systDict (delete systName (systDict (self w))) (self unlisted))))
  /\ systList (self (snd (@removeOverallSys R' systName w))) = systList (self w).
Proof.
  cbv zeta. destruct w as [c s]. cbn [self configMgr].
  assert (E : @removeOverallSys R' systName (mkWorld c s)
              = match first_named overallSys_name systName (overallSystList s) with
                | Some _ =>
                    let s1 :=
                      set_overallSystList
                        (remove_first overallSys_name systName (overallSystList s)) s in
                    if has_key (systDict s) systName
                    then (Normal tt, mkWorld c (set_systDict (delete systName (systDict s)) s1))
                    else (Raise (KeyError systName), mkWorld c s1)
                | None => (Normal tt, mkWorld c s)
                end).
  { unfold removeOverallSys, call.
    rewrite (bind_run _ _ (mkWorld c s) (mkWorld c s) (overallSystList s)) by reflexivity.
    cbv beta. unfold xrange. rewrite Nat.sub_0_r.
    pose proof (removeOverallSys_loop systName c s (overallSystList s) []) as L.
    cbn [app length] in L. rewrite set_overallSystList_same in L. rewrite L.
    destruct (first_named _ _ _); [|reflexivity].
    cbv zeta. destruct (has_key (systDict s) systName); reflexivity. }
  rewrite E. repeat split.
  - intros ->. reflexivity.
  - intros [e ->] Hd. cbv zeta. rewrite (has_key_None _ _ Hd). reflexivity.
  - intros [e ->] [d Hd]. cbv zeta. rewrite (has_key_Some _ _ _ Hd). reflexivity.
  - destruct (first_named _ _ _); [|reflexivity].
    cbv zeta. destruct (has_key (systDict s) systName); destruct s; reflexivity.
Qed.

(** [JES] stored by [addOverallSys] on a fresh sample and removed again:
    the entry goes, the call raises [KeyError]. *)
Lemma removeOverallSys_JES :
  @removeOverallSys unit "JES" (snd (@addOverallSys unit "JES" 1.1 0.9 (world_with [])))
  = (Raise (KeyError "JES"),
     mkWorld (cfg_with []) (set_systList ["JES"] (new_Sample "ttbar" 1))).
Proof.
  pose proof (@removeOverallSys_outcome unit "JES"
                (snd (@addOverallSys unit "JES" 1.1 0.9 (world_with [])))) as H.
  cbv zeta in H. destruct H as (_ & H2 & _).
  assert (Hl : is_Some (first_named overallSys_name "JES"
                          (overallSystList
                             (self (snd (@addOverallSys unit "JES" 1.1 0.9 (world_with [])))))))
    by (exists ("JES", 1.1, 0.9); reflexivity).
  exact (H2 Hl eq_refl).
Defined.

(** ** Normalisation factors and weights *)

Lemma register_norm_run {R} (n : string) (c : ConfigMgr) (s : Sample) :
  @register_norm R n (mkWorld c s)
  = (Normal tt,
     mkWorld (if bool_decide (n ∈ cfg_normList c) then c
              else set_normList (cfg_normList c ++ [n]) c) s).
Proof.
  unfold register_norm. run_more.
  destruct (bool_decide (n ∈ cfg_normList c)); run_more; reflexivity.
Qed.

Lemma addNormFactor_run {R'} (n : string) (val high low : Q) (const : bool)
    (c : ConfigMgr) (s : Sample) :
  @addNormFactor R' n val high low const (mkWorld c s)
  = (Normal tt,
     mkWorld (if bool_decide (n ∈ cfg_normList c) then c
              else set_normList (cfg_normList c ++ [n]) c)
       (set_normFactor (normFactor s ++ [(n, val, high, low, const)]) s)).
Proof.
  unfold addNormFactor, call, bind, modify_self, modify, return_. cbn [self configMgr].
  rewrite register_norm_run. reflexivity.
Qed.

Lemma setNormFactor_run {R'} (n : string) (val low high : Q) (const : bool)
    (c : ConfigMgr) (s : Sample) :
  @setNormFactor R' n val low high const (mkWorld c s)
  = (Normal tt,
     mkWorld (if bool_decide (n ∈ cfg_normList c) then c
              else set_normList (cfg_normList c ++ [n]) c)
       (set_normFactor [(n, val, high, low, const)] s)).
Proof.
  unfold setNormFactor, call, bind, modify_self, modify, return_. cbn [self configMgr].
  rewrite register_norm_run. destruct s. reflexivity.
Qed.

(** The registry of normalisation factors stays free of duplicates and
    covers the factors of the sample.  Over every sequence of
    [addNormFactor] and [setNormFactor] calls: [configMgr.normList] only
    grows at its end, it has no duplicate if it had none, and if the name
    of every factor of the sample was in it before then this is so
    afterwards.  [setNormFactor] discards the factors stored before it,
    and stores its [high] and [low] in the order of [addNormFactor],
    which is not the order of its own parameters. *)
Theorem normList_invariant (cs : list NormCall) (w : World) :
  let w' := run_norm_calls cs w in
  (exists added, cfg_normList (configMgr w') = (cfg_normList (configMgr w) ++ added)%list)
  /\ (NoDup (cfg_normList (configMgr w)) -> NoDup (cfg_normList (configMgr w')))
  /\ (Forall (fun e => normFactor_name e ∈ cfg_normList (configMgr w)) (normFactor (self w)) ->
      Forall (fun e => normFactor_name e ∈ cfg_normList (configMgr w')) (normFactor (self w')))
  /\ (forall (n : string) (val low high : Q) (const : bool),
        normFactor (self (run_norm_calls (cs ++ [Call_setNormFactor n val low high const]) w))
        = [(n, val, high, low, const)]).
Proof.
  cbv zeta. unfold run_norm_calls.
  assert (Step : forall c w,
            (exists added,
               cfg_normList (configMgr (run_norm_call c w))
               = (cfg_normList (configMgr w) ++ added)%list)
            /\ (NoDup (cfg_normList (configMgr w)) ->
                NoDup (cfg_normList (configMgr (run_norm_call c w))))
            /\ (Forall (fun e => normFactor_name e ∈ cfg_normList (configMgr w))
                  (normFactor (self w)) ->
                Forall (fun e => normFactor_name e
                                   ∈ cfg_normList (configMgr (run_norm_call c w)))
                  (normFactor (self (run_norm_call c w))))).
  { clear. intros call [c s].
    assert (In_reg : forall n,
              n ∈ cfg_normList (if bool_decide (n ∈ cfg_normList c) then c
                                else set_normList (cfg_normList c ++ [n]) c)).
    { intros n. destruct (bool_decide (n ∈ cfg_normList c)) eqn:E.
      - apply bool_decide_eq_true_1 in E. exact E.
      - destruct c. cbn [cfg_normList set_normList]. set_solver. }
    assert (Grow : forall n x,
              x ∈ cfg_normList c ->
              x ∈ cfg_normList (if bool_decide (n ∈ cfg_normList c) then c
                                else set_normList (cfg_normList c ++ [n]) c)).
    { intros n x Hx. destruct (bool_decide (n ∈ cfg_normList c)); [exact Hx|].
      destruct c. cbn [cfg_normList set_normList] in *. set_solver. }
    assert (Ext : forall n, exists added,
              cfg_normList (if bool_decide (n ∈ cfg_normList c) then c
                            else set_normList (cfg_normList c ++ [n]) c)
              = (cfg_normList c ++ added)%list).
    { intros n. destruct (bool_decide (n ∈ cfg_normList c)).
      - exists []. rewrite app_nil_r. reflexivity.
      - exists [n]. destruct c. reflexivity. }
    assert (ND : forall n,
              NoDup (cfg_normList c) ->
              NoDup (cfg_normList (if bool_decide (n ∈ cfg_normList c) then c
                                   else set_normList (cfg_normList c ++ [n]) c))).
    { intros n Hnd. destruct (bool_decide (n ∈ cfg_normList c)) eqn:E; [exact Hnd|].
      apply bool_decide_eq_false_1 in E.
      destruct c. cbn [cfg_normList set_normList] in *.
      apply NoDup_app. repeat split; [exact Hnd | | apply NoDup_singleton].
      intros x Hx Hx'. apply list_elem_of_singleton in Hx'. subst. contradiction. }
    destruct call as [n val high low const | n val low high const]; cbn [run_norm_call].
    - rewrite addNormFactor_run. cbn [snd configMgr self].
      split; [apply Ext | split; [apply ND|]].
      intros Hall. destruct s. cbn [normFactor set_normFactor] in *.
      apply Forall_app. split.
      + eapply Forall_impl; [exact Hall|]. intros e He. apply Grow. exact He.
      + apply Forall_singleton. apply In_reg.
    - rewrite setNormFactor_run. cbn [snd configMgr self].
      split; [apply Ext | split; [apply ND|]].
      intros _. destruct s. cbn [normFactor set_normFactor].
      apply Forall_singleton. apply In_reg. }
  repeat split.
  - revert w. induction cs as [|c cs IH]; intros w; cbn [fold_left].
    + exists []. rewrite app_nil_r. reflexivity.
    + destruct (IH (run_norm_call c w)) as [l2 E2].
      destruct (Step c w) as [[l1 E1] _].
      exists (l1 ++ l2)%list. rewrite E2, E1, app_assoc. reflexivity.
  - revert w. induction cs as [|c cs IH]; intros w Hnd; cbn [fold_left].
    + exact Hnd.
    + apply IH. apply (Step c w). exact Hnd.
  - revert w. induction cs as [|c cs IH]; intros w Hall; cbn [fold_left].
    + exact Hall.
    + apply IH. apply (Step c w). exact Hall.
  - intros n val low high const. rewrite fold_left_app. cbn [fold_left run_norm_call].
    destruct (fold_left _ cs w) as [c s].
    rewrite setNormFactor_run. destruct s. reflexivity.
Qed.

(** The factor [mu_Top] added twice and set once, in a configuration that
    has no factor yet: the registry holds the name once. *)
Lemma normList_mu_Top :
  NoDup (cfg_normList (configMgr
           (run_norm_calls
              [Call_addNormFactor "mu_Top" 1 2 0 false;
               Call_addNormFactor "mu_Top" 1 5 0 false;
               Call_setNormFactor "mu_Top" 1 0 3 true]
              (world_with [])))).
Proof.
  pose proof (normList_invariant
                [Call_addNormFactor "mu_Top" 1 2 0 false;
                 Call_addNormFactor "mu_Top" 1 5 0 false;
                 Call_setNormFactor "mu_Top" 1 0 3 true]
                (world_with [])) as H.
  cbv zeta in H. destruct H as (_ & H2 & _).
  apply H2. apply NoDup_nil_2.
Defined.

Lemma addSampleSpecificWeight_run {R'} (weight : string) (c : ConfigMgr) (s : Sample) :
  @addSampleSpecificWeight R' weight (mkWorld c s)
  = if bool_decide (weight ∈ tempWeights s) then
      (Raise (RuntimeError
                ("Weight " +:+ weight +:+ " already defined for sample " +:+ name s)),
       mkWorld c s)
    else (Normal tt, mkWorld c (set_tempWeights (tempWeights s ++ [weight]) s)).
Proof.
  unfold addSampleSpecificWeight. run_more.
  destruct (bool_decide (weight ∈ tempWeights s)); run_more; reflexivity.
Qed.

(** The sample-specific weights stay free of duplicates: a weight that is
    already one of them is refused with [RuntimeError] and nothing
    changes, so over every sequence of [addSampleSpecificWeight] calls
    the list has no duplicate if it had none, and it holds every weight
    that was asked for. *)
Theorem tempWeights_no_duplicates (weights : list string) (w : World) :
  let w' := addSampleSpecificWeights weights w in
  (NoDup (tempWeights (self w)) -> NoDup (tempWeights (self w')))
  /\ (forall x, x ∈ weights -> x ∈ tempWeights (self w'))
  /\ (forall x, x ∈ tempWeights (self w) ->
        @addSampleSpecificWeight unit x w
        = (Raise (RuntimeError
                    ("Weight " +:+ x +:+ " already defined for sample " +:+ name (self w))),
           w)).
Proof.
  cbv zeta. unfold addSampleSpecificWeights.
  assert (Keep : forall ws w x,
            x ∈ tempWeights (self w) ->
            x ∈ tempWeights
                  (self (fold_left
                           (fun w weight => snd (@addSampleSpecificWeight unit weight w))
                           ws w))).
  { clear. intros ws. induction ws as [|a ws IH]; intros [c s] x Hx; cbn [fold_left].
    - exact Hx.
    - apply IH. rewrite addSampleSpecificWeight_run.
      destruct (bool_decide (a ∈ tempWeights s)); cbn [snd self]; [exact Hx|].
      destruct s. cbn [tempWeights set_tempWeights self] in *. set_solver. }
  repeat split.
  - revert w. induction weights as [|a ws IH]; intros [c s] Hnd; cbn [fold_left].
    + exact Hnd.
    + apply IH. rewrite addSampleSpecificWeight_run.
      destruct (bool_decide (a ∈ tempWeights s)) eqn:E; cbn [snd self]; [exact Hnd|].
      apply bool_decide_eq_false_1 in E.
      destruct s. cbn [tempWeights set_tempWeights self] in *.
      apply NoDup_app. repeat split; [exact Hnd | | apply NoDup_singleton].
      intros y Hy Hy'. apply list_elem_of_singleton in Hy'. subst. contradiction.
  - revert w. induction weights as [|a ws IH]; intros [c s] x Hx.
    + inversion Hx.
    + cbn [fold_left]. apply elem_of_cons in Hx as [-> | Hx]; [|apply IH; exact Hx].
      apply Keep. rewrite addSampleSpecificWeight_run.
      destruct (bool_decide (a ∈ tempWeights s)) eqn:E; cbn [snd self].
      * apply bool_decide_eq_true_1 in E. exact E.
      * destruct s. cbn [tempWeights set_tempWeights]. set_solver.
  - intros x Hx. destruct w as [c s]. rewrite addSampleSpecificWeight_run.
    cbn [self] in *. rewrite bool_decide_eq_true_2 by exact Hx. reflexivity.
Qed.

(** The weight [kfactor] asked for twice on a fresh sample. *)
Lemma tempWeights_kfactor_twice :
  NoDup (tempWeights (self (addSampleSpecificWeights ["kfactor"; "kfactor"] (world_with [])))).
Proof.
  pose proof (tempWeights_no_duplicates ["kfactor"; "kfactor"] (world_with [])) as H.
  cbv zeta in H. destruct H as (H1 & _).
  apply H1. apply NoDup_nil_2.
Defined.

(** ** Histograms given by hand *)

(** Run the statements on the attributes that [__init__] does not
    create. *)
Ltac run_obj :=
  repeat (progress (
    run_more;
    cbv beta iota zeta delta [liftW attribute dict_item assign_histoName];
    cbn [world histoName binValues binStatErrors
         set_world set_histoName set_binValues set_binStatErrors new_Object])).

(** The bin contents written one after the other from bin 1 on. *)
Lemma fill_bins (vals pre : list Q) (rest : list Q) :
  fold_left (fun arr p => <[(p.1 + 1)%nat := p.2]> arr)
    (zip (seq (length pre) (length vals)) vals)
    (0 :: pre ++ replicate (length vals) 0 ++ rest)%list
  = (0 :: pre ++ vals ++ rest)%list.
Proof.
  revert pre. induction vals as [|v vals IH]; intros pre; [reflexivity|].
  cbn [length seq zip zip_with fold_left replicate fst snd app].
  assert (E : <[(length pre + 1)%nat := v]>
                (0 :: pre ++ 0 :: replicate (length vals) 0 ++ rest)%list
              = (0 :: (pre ++ [v]) ++ replicate (length vals) 0 ++ rest)%list).
  { rewrite Nat.add_1_r. rewrite <- app_assoc. cbn [app].
    rewrite <- (insert_middle pre (replicate (length vals) 0 ++ rest) 0 v).
    reflexivity. }
  rewrite E.
  specialize (IH (pre ++ [v])%list).
  rewrite length_app in IH. cbn [length] in IH.
  rewrite Nat.add_1_r in IH. rewrite IH, <- app_assoc. reflexivity.
Qed.

Lemma fold_SetBinContent (l : list (nat * Q)) (h : Hist) :
  fold_left (fun h p => SetBinContent (p.1 + 1) p.2 h) l h
  = {| GetName := GetName h;
       fArray := fold_left (fun arr p => <[(p.1 + 1)%nat := p.2]> arr) l (fArray h);
       fSumw2 := fSumw2 h |}.
Proof.
  revert h. induction l as [|p l IH]; intros h; cbn [fold_left].
  - destruct h. reflexivity.
  - rewrite IH. reflexivity.
Qed.

(** A new histogram filled from the list is the histogram by hand. *)
Lemma TH1F_filled (hName title : string) (vals : list Q) (xlow xup : Q) :
  fold_left (fun h p => SetBinContent (p.1 + 1) p.2 h) (enumerate vals)
    (TH1F hName title (length vals) xlow xup)
  = hist_by_hand hName vals.
Proof.
  rewrite fold_SetBinContent. unfold TH1F, hist_by_hand, enumerate.
  cbn [GetName fArray fSumw2]. f_equal.
  destruct vals as [|v vals]; [reflexivity|].
  replace (Nat.max 1 (length (v :: vals)) + 2)%nat with (S (length (v :: vals) + 1))
    by (cbn [length]; lia).
  cbn [replicate]. rewrite replicate_add. cbn [replicate].
  exact (fill_bins (v :: vals) [] [0]).
Qed.

Lemma hists_update_run {R} (hName : string) (f : Hist -> Hist) (c : ConfigMgr) (h : Hist) :
  cfg_hists c !! hName = Some (Some h) ->
  @hists_update R hName f c
  = (Normal tt, set_hists (<[hName := Some (f h)]> (cfg_hists c)) c).
Proof.
  intros H. unfold hists_update, bind. rewrite (hists_obj_run _ _ _ H). reflexivity.
Qed.

Lemma set_hists_twice (m m' : gmap string (option Hist)) (c : ConfigMgr) :
  set_hists m (set_hists m' c) = set_hists m c.
Proof. reflexivity. Qed.

(** A loop that updates the histogram of one name bin by bin. *)
Lemma update_loop {R A} (hName : string) (step : Hist -> A -> Hist)
    (body : A -> Proc Object R unit) (c : ConfigMgr) (s : Sample)
    (hn : option string) (bv bse : option (gmap (string * string) (list Q))) :
  let at_ h :=
    mkObject (mkWorld (set_hists (<[hName := Some h]> (cfg_hists c)) c) s) hn bv bse in
  (forall a h, body a (at_ h) = (Normal tt, at_ (step h a))) ->
  forall (xs : list A) (h : Hist),
    for_ xs body (at_ h) = (Normal tt, at_ (fold_left step xs h)).
Proof.
  intros at_ Hbody xs. induction xs as [|a xs IH]; intros h; cbn [for_ fold_left].
  - reflexivity.
  - unfold bind. rewrite Hbody. apply IH.
Qed.

(** [buildHisto] in closed form: it never raises. *)
Lemma buildHisto_run {R' : Type} (binValues_ : list Q) (region var : string)
    (binLow binWidth : Q) (o : Object) :
  @buildHisto R' binValues_ region var binLow binWidth o
  = (Normal tt, built binValues_ region var o).
Proof.
  destruct o as [[c s] hn bv bse]. unfold buildHisto, built, own_histoName, call.
  cbn [world self configMgr binValues binStatErrors].
  set (hName := if negb (isData s) then _ else _).
  set (bv' := <[(region, var) := binValues_]> (default ∅ bv)).
  assert (E1 : forall k : unit -> Proc Object unit unit,
            bind
              (try_AttributeError
                 (d ← attribute binValues;
                  modify (set_binValues (Some (<[(region, var) := binValues_]> d))))
                 (modify (set_binValues (Some ∅));;
                  d ← attribute binValues;
                  modify (set_binValues (Some (<[(region, var) := binValues_]> d)))))
              k (mkObject (mkWorld c s) hn bv bse)
            = k tt (mkObject (mkWorld c s) hn (Some bv') bse)).
  { intros k. unfold bind at 1, try_AttributeError. subst bv'.
    destruct bv as [d|]; run_obj; reflexivity. }
  rewrite E1.
  assert (E2 : forall k : unit -> Proc Object unit unit,
            bind (assign_histoName region var) k (mkObject (mkWorld c s) hn (Some bv') bse)
            = k tt (mkObject (mkWorld c s) (Some hName) (Some bv') bse)).
  { intros k. unfold bind at 1. subst hName. run_obj.
    destruct (isData s); run_obj; reflexivity. }
  rewrite E2. run_obj.
  unfold bv' at 1 2. rewrite lookup_insert_eq. run_obj.
  unfold hists_set. run_obj. rewrite lookup_insert_eq. run_obj.
  assert (L : @for_ Object unit (nat * Q) (enumerate binValues_)
                (fun p : nat * Q =>
                   let '(iBin, val) := p return Proc Object unit unit in
                   hName ← attribute histoName;
                   liftW (liftC (hists_update hName (SetBinContent (iBin + 1) val))))
                (mkObject
                   (mkWorld
                      (set_hists
                         (<[hName := Some (TH1F hName hName (length binValues_) binLow
                                             (inject_Z (Z.of_nat (length binValues_))
                                              * binWidth + binLow))]> (cfg_hists c)) c) s)
                   (Some hName) (Some bv') bse)
              = (Normal tt,
                 mkObject
                   (mkWorld
                      (set_hists
                         (<[hName := Some (hist_by_hand hName binValues_)]> (cfg_hists c))
                         c) s)
                   (Some hName) (Some bv') bse)).
  { rewrite <- (TH1F_filled hName hName binValues_ binLow
                  (inject_Z (Z.of_nat (length binValues_)) * binWidth + binLow)).
    apply (@update_loop unit (nat * Q) hName
             (fun h p => SetBinContent (p.1 + 1) p.2 h)).
    intros [iBin val] h. run_obj.
    rewrite (hists_update_run _ _ _ h) by apply lookup_insert_eq.
    cbn [cfg_hists set_hists]. rewrite insert_insert_eq. reflexivity. }
  match type of L with
  | ?lhs = _ =>
      match goal with
      | |- context [for_ ?xs ?b ?o] => change (for_ xs b o) with lhs
      end
  end.
  rewrite L. reflexivity.
Qed.

(** [buildHisto] always succeeds and stores, under the name of the
    sample's own histogram in the region, a histogram that holds the
    given values: value [i] of the list is the content of bin [i + 1],
    underflow and overflow are empty, and the integral is the sum of the
    values.  It has as many bins as there are values, but one (empty) bin
    when there is none.  The other histograms of the store are not
    touched. *)
Theorem buildHisto_bins {R' : Type} (binValues_ : list Q) (region var : string)
    (binLow binWidth : Q) (o : Object) :
  let hName := own_histoName (self (world o)) region var in
  let h := hist_by_hand hName binValues_ in
  let o' := snd (@buildHisto R' binValues_ region var binLow binWidth o) in
  fst (@buildHisto R' binValues_ region var binLow binWidth o) = Normal tt
  /\ cfg_hists (configMgr (world o')) !! hName = Some (Some h)
  /\ (forall n, n <> hName ->
        cfg_hists (configMgr (world o')) !! n = cfg_hists (configMgr (world o)) !! n)
  /\ GetNbinsX h = Nat.max 1 (length binValues_)
  /\ (forall i v, binValues_ !! i = Some v -> GetBinContent h (i + 1) = v)
  /\ GetBinContent h 0 = 0
  /\ GetBinContent h (GetNbinsX h + 1) = 0
  /\ Integral h == Qsum binValues_.
Proof.
  cbv zeta. rewrite buildHisto_run. cbn [fst snd].
  unfold built. cbn [world configMgr cfg_hists set_hists].
  assert (N : GetNbinsX (hist_by_hand (own_histoName (self (world o)) region var) binValues_)
              = Nat.max 1 (length binValues_)).
  { unfold GetNbinsX, hist_by_hand. cbn [fArray length].
    destruct binValues_ as [|v vals]; [reflexivity|].
    rewrite length_app. cbn [length]. lia. }
  repeat split.
  - apply lookup_insert_eq.
  - intros n Hn. apply lookup_insert_ne. congruence.
  - exact N.
  - intros i v Hi. unfold GetBinContent, hist_by_hand. cbn [fArray].
    destruct binValues_ as [|v0 vals]; [rewrite lookup_nil in Hi; discriminate|].
    rewrite Nat.add_1_r.
    change (default 0 (((v0 :: vals) ++ [0]) !! i) = v).
    rewrite lookup_app_l by (apply lookup_lt_Some in Hi; exact Hi).
    rewrite Hi. reflexivity.
  - rewrite N. unfold GetBinContent, hist_by_hand. cbn [fArray].
    destruct binValues_ as [|v0 vals]; [reflexivity|].
    change (Nat.max 1 (length (v0 :: vals))) with (length (v0 :: vals)).
    rewrite Nat.add_1_r.
    change (default 0 (((v0 :: vals) ++ [0]) !! length (v0 :: vals)) = 0).
    rewrite list_lookup_middle by reflexivity. reflexivity.
  - unfold Integral. rewrite N. unfold hist_by_hand. cbn [fArray drop].
    destruct binValues_ as [|v0 vals].
    + cbn. lra.
    + change (Qsum (take (length (v0 :: vals)) ((v0 :: vals) ++ [0])) == Qsum (v0 :: vals)).
      rewrite take_app_length. reflexivity.
Qed.

(** The histogram built by [buildHisto] for the region and the variable
    of the parent channel is the one [getHistogramName] names: for a
    sample in a channel, not a blinded data sample,
    [getHistogramName(fitConfig)] returns the name under which
    [buildHisto(values, "".join(regions), replaceSymbols(variableName))]
    has stored the values. *)
Theorem buildHisto_found_by_getHistogramName (replaceSymbols : string -> string)
    {R' : Type} (fitConfig : FitConfig) (binValues_ : list Q) (binLow binWidth : Q)
    (o : Object) (ch : Channel) :
  parentChannel (self (world o)) = Some ch ->
  (isData (self (world o)) = true -> channel_isBlinded ch fitConfig = false) ->
  let o' :=
    snd (@buildHisto unit binValues_ (join (regions ch)) (replaceSymbols (variableName ch))
           binLow binWidth o) in
  exists hName : string,
    @getHistogramName replaceSymbols R' fitConfig "" "" (world o') = (Normal hName, world o')
    /\ cfg_hists (configMgr (world o')) !! hName
       = Some (Some (hist_by_hand hName binValues_)).
Proof.
  intros Hp Hb. cbv zeta. rewrite buildHisto_run. cbn [snd].
  exists (own_histoName (self (world o)) (join (regions ch))
            (replaceSymbols (variableName ch))).
  split.
  - destruct o as [[c s] hn bv bse]. destruct s.
    cbn [world self parentChannel isData] in Hp, Hb. subst.
    unfold built, own_histoName. cbn [world self configMgr isData name].
    unfold getHistogramName, isBlinded, parentChannel_obj.
    destruct isData0.
    + rewrite (bool_decide_eq_true_2 ("" = "") eq_refl).
      run_proc. rewrite (Hb eq_refl). run_proc.
      unfold format. cbn [py_format]. run_proc. rewrite append_empty_r. reflexivity.
    + run_proc.
      change (bool_decide ("" = "")) with true. cbv iota.
      change (bool_decide ("Nom" = "Up")) with false. cbv iota.
      change (bool_decide ("Nom" = "Down")) with false. cbv iota.
      change (bool_decide ("Nom" ∈ ["Nom"; "High"; "Low"])) with true.
      run_proc. unfold format. cbn [py_format]. run_proc.
      rewrite append_empty_r. reflexivity.
  - unfold built. cbn [world configMgr cfg_hists set_hists]. apply lookup_insert_eq.
Qed.

(** The histogram of the sample [ttbar] in the channel [SR]. *)
Lemma buildHisto_ttbar_SR :
  exists hName : string,
    @getHistogramName (fun s => s) unit (mkFitConfig "fit") "" ""
      (world (snd (@buildHisto unit [3; 4; 5] "SR" "cuts" 0.5 1
                     (new_Object
                        (mkWorld (cfg_with [])
                           (in_channel channel_SR (new_Sample "ttbar" 1)))))))
    = (Normal hName,
       world (snd (@buildHisto unit [3; 4; 5] "SR" "cuts" 0.5 1
                     (new_Object
                        (mkWorld (cfg_with [])
                           (in_channel channel_SR (new_Sample "ttbar" 1)))))))
    /\ cfg_hists
         (configMgr
            (world (snd (@buildHisto unit [3; 4; 5] "SR" "cuts" 0.5 1
                           (new_Object
                              (mkWorld (cfg_with [])
                                 (in_channel channel_SR (new_Sample "ttbar" 1))))))))
       !! hName
       = Some (Some (hist_by_hand hName [3; 4; 5])).
Proof.
  assert (Hb : isData (self (world
                 (new_Object
                    (mkWorld (cfg_with []) (in_channel channel_SR (new_Sample "ttbar" 1))))))
               = true ->
               channel_isBlinded channel_SR (mkFitConfig "fit") = false)
    by reflexivity.
  exact (@buildHisto_found_by_getHistogramName (fun s => s) unit (mkFitConfig "fit")
           [3; 4; 5] 0.5 1
           (new_Object
              (mkWorld (cfg_with []) (in_channel channel_SR (new_Sample "ttbar" 1))))
           channel_SR eq_refl Hb).
Defined.

Lemma fold_SetBinError (l : list (nat * Q)) (h : Hist) :
  fold_left (fun h p => SetBinError (p.1 + 1) p.2 h) l h
  = {| GetName := GetName h;
       fArray := fArray h;
       fSumw2 := fold_left (fun arr p => <[(p.1 + 1)%nat := p.2 * p.2]> arr) l (fSumw2 h) |}.
Proof.
  revert h. induction l as [|p l IH]; intros h; cbn [fold_left].
  - destruct h. reflexivity.
  - rewrite IH. reflexivity.
Qed.

(** The squared errors written one after the other from bin 1 on. *)
Lemma fill_errors (errs pre : list Q) (old rest : list Q) :
  length old = length errs ->
  fold_left (fun arr p => <[(p.1 + 1)%nat := p.2 * p.2]> arr)
    (zip (seq (length pre) (length errs)) errs)
    (0 :: pre ++ old ++ rest)%list
  = (0 :: pre ++ map (fun e => e * e) errs ++ rest)%list.
Proof.
  revert pre old. induction errs as [|e errs IH]; intros pre old Hlen.
  - destruct old; [reflexivity | discriminate].
  - destruct old as [|x old]; [discriminate|].
    cbn [length seq zip zip_with fold_left fst snd app map].
    assert (E : <[(length pre + 1)%nat := e * e]> (0 :: pre ++ x :: old ++ rest)%list
                = (0 :: (pre ++ [e * e]) ++ old ++ rest)%list).
    { rewrite Nat.add_1_r. rewrite <- app_assoc. cbn [app].
      rewrite <- (insert_middle pre (old ++ rest) x (e * e)). reflexivity. }
    rewrite E.
    specialize (IH (pre ++ [e * e])%list old).
    rewrite length_app in IH. cbn [length] in IH.
    rewrite Nat.add_1_r in IH. rewrite IH, <- app_assoc; [reflexivity|].
    cbn [length] in Hlen. congruence.
Qed.

(** [buildStatErrors] in closed form. *)
Lemma buildStatErrors_run (binStatErrors_ : list Q) (region var : string) (o : Object) :
  buildStatErrors binStatErrors_ region var o
  = let o1 := errors_recorded binStatErrors_ region var o in
    match binValues o with
    | None => (inl (Builtin AttributeError), o1)
    | Some d =>
        match d !! (region, var) with
        | None => (inl (Builtin (KeyError (key_repr (region, var)))), o1)
        | Some vals =>
            if negb (length binStatErrors_ =? length vals)%nat then
              (inl (Exception
                      ("Length of errors list in region " +:+ region +:+ " and variable "
                       +:+ var +:+ " does not match the nominal histogram!")), o1)
            else
              let hName := own_histoName (self (world o)) region var in
              let o2 := set_histoName (Some hName) o1 in
              match binStatErrors_ with
              | [] => (inr tt, o2)
              | _ :: _ =>
                  match cfg_hists (configMgr (world o)) !! hName with
                  | Some (Some h) =>
                      (inr tt, with_hist hName (with_errors binStatErrors_ h) o2)
                  | _ =>
                      (inl (Exception "Errors specified without building histogram!"), o2)
                  end
              end
        end
    end.
Proof.
  destruct o as [[c s] hn bv bse].
  unfold buildStatErrors, errors_recorded, own_histoName, method.
  cbn [world self configMgr binValues binStatErrors set_binStatErrors cfg_hists].
  set (hName := if negb (isData s) then _ else _).
  set (bse' := <[(region, var) := binStatErrors_]> (default ∅ bse)).
  assert (E1 : forall k : unit -> Proc Object (Exit unit) unit,
            bind
              (try_AttributeError
                 (d ← attribute binStatErrors;
                  modify (set_binStatErrors (Some (<[(region, var) := binStatErrors_]> d))))
                 (modify (set_binStatErrors (Some ∅));;
                  d ← attribute binStatErrors;
                  modify (set_binStatErrors (Some (<[(region, var) := binStatErrors_]> d)))))
              k (mkObject (mkWorld c s) hn bv bse)
            = k tt (mkObject (mkWorld c s) hn bv (Some bse'))).
  { intros k. unfold bind at 1, try_AttributeError. subst bse'.
    destruct bse as [d|]; run_obj; reflexivity. }
  rewrite E1. clear E1.
  rewrite (bind_run _ _ _ (mkObject (mkWorld c s) hn bv (Some bse')) bse') by reflexivity.
  rewrite (bind_run _ _ _ (mkObject (mkWorld c s) hn bv (Some bse')) binStatErrors_)
    by (unfold dict_item, bse'; rewrite lookup_insert_eq; reflexivity).
  destruct bv as [d|]; [|reflexivity].
  rewrite (bind_run _ _ _ (mkObject (mkWorld c s) hn (Some d) (Some bse')) d)
    by reflexivity.
  destruct (d !! (region, var)) as [vals|] eqn:Ed;
    [|unfold bind at 1, dict_item; rewrite Ed; reflexivity].
  rewrite (bind_run _ _ _ (mkObject (mkWorld c s) hn (Some d) (Some bse')) vals)
    by (unfold dict_item; rewrite Ed; reflexivity).
  destruct (negb (length binStatErrors_ =? length vals)%nat) eqn:El; [reflexivity|].
  rewrite (bind_run _ _ _ (mkObject (mkWorld c s) hn (Some d) (Some bse')) tt)
    by reflexivity.
  assert (E2 : forall k : unit -> Proc Object (Exit unit) unit,
            bind (assign_histoName region var) k
              (mkObject (mkWorld c s) hn (Some d) (Some bse'))
            = k tt (mkObject (mkWorld c s) (Some hName) (Some d) (Some bse'))).
  { intros k. unfold bind at 1. subst hName. run_obj.
    destruct (isData s); run_obj; reflexivity. }
  rewrite E2. clear E2.
  rewrite (bind_run _ _ _ (mkObject (mkWorld c s) (Some hName) (Some d) (Some bse')) bse')
    by reflexivity.
  rewrite (bind_run _ _ _ (mkObject (mkWorld c s) (Some hName) (Some d) (Some bse'))
             binStatErrors_)
    by (unfold dict_item, bse'; rewrite lookup_insert_eq; reflexivity).
  cbv zeta. cbn [set_histoName world histoName binValues binStatErrors].
  destruct binStatErrors_ as [|e errs] eqn:Eerrs; [reflexivity|]. rewrite <- Eerrs.
  destruct (cfg_hists c !! hName) as [[h|]|] eqn:Eh.
  - assert (L : @for_ Object (Exit unit) (nat * Q) (enumerate binStatErrors_)
                  (fun p : nat * Q =>
                     let '(iBin, err) := p return Proc Object (Exit unit) unit in
                     try_except
                       (hName ← attribute histoName;
                        liftW (liftC (hists_update hName (SetBinError (iBin + 1) err))))
                       (raise_Exception "Errors specified without building histogram!"))
                  (mkObject
                     (mkWorld (set_hists (<[hName := Some h]> (cfg_hists c)) c) s)
                     (Some hName) (Some d) (Some bse'))
                = (Normal tt,
                   mkObject
                     (mkWorld
                        (set_hists
                           (<[hName := Some (with_errors binStatErrors_ h)]> (cfg_hists c))
                           c) s)
                     (Some hName) (Some d) (Some bse'))).
    { apply (@update_loop (Exit unit) (nat * Q) hName
               (fun h p => SetBinError (p.1 + 1) p.2 h)).
      intros [iBin err] h0. unfold try_except. run_obj.
      rewrite (hists_update_run _ _ _ h0) by apply lookup_insert_eq.
      cbn [cfg_hists set_hists]. rewrite insert_insert_eq. reflexivity. }
    rewrite (insert_id _ _ _ Eh) in L.
    assert (Ec : set_hists (cfg_hists c) c = c) by (destruct c; reflexivity).
    rewrite Ec in L. rewrite L.
    unfold with_hist. cbn [world configMgr self set_world cfg_hists]. reflexivity.
  - subst binStatErrors_. unfold enumerate. cbn [length seq zip zip_with for_].
    unfold bind at 1. unfold try_except. run_obj.
    unfold hists_update, hists_obj, hists_get. run_obj. rewrite Eh. reflexivity.
  - subst binStatErrors_. unfold enumerate. cbn [length seq zip zip_with for_].
    unfold bind at 1. unfold try_except. run_obj.
    unfold hists_update, hists_obj, hists_get. run_obj. rewrite Eh. reflexivity.
Qed.

(** The errors given to [buildStatErrors] after [buildHisto], for the
    same region and variable and as many as there are values, end up in
    the histogram: the call succeeds, the contents stay what [buildHisto]
    has stored, the error of bin [i + 1] is error [i] of the list (the
    histogram keeps its square), and underflow and overflow keep no
    error. *)
Theorem buildStatErrors_after_buildHisto (binValues_ binStatErrors_ : list Q)
    (region var : string) (binLow binWidth : Q) (o : Object) :
  length binStatErrors_ = length binValues_ ->
  let o1 := snd (@buildHisto unit binValues_ region var binLow binWidth o) in
  let hName := own_histoName (self (world o)) region var in
  exists h : Hist,
    fst (buildStatErrors binStatErrors_ region var o1) = inr tt
    /\ cfg_hists (configMgr (world (snd (buildStatErrors binStatErrors_ region var o1))))
       !! hName = Some (Some h)
    /\ fArray h = fArray (hist_by_hand hName binValues_)
    /\ (forall i e, binStatErrors_ !! i = Some e -> fSumw2 h !! (i + 1)%nat = Some (e * e))
    /\ fSumw2 h !! 0%nat = Some 0
    /\ fSumw2 h !! (GetNbinsX h + 1)%nat = Some 0.
Proof.
  intros Hlen. cbv zeta. rewrite buildHisto_run. cbn [snd].
  set (hName := own_histoName (self (world o)) region var).
  set (o1 := built binValues_ region var o).
  assert (Eo : own_histoName (self (world o1)) region var = hName)
    by (destruct o as [[c s] ? ? ?]; reflexivity).
  assert (Eh : cfg_hists (configMgr (world o1)) !! hName
               = Some (Some (hist_by_hand hName binValues_))).
  { unfold o1, built. cbn [world configMgr cfg_hists set_hists]. apply lookup_insert_eq. }
  assert (Ev : binValues o1
               = Some (<[(region, var) := binValues_]> (default ∅ (binValues o))))
    by reflexivity.
  assert (E : buildStatErrors binStatErrors_ region var o1
              = (inr tt,
                 match binStatErrors_ with
                 | [] =>
                     set_histoName (Some hName)
                       (errors_recorded binStatErrors_ region var o1)
                 | _ :: _ =>
                     with_hist hName
                       (with_errors binStatErrors_ (hist_by_hand hName binValues_))
                       (set_histoName (Some hName)
                          (errors_recorded binStatErrors_ region var o1))
                 end)).
  { rewrite buildStatErrors_run. cbv zeta. rewrite Ev, lookup_insert_eq.
    rewrite Hlen, Nat.eqb_refl. cbn [negb]. rewrite Eo, Eh.
    destruct binStatErrors_; reflexivity. }
  rewrite E. cbn [fst snd]. clear E.
  destruct binStatErrors_ as [|e errs] eqn:Eerrs.
  - exists (hist_by_hand hName binValues_).
    destruct binValues_; [|discriminate].
    repeat split; try reflexivity.
    + exact Eh.
    + intros i e0 Hi. rewrite lookup_nil in Hi. discriminate.
  - rewrite <- Eerrs in *.
    exists (with_errors binStatErrors_ (hist_by_hand hName binValues_)).
    assert (Ew : with_errors binStatErrors_ (hist_by_hand hName binValues_)
                 = {| GetName := hName;
                      fArray := fArray (hist_by_hand hName binValues_);
                      fSumw2 := (0 :: map (fun e => e * e) binStatErrors_ ++ [0])%list |}).
    { unfold with_errors. rewrite fold_SetBinError. unfold enumerate.
      cbn [GetName fArray fSumw2 hist_by_hand]. f_equal.
      assert (Emax : (Nat.max 1 (length binValues_) + 2 = S (length binStatErrors_ + 1))%nat)
        by (rewrite <- Hlen, Eerrs; cbn [length]; lia).
      rewrite Emax. cbn [replicate]. rewrite replicate_add. cbn [replicate].
      apply (fill_errors binStatErrors_ [] (replicate (length binStatErrors_) 0) [0]).
      apply length_replicate. }
    rewrite Ew. cbn [fArray fSumw2].
    repeat split.
    + unfold with_hist. cbn [world configMgr cfg_hists set_hists set_world].
      apply lookup_insert_eq.
    + intros i e0 Hi. rewrite Nat.add_1_r.
      change ((map (fun e => e * e) binStatErrors_ ++ [0]) !! i = Some (e0 * e0)).
      rewrite lookup_app_l by (rewrite length_map; apply lookup_lt_Some in Hi; exact Hi).
      rewrite list_lookup_fmap, Hi. reflexivity.
    + unfold GetNbinsX. cbn [fArray hist_by_hand length].
      assert (El : length (match binValues_ with [] => [0] | _ :: _ => binValues_ end ++ [0])
                   = S (length binStatErrors_)).
      { rewrite Hlen. destruct binValues_; [rewrite Eerrs in Hlen; discriminate|].
        rewrite length_app. cbn [length]. lia. }
      rewrite El. rewrite Nat.add_1_r.
      replace (S (S (length binStatErrors_)) - 2)%nat with (length binStatErrors_) by lia.
      change ((map (fun e => e * e) binStatErrors_ ++ [0]) !! length binStatErrors_
              = Some 0).
      rewrite list_lookup_middle by (rewrite length_map; reflexivity). reflexivity.
Qed.

(** Three values and their errors given for the region [SR] of a fresh
    sample. *)
Lemma buildStatErrors_SR :
  exists h : Hist,
    fst (buildStatErrors [1; 2; 3] "SR" "cuts"
           (snd (@buildHisto unit [3; 4; 5] "SR" "cuts" 0.5 1 (new_Object (world_with [])))))
    = inr tt
    /\ cfg_hists
         (configMgr
            (world
               (snd (buildStatErrors [1; 2; 3] "SR" "cuts"
                       (snd (@buildHisto unit [3; 4; 5] "SR" "cuts" 0.5 1
                               (new_Object (world_with []))))))))
       !! "httbarNom_SR_obs_cuts" = Some (Some h)
    /\ fSumw2 h !! 2%nat = Some (2 * 2).
Proof.
  destruct (buildStatErrors_after_buildHisto [3; 4; 5] [1; 2; 3] "SR" "cuts" 0.5 1
              (new_Object (world_with [])) eq_refl) as (h & H1 & H2 & _ & H4 & _).
  exists h. split; [exact H1 | split; [exact H2 | exact (H4 1%nat 2 eq_refl)]].
Defined.



(** ** [addHistoSys] without symmetrization *)




(** ** The floor of the overall systematics *)

Lemma overall_step_refl (w : World) : overall_step w w.
Proof. exists []. rewrite app_nil_r. auto. Qed.

Lemma overall_step_trans (w1 w2 w3 : World) :
  overall_step w1 w2 -> overall_step w2 w3 -> overall_step w1 w3.
Proof.
  intros [l [E F]] [l' [E' F']]. exists (l ++ l')%list. split.
  - rewrite E', E, app_assoc. reflexivity.
  - apply Forall_app. split; assumption.
Qed.

Lemma overall_step_same_list (w w' : World) :
  overallSystList (self w') = overallSystList (self w) -> overall_step w w'.
Proof. intros E. exists []. rewrite app_nil_r. auto. Qed.

Lemma overall_step_liftC {R A} (m : Proc ConfigMgr R A) : stays overall_step (liftC m).
Proof.
  intros [c s]. unfold liftC. cbn [configMgr self]. destruct (m c) as [o c'].
  apply overall_step_same_list. reflexivity.
Qed.

Lemma overall_step_append_histoSys {R} (systName high low : string) :
  stays overall_step (@append_histoSys R systName high low).
Proof. intros [c s]. apply overall_step_same_list. destruct s. reflexivity. Qed.

Lemma overall_step_register_syst {R} (systName : string) :
  stays overall_step (@register_syst R systName).
Proof.
  intros [c s]. apply overall_step_same_list.
  unfold register_syst, bind, get_cfg, gets, when. cbn [configMgr].
  destruct (has_key (cfg_systDict c) systName); destruct s; reflexivity.
Qed.

Lemma overall_step_setNormRegions {R'} (regions : list (string * string)) :
  stays overall_step (@setNormRegions R' regions).
Proof. intros [c s]. apply overall_step_same_list. destruct s. reflexivity. Qed.

Lemma overall_clamped_floored (p : Q * Q) :
  0.01 <= (overall_clamped p).1 /\ 0.01 <= (overall_clamped p).2.
Proof.
  destruct p as [h l]. unfold overall_clamped.
  destruct (Qltb l 0.01) eqn:El, (Qltb h 0.01) eqn:Eh; cbn [fst snd]; reflect_Q;
    split; lra.
Qed.

Lemma overall_resolved_floored (high low : Q) (p : Q * Q) :
  overall_resolved high low = Some p -> 0.01 <= p.1 /\ 0.01 <= p.2.
Proof.
  unfold overall_resolved.
  destruct (overall_exact_noinfo high low); [discriminate|].
  destruct (overall_near_noinfo _); [discriminate|].
  intros E. injection E as <-.
  exact (overall_clamped_floored (overall_mirrored high low)).
Qed.

Lemma overall_step_addOverallSys {R'} (systName : string) (high low : Q) :
  stays overall_step (@addOverallSys R' systName high low).
Proof.
  intros [c s]. rewrite addOverallSys_closed_form. cbn [snd].
  destruct (overall_resolved high low) as [[h l]|] eqn:Er; [|apply overall_step_refl].
  apply overall_resolved_floored in Er. cbn [fst snd] in Er.
  exists [(systName, h, l)]. split.
  - unfold overall_stored. cbn [configMgr self].
    destruct (has_key (cfg_systDict c) systName); destruct s; reflexivity.
  - constructor; [exact Er | constructor].
Qed.

Ltac stays_overall :=
  stays_with overall_step_refl overall_step_trans
    ltac:(idtac; lazymatch goal with
          | |- stays _ (append_histoSys _ _ _) => apply overall_step_append_histoSys
          | |- stays _ (register_syst _) => apply overall_step_register_syst
          | |- stays _ (setNormRegions _) => apply overall_step_setNormRegions
          | |- stays _ (addOverallSys _ _ _) => apply overall_step_addOverallSys
          | |- stays _ (get_self _) => apply (stays_gets _ overall_step_refl)
          | |- stays _ (get_cfg _) => apply (stays_gets _ overall_step_refl)
          | |- stays _ (liftC _) => apply overall_step_liftC
          end).

Lemma overall_step_addHistoSys {R'}
    (systName nomName highName lowName : string) (oneSide : bool)
    (samName normString nomSysName : string) (symmetrizeEnvelope : bool)
    (includeOverallSys normalizeSys symmetrize : bool) :
  stays overall_step
    (@addHistoSys systName nomName highName lowName oneSide samName normString
       nomSysName symmetrizeEnvelope R' includeOverallSys normalizeSys symmetrize).
Proof.
  unfold addHistoSys, addHistoSys_case1, addHistoSys_case2, addHistoSys_case3,
    parentChannel_obj.
  stays_overall.
Qed.

(** No overall systematic is stored with a value below [0.01]: over every
    sequence of [addOverallSys] and [addHistoSys] calls, whatever their
    arguments and outcomes, both values of every entry that
    [overallSystList] gains are at least [0.01] (so neither is zero or
    negative). *)
Theorem overallSystList_floor (cs : list SystCall) (w : World) :
  exists added : list (string * Q * Q),
    overallSystList (self (run_calls cs w)) = (overallSystList (self w) ++ added)%list
    /\ Forall (fun e => 0.01 <= e.1.2 /\ 0.01 <= e.2) added.
Proof.
  change (overall_step w (run_calls cs w)).
  unfold run_calls. revert w. induction cs as [|c cs IH]; intros w; cbn [fold_left].
  - apply overall_step_refl.
  - eapply overall_step_trans; [|apply IH].
    destruct c; cbn [run_call];
      [apply overall_step_addOverallSys | apply overall_step_addHistoSys].
Qed.

(** ** The one-sided mirror *)

(** A loop that updates the histogram of one name in the store. *)
Lemma store_update_loop {R A} (hName : string) (step : Hist -> A -> Hist)
    (body : A -> Proc ConfigMgr R unit) (c : ConfigMgr) :
  let at_ h := set_hists (<[hName := Some h]> (cfg_hists c)) c in
  (forall a h, body a (at_ h) = (Normal tt, at_ (step h a))) ->
  forall (xs : list A) (h : Hist),
    for_ xs body (at_ h) = (Normal tt, at_ (fold_left step xs h)).
Proof.
  intros at_ Hbody xs. induction xs as [|a xs IH]; intros h; cbn [for_ fold_left].
  - reflexivity.
  - unfold bind. rewrite Hbody. apply IH.
Qed.

Lemma clamp_bin_length (h : Hist) (i : nat) :
  length (fArray (clamp_bin h i)) = length (fArray h).
Proof.
  unfold clamp_bin. destruct (Qltb _ _); [apply SetBinContent_length | reflexivity].
Qed.

Lemma clamp_bins_length (bins : list nat) (h : Hist) :
  length (fArray (fold_left clamp_bin bins h)) = length (fArray h).
Proof.
  revert h. induction bins as [|b bins IH]; intros h; cbn [fold_left]; [reflexivity|].
  rewrite IH. apply clamp_bin_length.
Qed.

Lemma clamp_bin_other (h : Hist) (i j : nat) :
  i <> j -> GetBinContent (clamp_bin h i) j = GetBinContent h j.
Proof.
  intros Hne. unfold clamp_bin.
  destruct (Qltb _ _); [apply GetBinContent_SetBinContent_ne; exact Hne | reflexivity].
Qed.

Lemma clamp_bins_other (bins : list nat) (h : Hist) (j : nat) :
  j ∉ bins -> GetBinContent (fold_left clamp_bin bins h) j = GetBinContent h j.
Proof.
  revert h. induction bins as [|b bins IH]; intros h Hj; cbn [fold_left]; [reflexivity|].
  apply not_elem_of_cons in Hj. destruct Hj as [Hne Hj].
  rewrite (IH _ Hj). apply clamp_bin_other. congruence.
Qed.

(** A visited bin holds its former content, or zero if that was
    negative. *)
Lemma clamp_bins_visited (bins : list nat) (h : Hist) (j : nat) :
  NoDup bins -> j ∈ bins -> (j < length (fArray h))%nat ->
  GetBinContent (fold_left clamp_bin bins h) j
  = if Qltb (GetBinContent h j) 0.0 then 0.0 else GetBinContent h j.
Proof.
  revert h. induction bins as [|b bins IH]; intros h Hnd Hin Hj.
  - apply elem_of_nil in Hin. contradiction.
  - apply NoDup_cons in Hnd. destruct Hnd as [Hb Hnd]. cbn [fold_left].
    destruct (decide (j = b)) as [->|Hne].
    + rewrite (clamp_bins_other _ _ _ Hb). unfold clamp_bin.
      destruct (Qltb (GetBinContent h b) 0.0); [|reflexivity].
      apply GetBinContent_SetBinContent_eq. exact Hj.
    + apply elem_of_cons in Hin. destruct Hin as [Hin | Hin]; [contradiction|].
      rewrite (IH _ Hnd Hin) by (rewrite clamp_bin_length; exact Hj).
      rewrite clamp_bin_other by congruence. reflexivity.
Qed.

(** The contents of the mirrored histogram before the loop. *)
Lemma mirrored_low_content (lowName : string) (hn hh : Hist) (i : nat) :
  length (fArray hh) = length (fArray hn) ->
  (i < length (fArray hn))%nat ->
  length (fArray (mirrored_low lowName hn hh)) = length (fArray hn)
  /\ GetBinContent (mirrored_low lowName hn hh) i
     = 2.0 * GetBinContent hn i + -1.0 * GetBinContent hh i.
Proof.
  intros Hlen Hi. unfold mirrored_low, Add, same_binning, Scale, Clone.
  cbn [fArray fSumw2 GetName]. rewrite length_map.
  rewrite bool_decide_eq_true_2 by (symmetry; exact Hlen).
  unfold GetBinContent. cbn [fArray]. split.
  - rewrite length_zip_with, length_map. lia.
  - destruct (lookup_lt_is_Some_2 (fArray hn) i Hi) as [a Ha].
    destruct (lookup_lt_is_Some_2 (fArray hh) i ltac:(lia)) as [b Hb].
    rewrite lookup_zip_with, list_lookup_fmap, Ha, Hb. reflexivity.
Qed.

(** The one-sided mirror as a whole. *)
Lemma oneSideSymmetrize_run {R : Type} (nomName highName lowName : string)
    (c : ConfigMgr) (hn hh : Hist) :
  lowName <> nomName -> lowName <> highName ->
  cfg_hists c !! nomName = Some (Some hn) ->
  cfg_hists c !! highName = Some (Some hh) ->
  @oneSideSymmetrize R nomName highName lowName c
  = (Normal tt, set_hists (<[lowName := Some (oneSide_low lowName hn hh)]> (cfg_hists c)) c).
Proof.
  intros Hln Hlh Hn Hh. unfold oneSideSymmetrize, oneSide_low.
  set (at_ := fun h => set_hists (<[lowName := Some h]> (cfg_hists c)) c).
  assert (Hat : forall h, cfg_hists (at_ h) !! lowName = Some (Some h))
    by (intros h; unfold at_; cbn [cfg_hists set_hists]; apply lookup_insert_eq).
  assert (Hup : forall (f : Hist -> Hist) h,
            @hists_update R lowName f (at_ h) = (Normal tt, at_ (f h))).
  { intros f h. rewrite (hists_update_run _ _ _ h (Hat h)).
    unfold at_. cbn [cfg_hists set_hists]. rewrite insert_insert_eq. reflexivity. }
  rewrite (bind_run _ _ c (at_ (Clone lowName hn)) tt (clone_as_run lowName nomName c hn Hn)).
  rewrite (bind_run _ _ _ _ tt (Hup (Scale 2.0) (Clone lowName hn))).
  rewrite (bind_run _ _ _ _ _ (hists_obj_run lowName _ _ (Hat (Scale 2.0 (Clone lowName hn))))).
  rewrite (bind_run _ _ (at_ (Scale 2.0 (Clone lowName hn)))
             (at_ (Scale 2.0 (Clone lowName hn))) (Some hh)).
  2:{ unfold hists_get, at_. cbn [cfg_hists set_hists].
      rewrite lookup_insert_ne by exact Hlh. rewrite Hh. reflexivity. }
  rewrite (bind_run _ _ (at_ (Scale 2.0 (Clone lowName hn)))
             (at_ (mirrored_low lowName hn hh)) tt).
  2:{ unfold hists_set, modify, at_. cbn [cfg_hists set_hists].
      rewrite insert_insert_eq. reflexivity. }
  rewrite (bind_run _ _ _ _ _ (hists_obj_run lowName _ _ (Hat (mirrored_low lowName hn hh)))).
  apply (@store_update_loop R nat lowName clamp_bin).
  intros iBin h. fold (at_ h).
  rewrite (bind_run _ _ _ _ _ (hists_obj_run lowName _ _ (Hat h))).
  unfold clamp_bin. destruct (Qltb (GetBinContent h iBin) 0.0); unfold when.
  - apply Hup.
  - reflexivity.
Qed.

(** [addHistoSys] with a one-sided systematic that is symmetrized,
    without renormalisation or an overall systematic (Case 3): the low
    histogram is made by the call (none need exist under that name) as
    twice the nominal minus the high one; in the bins [1 .. N] a negative
    content is replaced by zero, so no such bin is negative, while
    underflow and overflow keep the plain difference.  The entry
    [(systName, highName, lowName, cacheFile, "", "", "", "")] is
    appended and the name registered. *)
Theorem addHistoSys_oneSide_mirror {R' : Type}
    (systName nomName highName lowName samName normString nomSysName : string)
    (normalizeSys : bool) (w : World) (c1 : ConfigMgr) (hn hh : Hist) :
  @alignToNomSys unit nomName highName lowName nomSysName (configMgr w) = (Normal tt, c1) ->
  normalizeSys = false \/ noRenormSys (self w) = true ->
  lowName <> nomName -> lowName <> highName ->
  cfg_hists c1 !! nomName = Some (Some hn) ->
  cfg_hists c1 !! highName = Some (Some hh) ->
  length (fArray hh) = length (fArray hn) ->
  let hl' := oneSide_low lowName hn hh in
  @addHistoSys systName nomName highName lowName true samName normString nomSysName
     false R' false normalizeSys true w
  = (Normal tt,
     mkWorld (set_hists (<[lowName := Some hl']> (cfg_hists c1)) c1)
       (registered c1 systName
          (set_histoSystList
             (histoSystList (self w) ++ [histoSys_entry c1 systName highName lowName])%list
             (self w))))
  /\ (forall i : nat,
        (1 <= i <= GetNbinsX hn)%nat ->
        GetBinContent hl' i == Qmax 0 (2 * GetBinContent hn i - GetBinContent hh i))
  /\ (forall i : nat,
        i = 0%nat \/ i = (GetNbinsX hn + 1)%nat ->
        (i < length (fArray hn))%nat ->
        GetBinContent hl' i == 2 * GetBinContent hn i - GetBinContent hh i).
Proof.
  intros Hal Hnorm Hln Hlh Hn Hh Hlen. cbv zeta. split; [|split].
  - destruct w as [c s]. cbn [configMgr self] in *.
    unfold addHistoSys. run_proc. rewrite Hal. run_proc.
    replace (if noRenormSys s && normalizeSys then false else normalizeSys) with false
      by (destruct Hnorm as [-> | ->]; [rewrite andb_false_r | destruct normalizeSys];
          reflexivity).
    run_proc. unfold addHistoSys_case3. cbn [andb orb negb]. run_proc.
    rewrite (oneSideSymmetrize_run nomName highName lowName c1 hn hh Hln Hlh Hn Hh).
    unfold append_histoSys, register_syst, registered, histoSys_entry. run_proc.
    destruct (has_key (cfg_systDict c1) systName); reflexivity.
  - intros i [Hi1 HiN].
    assert (Hi : (i < length (fArray hn))%nat) by (unfold GetNbinsX in HiN; lia).
    destruct (mirrored_low_content lowName hn hh i Hlen Hi) as [El Ec].
    unfold oneSide_low.
    rewrite clamp_bins_visited.
    + rewrite Ec.
      destruct (Qltb (2.0 * GetBinContent hn i + -1.0 * GetBinContent hh i) 0.0) eqn:E;
        reflect_Q;
        destruct (Q.max_spec 0 (2 * GetBinContent hn i - GetBinContent hh i))
          as [[? ->] | [? ->]]; lra.
    + apply NoDup_seq.
    + unfold xrange. apply elem_of_seq. unfold GetNbinsX in *. rewrite El. lia.
    + rewrite El. exact Hi.
  - intros i Hi0 Hi.
    destruct (mirrored_low_content lowName hn hh i Hlen Hi) as [El Ec].
    unfold oneSide_low. rewrite clamp_bins_other.
    + rewrite Ec. lra.
    + unfold xrange. rewrite elem_of_seq. unfold GetNbinsX in *. rewrite El. lia.
Qed.

(** Nominal [10, 4] and high [12, 9]: the mirrored low is [8, 0], not
    [8, -1]. *)
Lemma addHistoSys_oneSide_example :
  let w := world_with [("hNom", [10; 4]); ("hHigh", [12; 9])] in
  let hl' := oneSide_low "hLow" (hist_of_bins "hNom" [10; 4]) (hist_of_bins "hHigh" [12; 9]) in
  @addHistoSys "JES" "hNom" "hHigh" "hLow" true "" "" "" false unit false false true w
  = (Normal tt,
     mkWorld (set_hists (<["hLow" := Some hl']> (cfg_hists (configMgr w))) (configMgr w))
       (registered (configMgr w) "JES"
          (set_histoSystList [histoSys_entry (configMgr w) "JES" "hHigh" "hLow"] (self w))))
  /\ GetBinContent hl' 2 == 0.
Proof.
  cbv zeta.
  assert (Hln : "hLow" <> "hNom") by discriminate.
  assert (Hlh : "hLow" <> "hHigh") by discriminate.
  destruct (@addHistoSys_oneSide_mirror unit "JES" "hNom" "hHigh" "hLow" "" "" "" false
              (world_with [("hNom", [10; 4]); ("hHigh", [12; 9])])
              (cfg_with [("hNom", [10; 4]); ("hHigh", [12; 9])])
              (hist_of_bins "hNom" [10; 4]) (hist_of_bins "hHigh" [12; 9])
              eq_refl (or_introl eq_refl) Hln Hlh eq_refl eq_refl eq_refl)
    as (H1 & H2 & _).
  split; [exact H1|].
  vm_compute. reflexivity.
Defined.

(** ** [addShapeStat] *)

Lemma length_append (s t : string) :
  String.length (s +:+ t) = (String.length s + String.length t)%nat.
Proof.
  induction s as [|a s IH]; [reflexivity|].
  change (S (String.length (s +:+ t)) = S (String.length s + String.length t)).
  rewrite IH. reflexivity.
Qed.

Lemma append_Norm_ne (s : string) : s +:+ "Norm" <> s.
Proof.
  intros E. apply (f_equal String.length) in E. rewrite length_append in E.
  cbn [String.length] in E. lia.
Qed.

Lemma SetBinError_content (h : Hist) (i : nat) (e : Q) (j : nat) :
  GetBinContent (SetBinError i e h) j = GetBinContent h j.
Proof. reflexivity. Qed.

(** Bins written with values that depend on the index alone. *)
Lemma set_bins_content (f : nat -> Q) (e : nat -> Q) (bins : list nat) (h : Hist) (j : nat) :
  GetBinContent
    (fold_left (fun h i => SetBinError i (e i) (SetBinContent i (f i) h)) bins h) j
  = if bool_decide (j ∈ bins) && bool_decide (j < length (fArray h))%nat
    then f j else GetBinContent h j.
Proof.
  revert h. induction bins as [|b bins IH]; intros h; cbn [fold_left].
  - rewrite bool_decide_eq_false_2 by (rewrite elem_of_nil; tauto). reflexivity.
  - rewrite IH. cbn [fArray SetBinError]. rewrite SetBinContent_length.
    rewrite SetBinError_content.
    destruct (decide (j = b)) as [->|Hne].
    + rewrite (bool_decide_eq_true_2 (b ∈ b :: bins)) by apply list_elem_of_here.
      cbn [andb].
      destruct (bool_decide (b < length (fArray h))%nat) eqn:Eb.
      * apply bool_decide_eq_true_1 in Eb.
        rewrite andb_true_r.
        destruct (bool_decide (b ∈ bins)); [reflexivity|].
        apply GetBinContent_SetBinContent_eq. exact Eb.
      * apply bool_decide_eq_false_1 in Eb. rewrite andb_false_r.
        unfold GetBinContent, SetBinContent. cbn [fArray].
        rewrite list_insert_ge by lia. reflexivity.
    + rewrite GetBinContent_SetBinContent_ne by congruence.
      assert (Ein : bool_decide (j ∈ b :: bins) = bool_decide (j ∈ bins)).
      { apply bool_decide_ext. rewrite elem_of_cons. tauto. }
      rewrite Ein. reflexivity.
Qed.

Lemma set_bins_error (f : nat -> Q) (e : nat -> Q) (bins : list nat) (h : Hist) (j : nat) :
  fSumw2 (fold_left (fun h i => SetBinError i (e i) (SetBinContent i (f i) h)) bins h) !! j
  = if bool_decide (j ∈ bins) && bool_decide (j < length (fSumw2 h))%nat
    then Some (e j * e j) else fSumw2 h !! j.
Proof.
  revert h. induction bins as [|b bins IH]; intros h; cbn [fold_left].
  - rewrite bool_decide_eq_false_2 by (rewrite elem_of_nil; tauto). reflexivity.
  - rewrite IH. cbn [fSumw2 SetBinError SetBinContent]. rewrite length_insert.
    destruct (decide (j = b)) as [->|Hne].
    + rewrite (bool_decide_eq_true_2 (b ∈ b :: bins)) by apply list_elem_of_here.
      cbn [andb].
      destruct (bool_decide (b < length (fSumw2 h))%nat) eqn:Eb.
      * apply bool_decide_eq_true_1 in Eb. rewrite andb_true_r.
        destruct (bool_decide (b ∈ bins)); [reflexivity|].
        apply list_lookup_insert_eq. exact Eb.
      * apply bool_decide_eq_false_1 in Eb. rewrite andb_false_r.
        rewrite list_insert_ge by lia. reflexivity.
    + rewrite list_lookup_insert_ne by congruence.
      assert (Ein : bool_decide (j ∈ b :: bins) = bool_decide (j ∈ bins)).
      { apply bool_decide_ext. rewrite elem_of_cons. tauto. }
      rewrite Ein. reflexivity.
Qed.

(** A loop each turn of which succeeds and moves a represented value by
    [step]. *)
Lemma for_fold_at {S R A X} (at_ : X -> S) (step : X -> A -> X)
    (body : A -> Proc S R unit) :
  (forall a x, body a (at_ x) = (Normal tt, at_ (step x a))) ->
  forall (xs : list A) (x : X),
    for_ xs body (at_ x) = (Normal tt, at_ (fold_left step xs x)).
Proof.
  intros Hbody xs. induction xs as [|a xs IH]; intros x; cbn [for_ fold_left].
  - reflexivity.
  - unfold bind. rewrite Hbody. apply IH.
Qed.

(** [addShapeStat] as a whole, for a nominal histogram that exists. *)
Lemma addShapeStat_run (sqrt : Q -> Q) {R' : Type}
    (systName nomName constraintType : string) (statErrorThreshold : option Q)
    (c : ConfigMgr) (s : Sample) (hn : Hist) :
  cfg_hists c !! nomName = Some (Some hn) ->
  @addShapeStat sqrt R' systName nomName constraintType statErrorThreshold (mkWorld c s)
  = (Normal tt,
     mkWorld
       (set_hists
          (<[nomName +:+ "Norm" :=
               Some (shapeStat_hist sqrt statErrorThreshold (nomName +:+ "Norm") hn)]>
             (cfg_hists c)) c)
       (registered c systName s)).
Proof.
  intros Hn. unfold addShapeStat, shapeStat_hist, call. cbv zeta.
  set (histName := nomName +:+ "Norm").
  set (at_ := fun h => mkWorld (set_hists (<[histName := Some h]> (cfg_hists c)) c) s).
  assert (Hne : nomName <> histName) by (intros E; symmetry in E; exact (append_Norm_ne _ E)).
  assert (Hat : forall h, cfg_hists (configMgr (at_ h)) !! histName = Some (Some h))
    by (intros h; unfold at_; cbn [configMgr cfg_hists set_hists]; apply lookup_insert_eq).
  assert (Hnom : forall h, cfg_hists (configMgr (at_ h)) !! nomName = Some (Some hn)).
  { intros h. unfold at_. cbn [configMgr cfg_hists set_hists].
    rewrite lookup_insert_ne by congruence. exact Hn. }
  assert (Hup : forall (f : Hist -> Hist) h,
            @hists_update unit histName f (configMgr (at_ h))
            = (Normal tt, configMgr (at_ (f h)))).
  { intros f h. rewrite (hists_update_run _ _ _ h (Hat h)).
    unfold at_. cbn [configMgr cfg_hists set_hists]. rewrite insert_insert_eq. reflexivity. }
  rewrite (bind_run _ _ (mkWorld c s) (at_ (Clone histName hn)) tt).
  2:{ unfold liftC. cbn [configMgr self]. rewrite (clone_as_run _ _ _ _ Hn). reflexivity. }
  rewrite (bind_run _ _ (at_ (Clone histName hn)) (at_ (Clone histName hn))
             (Clone histName hn)).
  2:{ unfold liftC. rewrite (hists_obj_run _ _ _ (Hat _)). reflexivity. }
  rewrite (bind_run _ _ (at_ (Clone histName hn))
             (at_ (fold_left (stat_bin sqrt statErrorThreshold hn)
                     (xrange 0 (GetNbinsX (Clone histName hn) + 1)) (Clone histName hn)))
             tt).
  - unfold register_syst, registered, at_. run_proc.
    destruct (has_key (cfg_systDict c) systName); reflexivity.
  - apply (for_fold_at at_ (stat_bin sqrt statErrorThreshold hn)).
    intros iBin h. unfold liftC, try_ZeroDivisionError.
    rewrite (bind_run _ _ _ _ _ (hists_obj_run nomName _ _ (Hnom h))).
    rewrite (bind_run _ _ _ _ _ (hists_obj_run nomName _ _ (Hnom h))).
    unfold stat_bin, stat_ratio.
    destruct (Qeq_bool (GetBinContent hn iBin) 0) eqn:E0.
    + reflect_Q. unfold bind at 1. rewrite (py_div_zero _ _ _ E0).
      rewrite (bind_run _ _ _ _ _ (Hup (SetBinContent iBin 0.0) h)).
      rewrite (Hup (SetBinError iBin 0.0) (SetBinContent iBin 0.0 h)).
      unfold at_. reflexivity.
    + reflect_Q. rewrite (bind_run _ _ _ _ _ (py_div_run _ _ _ E0)).
      cbv zeta.
      rewrite (bind_run _ _ _ _ _ (Hup (SetBinContent iBin _) h)).
      rewrite (bind_run _ _ _ _ _ (Hup (SetBinError iBin 0.0) _)).
      rewrite (bind_run _ _ _ _ _ (hists_obj_run histName _ _ (Hat _))).
      unfold ret, at_. reflexivity.
Qed.

(** [addShapeStat] on a nominal histogram that exists: the call succeeds
    and stores, under the nominal name followed by [Norm], a copy of the
    nominal histogram in which every cell from the underflow to bin [N]
    holds the relative statistical error of that cell ([0] where the
    nominal cell is empty, and where the ratio is below the threshold)
    with no error of its own.  The overflow cell is not visited: it
    keeps the content of the nominal histogram, which is no ratio.
    Nothing is appended to [shapeSystList] or to any other list but
    [systList], which gains the name unless [configMgr.systDict] holds
    it.  [sqrt] is the square root by which a histogram turns what it
    keeps into the error of a bin. *)
Theorem addShapeStat_bins (sqrt : Q -> Q) {R' : Type}
    (systName nomName constraintType : string) (statErrorThreshold : option Q)
    (w : World) (hn : Hist) :
  cfg_hists (configMgr w) !! nomName = Some (Some hn) ->
  let h := shapeStat_hist sqrt statErrorThreshold (nomName +:+ "Norm") hn in
  @addShapeStat sqrt R' systName nomName constraintType statErrorThreshold w
  = (Normal tt,
     mkWorld
       (set_hists (<[nomName +:+ "Norm" := Some h]> (cfg_hists (configMgr w))) (configMgr w))
       (registered (configMgr w) systName (self w)))
  /\ (forall i : nat,
        (i <= GetNbinsX hn)%nat -> (i < length (fArray hn))%nat ->
        GetBinContent h i = stat_ratio sqrt statErrorThreshold hn i)
  /\ (forall i : nat,
        (i <= GetNbinsX hn)%nat -> (i < length (fSumw2 hn))%nat ->
        fSumw2 h !! i = Some (0.0 * 0.0))
  /\ GetBinContent h (GetNbinsX hn + 1) = GetBinContent hn (GetNbinsX hn + 1)
  /\ shapeSystList (registered (configMgr w) systName (self w)) = shapeSystList (self w).
Proof.
  intros Hn. cbv zeta. destruct w as [c s]. cbn [configMgr self] in *.
  split; [apply addShapeStat_run; exact Hn|].
  unfold shapeStat_hist, stat_bin.
  change (GetNbinsX (Clone (nomName +:+ "Norm") hn)) with (GetNbinsX hn).
  repeat split.
  - intros i Hi Hlen.
    rewrite (set_bins_content (stat_ratio sqrt statErrorThreshold hn) (fun _ => 0.0)).
    rewrite bool_decide_eq_true_2 by (unfold xrange; apply elem_of_seq; lia).
    rewrite bool_decide_eq_true_2 by exact Hlen. reflexivity.
  - intros i Hi Hlen.
    rewrite (set_bins_error (stat_ratio sqrt statErrorThreshold hn) (fun _ => 0.0)).
    rewrite bool_decide_eq_true_2 by (unfold xrange; apply elem_of_seq; lia).
    rewrite bool_decide_eq_true_2 by exact Hlen. reflexivity.
  - rewrite (set_bins_content (stat_ratio sqrt statErrorThreshold hn) (fun _ => 0.0)).
    rewrite bool_decide_eq_false_2 by (unfold xrange; rewrite elem_of_seq; lia).
    reflexivity.
  - unfold registered. destruct (has_key _ _); destruct s; reflexivity.
Qed.

(** A nominal histogram with an empty second bin and the content [7] in
    its overflow: the second bin of the stored histogram is [0], its
    overflow is [7]. *)
Lemma addShapeStat_example :
  let hn := mkHist "hNom" [0; 4; 0; 7] [0; 4; 0; 7] in
  let w := mkWorld (set_hists (<["hNom" := Some hn]> ∅) (cfg_with [])) (new_Sample "ttbar" 1) in
  let h := shapeStat_hist (fun x => x) None "hNomNorm" hn in
  fst (@addShapeStat (fun x => x) unit "stat" "hNom" "Gaussian" None w) = Normal tt
  /\ GetBinContent h 2 = 0.0
  /\ GetBinContent h 3 = 7.
Proof.
  cbv zeta.
  destruct (@addShapeStat_bins (fun x => x) unit "stat" "hNom" "Gaussian" None
              (mkWorld
                 (set_hists (<["hNom" := Some (mkHist "hNom" [0; 4; 0; 7] [0; 4; 0; 7])]> ∅)
                    (cfg_with []))
                 (new_Sample "ttbar" 1))
              (mkHist "hNom" [0; 4; 0; 7] [0; 4; 0; 7]) (lookup_insert_eq _ _ _))
    as (H1 & H2 & _ & H4 & _).
  split; [rewrite H1; reflexivity|].
  split; [exact (H2 2%nat ltac:(vm_compute; lia) ltac:(vm_compute; lia)) | exact H4].
Defined.

(** ** [addHistoSys] with renormalisation but no regions *)

(** [addHistoSys] asked to renormalise (with renormalisation enabled on
    the sample) when the sample has no normalisation regions takes them
    from the parent channel.  Without a parent channel the call raises
    [AttributeError]; with one that yields no region it raises
    [RuntimeError], after the empty list has become the sample's
    [normRegions].  In both cases no systematic is stored or
    registered. *)
Theorem addHistoSys_without_normRegions {R' : Type}
    (systName nomName highName lowName samName normString nomSysName : string)
    (oneSide symmetrizeEnvelope includeOverallSys symmetrize : bool)
    (w : World) (c1 : ConfigMgr) :
  oneSide && symmetrizeEnvelope = false ->
  @alignToNomSys unit nomName highName lowName nomSysName (configMgr w) = (Normal tt, c1) ->
  noRenormSys (self w) = false ->
  truthy (normRegions (self w)) = false ->
  let outcome :=
    @addHistoSys systName nomName highName lowName oneSide samName normString nomSysName
      symmetrizeEnvelope R' includeOverallSys true symmetrize w in
  (parentChannel (self w) = None -> outcome = (Raise AttributeError, mkWorld c1 (self w)))
  /\ (forall ch : Channel,
        parentChannel (self w) = Some ch ->
        default_normRegions ch = [] ->
        outcome
        = (Raise (RuntimeError "Please specify normalization regions!"),
           mkWorld c1 (set_noRenormSys false (set_normRegions (Some []) (self w))))).
Proof.
  intros Hfatal Hal Hre Hnr. cbv zeta.
  destruct w as [c s]. destruct s. cbn [configMgr self noRenormSys normRegions parentChannel] in *.
  subst. split.
  - intros ->. unfold addHistoSys, parentChannel_obj. run_proc.
    rewrite Hfatal. run_proc. rewrite Hal. run_proc. rewrite Hnr. run_proc. reflexivity.
  - intros ch -> Hd. unfold addHistoSys, parentChannel_obj. run_proc.
    rewrite Hfatal. run_proc. rewrite Hal. run_proc. rewrite Hnr. run_proc.
    unfold default_normRegions in Hd. cbv zeta in Hd. rewrite Hd.
    unfold setNormRegions, addHistoSys_case1. run_proc. reflexivity.
Qed.

(** The sample [ttbar] in the channel [SR], whose top level lists no
    channel, after [setNormRegions([])]. *)
Lemma addHistoSys_no_regions_example :
  fst (@addHistoSys "JES" "hNom" "hHigh" "hLow" false "ttbar" "SR" "" false unit true true
         false
         (snd (@setNormRegions unit []
                 (mkWorld (cfg_with []) (in_channel channel_SR (new_Sample "ttbar" 1))))))
  = Raise (RuntimeError "Please specify normalization regions!").
Proof.
  pose proof (@addHistoSys_without_normRegions unit "JES" "hNom" "hHigh" "hLow" "ttbar" "SR"
                "" false false true false
                (snd (@setNormRegions unit []
                        (mkWorld (cfg_with []) (in_channel channel_SR (new_Sample "ttbar" 1)))))
                (cfg_with []) eq_refl eq_refl eq_refl eq_refl) as H.
  cbv zeta in H. destruct H as [_ H].
  rewrite (H channel_SR eq_refl eq_refl). reflexivity.
Defined.

(** ** The stored histogram systematics *)

Lemma histoSystList_set (l : list HistoSysEntry) (s : Sample) :
  histoSystList (set_histoSystList l s) = l.
Proof. destruct s. reflexivity. Qed.

Lemma set_histoSystList_twice (l l' : list HistoSysEntry) (s : Sample) :
  set_histoSystList l (set_histoSystList l' s) = set_histoSystList l s.
Proof. destruct s. reflexivity. Qed.

Lemma set_histoSystList_same (s : Sample) :
  set_histoSystList (histoSystList s) s = s.
Proof. destruct s. reflexivity. Qed.

(** The loop of [replaceHistoSys] from index [length pre] on. *)
Lemma replaceHistoSys_loop (rsyst : HistoSysEntry) (c : ConfigMgr)
    (s : Sample) (l pre : list HistoSysEntry) :
  @for_ World unit nat (seq (length pre) (length l))
    (fun idx =>
       l ← get_self histoSystList;
       syst ← list_item l idx;
       when (bool_decide (histoSys_name rsyst = histoSys_name syst)) (
         modify_self (fun s => set_histoSystList (<[idx := rsyst]> (histoSystList s)) s);;
         return_ tt))
    (mkWorld c (set_histoSystList (pre ++ l) s))
  = (match first_named histoSys_name (histoSys_name rsyst) l with
     | Some _ => Return tt
     | None => Normal tt
     end,
     mkWorld c (set_histoSystList (pre ++ replace_first histoSys_name rsyst l) s)).
Proof.
  revert pre. induction l as [|e l IH]; intros pre.
  - reflexivity.
  - cbn [length seq for_ replace_first]. unfold first_named. cbn [find].
    unfold bind at 1. unfold bind at 1. unfold get_self, gets at 1.
    cbn [self]. rewrite histoSystList_set.
    unfold list_item at 1. rewrite list_lookup_middle by reflexivity.
    unfold ret at 1. unfold bind at 1.
    destruct (bool_decide (histoSys_name rsyst = histoSys_name e)) eqn:E1.
    + unfold when, bind, modify_self, modify, return_. cbn [self configMgr].
      rewrite histoSystList_set, set_histoSystList_twice.
      rewrite insert_middle. reflexivity.
    + unfold when at 1. unfold ret at 1.
      specialize (IH (pre ++ [e])%list).
      rewrite length_app in IH. cbn [length] in IH.
      rewrite Nat.add_1_r, <- !app_assoc in IH. cbn [app] in IH.
      exact IH.
Qed.

(** [getHistoSys] and [replaceHistoSys] go by the first entry of a name,
    as their counterparts for the overall systematics do: [getHistoSys]
    returns the first entry of the name ([None] when there is none) and
    never raises; [replaceHistoSys] replaces that entry by [rsyst] and no
    other, so that the list keeps its length, [getHistoSys] of the name
    then returns [rsyst], other names are found as before, and nothing
    changes when no entry has the name. *)
Theorem replaceHistoSys_first_entry {R' : Type} (rsyst : HistoSysEntry) (w : World) :
  let l := histoSystList (self w) in
  let w1 :=
    mkWorld (configMgr w)
      (set_histoSystList (replace_first histoSys_name rsyst l) (self w)) in
  @replaceHistoSys R' rsyst w = (Normal tt, w1)
  /\ length (histoSystList (self w1)) = length l
  /\ (forall n, @getHistoSys R' n w = (Normal (first_named histoSys_name n l), w))
  /\ (forall e, fst (@getHistoSys R' (histoSys_name rsyst) w) = Normal (Some e) ->
                fst (@getHistoSys R' (histoSys_name rsyst) w1) = Normal (Some rsyst))
  /\ (fst (@getHistoSys R' (histoSys_name rsyst) w) = Normal None -> w1 = w)
  /\ (forall n, n <> histoSys_name rsyst ->
                fst (@getHistoSys R' n w1) = fst (@getHistoSys R' n w)).
Proof.
  cbv zeta. destruct w as [c s]. cbn [self configMgr].
  repeat split.
  - unfold replaceHistoSys, call.
    rewrite (bind_run _ _ (mkWorld c s) (mkWorld c s) (histoSystList s)) by reflexivity.
    cbv beta. unfold xrange. rewrite Nat.sub_0_r.
    pose proof (replaceHistoSys_loop rsyst c s (histoSystList s) []) as L.
    cbn [app length] in L. rewrite set_histoSystList_same in L. rewrite L.
    destruct (first_named _ _ _); reflexivity.
  - rewrite histoSystList_set. apply replace_first_length.
  - intros n. apply getHistoSys_first.
  - intros e He. rewrite getHistoSys_first in *. cbn [fst self] in *.
    injection He as He. rewrite histoSystList_set, first_named_replace_first, He.
    reflexivity.
  - intros He. rewrite getHistoSys_first in He. cbn [fst self] in He.
    injection He as He. rewrite (replace_first_none _ _ _ He), set_histoSystList_same.
    reflexivity.
  - intros n Hn. rewrite !getHistoSys_first. cbn [fst self].
    rewrite histoSystList_set, first_named_replace_first_ne by exact Hn. reflexivity.
Qed.

(** The entry of [JES] replaced by one that names other histograms. *)
Lemma replaceHistoSys_JES :
  let w :=
    mkWorld (cfg_with [])
      (set_histoSystList [("JES", "hHigh", "hLow", "data/histCache.root", "", "", "", "")]
         (new_Sample "ttbar" 1)) in
  fst (@getHistoSys unit "JES"
         (snd (@replaceHistoSys unit
                 ("JES", "hHighNorm", "hLowNorm", "data/histCache.root", "", "", "", "") w)))
  = Normal (Some ("JES", "hHighNorm", "hLowNorm", "data/histCache.root", "", "", "", "")).
Proof.
  cbv zeta.
  pose proof (@replaceHistoSys_first_entry unit
                ("JES", "hHighNorm", "hLowNorm", "data/histCache.root", "", "", "", "")
                (mkWorld (cfg_with [])
                   (set_histoSystList
                      [("JES", "hHigh", "hLow", "data/histCache.root", "", "", "", "")]
                      (new_Sample "ttbar" 1)))) as H.
  cbv zeta in H. destruct H as (H1 & _ & _ & H4 & _).
  rewrite H1.
  exact (H4 ("JES", "hHigh", "hLow", "data/histCache.root", "", "", "", "") eq_refl).
Defined.

(** ** [addHistoSys] with an overall systematic (Case 2) *)

Lemma Qsum_scale (c : Q) (l : list Q) : Qsum (map (Qmult c) l) == c * Qsum l.
Proof.
  induction l as [|a l IH]; cbn [map Qsum foldr].
  - ring.
  - fold (Qsum (map (Qmult c) l)). fold (Qsum l). rewrite IH. ring.
Qed.

Lemma Integral_Scale (c : Q) (h : Hist) : Integral (Scale c h) == c * Integral h.
Proof.
  unfold Integral, GetNbinsX, Scale. cbn [fArray]. rewrite length_map.
  change (map (Qmult c) (fArray h)) with (Qmult c <$> fArray h).
  rewrite <- fmap_drop, <- fmap_take. apply Qsum_scale.
Qed.

(** [addHistoSys] with an overall systematic and neither renormalisation
    nor symmetrization (Case 2) splits the variation into a shape and a
    scale.  When the three integrals are not zero, the high and the low
    histogram are copied under their names followed by [Norm] and scaled
    so that each copy has the integral of the nominal histogram; the
    entry of the copies is appended to [histoSystList], and the two
    ratios [high/nominal] and [low/nominal] go through [addOverallSys].
    When one of the integrals is zero, the entry of the histograms as
    they are is appended, no copy is made and no overall systematic is
    stored. *)
Theorem addHistoSys_case2_splits {R' : Type}
    (systName nomName highName lowName samName normString nomSysName : string)
    (oneSide symmetrize normalizeSys : bool) (w : World) (c1 : ConfigMgr)
    (hn hh hl : Hist) :
  oneSide && symmetrize = false ->
  @alignToNomSys unit nomName highName lowName nomSysName (configMgr w) = (Normal tt, c1) ->
  normalizeSys = false \/ noRenormSys (self w) = true ->
  cfg_hists c1 !! nomName = Some (Some hn) ->
  cfg_hists c1 !! highName = Some (Some hh) ->
  cfg_hists c1 !! lowName = Some (Some hl) ->
  lowName <> highName +:+ "Norm" ->
  highName +:+ "Norm" <> lowName +:+ "Norm" ->
  let high := Integral hh / Integral hn in
  let low := Integral hl / Integral hn in
  let hHighNorm := Scale (1.0 / high) (Clone (highName +:+ "Norm") hh) in
  let hLowNorm := Scale (1.0 / low) (Clone (lowName +:+ "Norm") hl) in
  let outcome :=
    @addHistoSys systName nomName highName lowName oneSide samName normString nomSysName
      false R' true normalizeSys symmetrize w in
  (~ Integral hn == 0 -> ~ Integral hh == 0 -> ~ Integral hl == 0 ->
   let c2 :=
     set_hists
       (<[lowName +:+ "Norm" := Some hLowNorm]>
          (<[highName +:+ "Norm" := Some hHighNorm]> (cfg_hists c1))) c1 in
   let w2 :=
     mkWorld c2
       (set_histoSystList
          (histoSystList (self w)
           ++ [histoSys_entry c1 systName (highName +:+ "Norm") (lowName +:+ "Norm")])%list
          (self w)) in
   let w3 :=
     match overall_resolved high low with
     | Some p => overall_stored systName p w2
     | None => w2
     end in
   outcome = (Normal tt, mkWorld c2 (registered c2 systName (self w3)))
   /\ Integral hHighNorm == Integral hn
   /\ Integral hLowNorm == Integral hn)
  /\ (Integral hn == 0 \/ Integral hh == 0 \/ Integral hl == 0 ->
      outcome
      = (Normal tt,
         mkWorld c1
           (registered c1 systName
              (set_histoSystList
                 (histoSystList (self w) ++ [histoSys_entry c1 systName highName lowName])%list
                 (self w))))).
Proof.
  intros Hsym Hal Hnorm Hn Hh Hl Hlh Hnn. cbv zeta.
  destruct w as [c s]. cbn [configMgr self] in *.
  assert (Start : forall r : Outcome unit unit * World,
            addHistoSys_case2 systName nomName highName lowName oneSide false symmetrize
              (mkWorld c1 s) = r ->
            @addHistoSys systName nomName highName lowName oneSide samName normString
              nomSysName false R' true normalizeSys symmetrize (mkWorld c s)
            = match r with
              | (Normal _, w') => (Normal tt, mkWorld (configMgr w')
                                                (registered (configMgr w') systName (self w')))
              | (Return _, w') => (Normal tt, w')
              | (Raise e, w') => (Raise e, w')
              end).
  { intros r <-. unfold addHistoSys. run_proc. rewrite andb_false_r. run_proc.
    rewrite Hal. run_proc.
    replace (if noRenormSys s && normalizeSys then false else normalizeSys) with false
      by (destruct Hnorm as [-> | ->]; [rewrite andb_false_r | destruct normalizeSys];
          reflexivity).
    run_proc.
    destruct (addHistoSys_case2 _ _ _ _ _ _ _ _) as [[[] | [] | e] [c' s']];
      [|reflexivity..].
    unfold register_syst, registered. run_proc.
    destruct (has_key (cfg_systDict c') systName); reflexivity. }
  split.
  - intros Hn0 Hh0 Hl0.
    assert (Hhigh0 : ~ Integral hh / Integral hn == 0).
    { intros E. apply Hh0. rewrite <- (Qmult_div_r (Integral hh) (Integral hn)) by exact Hn0.
      rewrite E. ring. }
    assert (Hlow0 : ~ Integral hl / Integral hn == 0).
    { intros E. apply Hl0. rewrite <- (Qmult_div_r (Integral hl) (Integral hn)) by exact Hn0.
      rewrite E. ring. }
    split; [|split].
    + erewrite Start.
      2:{ unfold addHistoSys_case2. rewrite Hsym.
          unfold append_histoSys, try_ZeroDivisionError, try_AttributeError. run_proc.
          rewrite (integral_of_run _ _ _ Hn). run_proc.
          rewrite (integral_of_run _ _ _ Hl). run_proc.
          rewrite (integral_of_run _ _ _ Hh). run_proc.
          replace (Qeq_bool (Integral hn) 0) with false by (symmetry; by_lra).
          replace (Qeq_bool (Integral hl) 0) with false by (symmetry; by_lra).
          replace (Qeq_bool (Integral hh) 0) with false by (symmetry; by_lra).
          run_proc.
          rewrite !(py_div_run _ _ _ Hn0). run_proc.
          rewrite (clone_as_run _ _ _ _ Hh). run_proc.
          rewrite (clone_as_run (lowName +:+ "Norm") lowName _ hl)
            by (cbn [cfg_hists set_hists]; rewrite lookup_insert_ne by congruence; exact Hl).
          run_proc.
          rewrite (hists_obj_run (highName +:+ "Norm") _ (Clone (highName +:+ "Norm") hh))
            by (cbn [cfg_hists set_hists]; rewrite lookup_insert_ne by congruence;
                apply lookup_insert_eq).
          run_proc. rewrite (py_div_run _ _ _ Hhigh0). run_proc.
          unfold hists_set. run_proc.
          rewrite (hists_obj_run (lowName +:+ "Norm") _ (Clone (lowName +:+ "Norm") hl))
            by (cbn [cfg_hists set_hists]; rewrite lookup_insert_ne by congruence;
                apply lookup_insert_eq).
          run_proc. rewrite (py_div_run _ _ _ Hlow0). run_proc.
          rewrite addOverallSys_closed_form. reflexivity. }
      assert (Ec : <[lowName +:+ "Norm" :=
                       Some (Scale (1.0 / (Integral hl / Integral hn))
                               (Clone (lowName +:+ "Norm") hl))]>
                     (<[highName +:+ "Norm" :=
                          Some (Scale (1.0 / (Integral hh / Integral hn))
                                  (Clone (highName +:+ "Norm") hh))]>
                        (<[lowName +:+ "Norm" := Some (Clone (lowName +:+ "Norm") hl)]>
                           (<[highName +:+ "Norm" := Some (Clone (highName +:+ "Norm") hh)]>
                              (cfg_hists c1))))
                   = <[lowName +:+ "Norm" :=
                         Some (Scale (1.0 / (Integral hl / Integral hn))
                                 (Clone (lowName +:+ "Norm") hl))]>
                       (<[highName +:+ "Norm" :=
                            Some (Scale (1.0 / (Integral hh / Integral hn))
                                    (Clone (highName +:+ "Norm") hh))]> (cfg_hists c1))).
      { apply map_eq. intros k.
        destruct (decide (k = lowName +:+ "Norm")) as [->|Hkl].
        - rewrite !lookup_insert_eq. reflexivity.
        - rewrite !(lookup_insert_ne _ (lowName +:+ "Norm")) by congruence.
          destruct (decide (k = highName +:+ "Norm")) as [->|Hkh].
          + rewrite !lookup_insert_eq. reflexivity.
          + rewrite !lookup_insert_ne by congruence. reflexivity. }
      cbn [cfg_hists set_hists]. rewrite Ec. unfold histoSys_entry.
      destruct (overall_resolved (Integral hh / Integral hn) (Integral hl / Integral hn))
        as [[h l]|]; unfold overall_stored, registered; cbn [configMgr self cfg_systDict];
        destruct (has_key (cfg_systDict c1) systName); reflexivity.
    + rewrite Integral_Scale.
      change (Integral (Clone (highName +:+ "Norm") hh)) with (Integral hh).
      field. split; assumption.
    + rewrite Integral_Scale.
      change (Integral (Clone (lowName +:+ "Norm") hl)) with (Integral hl).
      field. split; assumption.
  - intros Hzero.
    assert (Ez : Qeq_bool (Integral hn) 0 || Qeq_bool (Integral hl) 0
                 || Qeq_bool (Integral hh) 0 = true).
    { destruct Hzero as [E | [E | E]]; apply Qeq_bool_iff in E; rewrite E;
        rewrite ?orb_true_r; reflexivity. }
    erewrite Start.
    2:{ unfold addHistoSys_case2. rewrite Hsym.
        unfold append_histoSys, try_ZeroDivisionError, try_AttributeError. run_proc.
        rewrite (integral_of_run _ _ _ Hn). run_proc.
        rewrite (integral_of_run _ _ _ Hl). run_proc.
        rewrite (integral_of_run _ _ _ Hh). run_proc.
        rewrite Ez. run_proc. reflexivity. }
    unfold histoSys_entry. reflexivity.
Qed.

(** Integrals 100, 120 and 85: the copies have the integral 100, and the
    overall systematic holds the ratios [120/100] and [85/100]. *)
Lemma addHistoSys_case2_example :
  let w := world_with [("hNom", [60; 40]); ("hHigh", [70; 50]); ("hLow", [50; 35])] in
  let outcome :=
    @addHistoSys "JES" "hNom" "hHigh" "hLow" false "" "" "" false unit true false false w in
  fst outcome = Normal tt
  /\ fst (@getOverallSys unit "JES" (snd outcome))
     = Normal (Some ("JES", Integral (hist_of_bins "hHigh" [70; 50])
                            / Integral (hist_of_bins "hNom" [60; 40]),
                     Integral (hist_of_bins "hLow" [50; 35])
                     / Integral (hist_of_bins "hNom" [60; 40])))
  /\ Integral (Scale (1.0 / (Integral (hist_of_bins "hHigh" [70; 50])
                             / Integral (hist_of_bins "hNom" [60; 40])))
                 (Clone "hHighNorm" (hist_of_bins "hHigh" [70; 50])))
     == Integral (hist_of_bins "hNom" [60; 40]).
Proof.
  cbv zeta.
  assert (Hlh : "hLow" <> "hHigh" +:+ "Norm") by discriminate.
  assert (Hnn : "hHigh" +:+ "Norm" <> "hLow" +:+ "Norm") by discriminate.
  pose proof (@addHistoSys_case2_splits unit "JES" "hNom" "hHigh" "hLow" "" "" ""
                false false false
                (world_with [("hNom", [60; 40]); ("hHigh", [70; 50]); ("hLow", [50; 35])])
                (cfg_with [("hNom", [60; 40]); ("hHigh", [70; 50]); ("hLow", [50; 35])])
                (hist_of_bins "hNom" [60; 40]) (hist_of_bins "hHigh" [70; 50])
                (hist_of_bins "hLow" [50; 35])
                eq_refl eq_refl (or_introl eq_refl) eq_refl eq_refl eq_refl Hlh Hnn) as H.
  cbv zeta in H. destruct H as [H _].
  assert (Hn0 : ~ Integral (hist_of_bins "hNom" [60; 40]) == 0)
    by (intros E; vm_compute in E; discriminate E).
  assert (Hh0 : ~ Integral (hist_of_bins "hHigh" [70; 50]) == 0)
    by (intros E; vm_compute in E; discriminate E).
  assert (Hl0 : ~ Integral (hist_of_bins "hLow" [50; 35]) == 0)
    by (intros E; vm_compute in E; discriminate E).
  destruct (H Hn0 Hh0 Hl0) as (H1 & H2 & _).
  rewrite H1. cbn [fst snd].
  split; [reflexivity|]. split; [|exact H2].
  vm_compute. reflexivity.
Defined.

(** ** [addShapeSys] *)

Lemma append_inj_l (s t u : string) : s +:+ u = t +:+ u -> s = t.
Proof.
  intros E.
  assert (Hlen : String.length s = String.length t).
  { apply (f_equal String.length) in E. rewrite !length_append in E. lia. }
  revert t E Hlen. induction s as [|a s IH]; intros [|b t] E Hlen;
    try discriminate Hlen; [reflexivity|].
  change (String a (s +:+ u) = String b (t +:+ u)) in E.
  injection E as -> E. f_equal. apply IH; [exact E|].
  cbn [String.length] in Hlen. lia.
Qed.

(** Distinct bins written with values that depend on the index and on
    the former content of the bin. *)
Lemma local_bins_content (g : nat -> Q -> Q) (e : Q) (bins : list nat) (h : Hist) (j : nat) :
  NoDup bins ->
  GetBinContent
    (fold_left (fun h i => SetBinError i e (SetBinContent i (g i (GetBinContent h i)) h))
       bins h) j
  = if bool_decide (j ∈ bins) && bool_decide (j < length (fArray h))%nat
    then g j (GetBinContent h j) else GetBinContent h j.
Proof.
  revert h. induction bins as [|b bins IH]; intros h Hnd; cbn [fold_left].
  - rewrite bool_decide_eq_false_2 by (rewrite elem_of_nil; tauto). reflexivity.
  - apply NoDup_cons in Hnd. destruct Hnd as [Hb Hnd].
    rewrite (IH _ Hnd). cbn [fArray SetBinError]. rewrite SetBinContent_length.
    rewrite !SetBinError_content.
    destruct (decide (j = b)) as [->|Hne].
    + rewrite (bool_decide_eq_true_2 (b ∈ b :: bins)) by apply list_elem_of_here.
      rewrite (bool_decide_eq_false_2 (b ∈ bins)) by exact Hb.
      cbn [andb].
      destruct (bool_decide (b < length (fArray h))%nat) eqn:Eb.
      * apply bool_decide_eq_true_1 in Eb.
        apply GetBinContent_SetBinContent_eq. exact Eb.
      * apply bool_decide_eq_false_1 in Eb.
        unfold GetBinContent, SetBinContent. cbn [fArray].
        rewrite list_insert_ge by lia. reflexivity.
    + rewrite GetBinContent_SetBinContent_ne by congruence.
      assert (Ein : bool_decide (j ∈ b :: bins) = bool_decide (j ∈ bins)).
      { apply bool_decide_ext. rewrite elem_of_cons. tauto. }
      rewrite Ein. reflexivity.
Qed.

Lemma local_bins_error (g : nat -> Q -> Q) (e : Q) (bins : list nat) (h : Hist) (j : nat) :
  fSumw2
    (fold_left (fun h i => SetBinError i e (SetBinContent i (g i (GetBinContent h i)) h))
       bins h) !! j
  = if bool_decide (j ∈ bins) && bool_decide (j < length (fSumw2 h))%nat
    then Some (e * e) else fSumw2 h !! j.
Proof.
  revert h. induction bins as [|b bins IH]; intros h; cbn [fold_left].
  - rewrite bool_decide_eq_false_2 by (rewrite elem_of_nil; tauto). reflexivity.
  - rewrite IH. cbn [fSumw2 SetBinError SetBinContent]. rewrite length_insert.
    destruct (decide (j = b)) as [->|Hne].
    + rewrite (bool_decide_eq_true_2 (b ∈ b :: bins)) by apply list_elem_of_here.
      cbn [andb].
      destruct (bool_decide (b < length (fSumw2 h))%nat) eqn:Eb.
      * apply bool_decide_eq_true_1 in Eb. rewrite andb_true_r.
        destruct (bool_decide (b ∈ bins)); [reflexivity|].
        apply list_lookup_insert_eq. exact Eb.
      * apply bool_decide_eq_false_1 in Eb. rewrite andb_false_r.
        rewrite list_insert_ge by lia. reflexivity.
    + rewrite list_lookup_insert_ne by congruence.
      assert (Ein : bool_decide (j ∈ b :: bins) = bool_decide (j ∈ bins)).
      { apply bool_decide_ext. rewrite elem_of_cons. tauto. }
      rewrite Ein. reflexivity.
Qed.

(** One of the two loops of [addShapeSys] that turn a copy into relative
    deviations. *)
Lemma relative_loop (histName nomName : string) (c : ConfigMgr) (hn : Hist)
    (bins : list nat) (h : Hist) :
  nomName <> histName ->
  cfg_hists c !! nomName = Some (Some hn) ->
  @for_ ConfigMgr unit nat bins
    (fun iBin =>
       try_ZeroDivisionError (
         h ← hists_obj histName;
         hn ← hists_obj nomName;
         ratio ← py_div (GetBinContent h iBin) (GetBinContent hn iBin);
         hists_update histName (SetBinContent iBin (fabs (ratio - 1.0)));;
         hists_update histName (SetBinError iBin 0.0))
       (hists_update histName (SetBinContent iBin 0.0);;
        hists_update histName (SetBinError iBin 0.0)))
    (set_hists (<[histName := Some h]> (cfg_hists c)) c)
  = (Normal tt,
     set_hists (<[histName := Some (fold_left (rel_bin hn) bins h)]> (cfg_hists c)) c).
Proof.
  intros Hne Hn.
  set (at_ := fun h => set_hists (<[histName := Some h]> (cfg_hists c)) c).
  assert (Hat : forall h, cfg_hists (at_ h) !! histName = Some (Some h))
    by (intros h0; unfold at_; cbn [cfg_hists set_hists]; apply lookup_insert_eq).
  assert (Hnom : forall h, cfg_hists (at_ h) !! nomName = Some (Some hn)).
  { intros h0. unfold at_. cbn [cfg_hists set_hists].
    rewrite lookup_insert_ne by congruence. exact Hn. }
  assert (Hup : forall (f : Hist -> Hist) h,
            @hists_update unit histName f (at_ h) = (Normal tt, at_ (f h))).
  { intros f h0. rewrite (hists_update_run _ _ _ h0 (Hat h0)).
    unfold at_. cbn [cfg_hists set_hists]. rewrite insert_insert_eq. reflexivity. }
  apply (for_fold_at at_ (rel_bin hn)).
  intros iBin h0. unfold try_ZeroDivisionError.
  rewrite (bind_run _ _ _ _ _ (hists_obj_run histName _ _ (Hat h0))).
  rewrite (bind_run _ _ _ _ _ (hists_obj_run nomName _ _ (Hnom h0))).
  unfold rel_bin, rel_dev.
  destruct (Qeq_bool (GetBinContent hn iBin) 0) eqn:E0.
  - reflect_Q. unfold bind at 1. rewrite (py_div_zero _ _ _ E0).
    rewrite (bind_run _ _ _ _ _ (Hup (SetBinContent iBin 0.0) h0)).
    apply Hup.
  - reflect_Q. rewrite (bind_run _ _ _ _ _ (py_div_run _ _ _ E0)).
    rewrite (bind_run _ _ _ _ _ (Hup (SetBinContent iBin _) h0)).
    rewrite Hup. reflexivity.
Qed.

(** The loop of [addShapeSys] over the nominal copy. *)
Lemma max_loop (histName highHistName lowHistName : string) (c : ConfigMgr)
    (relHigh relLow : Hist) (bins : list nat) (h : Hist) :
  highHistName <> histName -> lowHistName <> histName ->
  cfg_hists c !! highHistName = Some (Some relHigh) ->
  cfg_hists c !! lowHistName = Some (Some relLow) ->
  @for_ ConfigMgr unit nat bins
    (fun iBin =>
       try_ZeroDivisionError (
         hh ← hists_obj highHistName;
         hl ← hists_obj lowHistName;
         hists_update histName
           (SetBinContent iBin (py_max (GetBinContent hh iBin) (GetBinContent hl iBin)));;
         hists_update histName (SetBinError iBin 0.0))
       (hists_update histName (SetBinContent iBin 0.0);;
        hists_update histName (SetBinError iBin 0.0)))
    (set_hists (<[histName := Some h]> (cfg_hists c)) c)
  = (Normal tt,
     set_hists
       (<[histName := Some (fold_left (max_bin relHigh relLow) bins h)]> (cfg_hists c)) c).
Proof.
  intros Hh Hl Eh El.
  set (at_ := fun h => set_hists (<[histName := Some h]> (cfg_hists c)) c).
  assert (Hat : forall h, cfg_hists (at_ h) !! histName = Some (Some h))
    by (intros h0; unfold at_; cbn [cfg_hists set_hists]; apply lookup_insert_eq).
  assert (Hhigh : forall h, cfg_hists (at_ h) !! highHistName = Some (Some relHigh)).
  { intros h0. unfold at_. cbn [cfg_hists set_hists].
    rewrite lookup_insert_ne by congruence. exact Eh. }
  assert (Hlow : forall h, cfg_hists (at_ h) !! lowHistName = Some (Some relLow)).
  { intros h0. unfold at_. cbn [cfg_hists set_hists].
    rewrite lookup_insert_ne by congruence. exact El. }
  assert (Hup : forall (f : Hist -> Hist) h,
            @hists_update unit histName f (at_ h) = (Normal tt, at_ (f h))).
  { intros f h0. rewrite (hists_update_run _ _ _ h0 (Hat h0)).
    unfold at_. cbn [cfg_hists set_hists]. rewrite insert_insert_eq. reflexivity. }
  apply (for_fold_at at_ (max_bin relHigh relLow)).
  intros iBin h0. unfold try_ZeroDivisionError, max_bin.
  rewrite (bind_run _ _ _ _ _ (hists_obj_run highHistName _ _ (Hhigh h0))).
  rewrite (bind_run _ _ _ _ _ (hists_obj_run lowHistName _ _ (Hlow h0))).
  rewrite (bind_run _ _ _ _ _ (Hup (SetBinContent iBin _) h0)).
  rewrite Hup. reflexivity.
Qed.

(** [addShapeSys] as a whole, for three histograms that exist under
    names that do not collide with the names of the copies. *)
Lemma addShapeSys_run {R' : Type}
    (systName nomName highName lowName constraintType : string)
    (c : ConfigMgr) (s : Sample) (hn hh hl : Hist) :
  nomName <> highName -> nomName <> lowName -> highName <> lowName ->
  nomName <> highName +:+ "Norm" -> nomName <> lowName +:+ "Norm" ->
  lowName <> highName +:+ "Norm" ->
  cfg_hists c !! nomName = Some (Some hn) ->
  cfg_hists c !! highName = Some (Some hh) ->
  cfg_hists c !! lowName = Some (Some hl) ->
  let relHigh := relative_hist (highName +:+ "Norm") hn hh in
  let relLow := relative_hist (lowName +:+ "Norm") hn hl in
  @addShapeSys R' systName nomName highName lowName constraintType (mkWorld c s)
  = (Normal tt,
     mkWorld
       (set_hists
          (<[nomName +:+ "Norm" :=
               Some (shapeSys_hist (nomName +:+ "Norm") hn relHigh relLow)]>
             (<[lowName +:+ "Norm" := Some relLow]>
                (<[highName +:+ "Norm" := Some relHigh]> (cfg_hists c)))) c)
       (registered c systName s)).
Proof.
  intros Hnh Hnl Hhl HnH HnL HlH Hn Hh Hl. cbv zeta.
  set (H := highName +:+ "Norm") in *. set (L := lowName +:+ "Norm") in *.
  set (N := nomName +:+ "Norm") in *.
  assert (HL : H <> L) by (intros E; apply append_inj_l in E; contradiction).
  assert (HN : H <> N) by (intros E; apply append_inj_l in E; congruence).
  assert (LN : L <> N) by (intros E; apply append_inj_l in E; congruence).
  assert (nN : nomName <> N) by (intros E; symmetry in E; exact (append_Norm_ne _ E)).
  set (relHigh := relative_hist H hn hh). set (relLow := relative_hist L hn hl).
  set (c3 := set_hists
               (<[N := Some (Clone N hn)]>
                  (<[L := Some (Clone L hl)]>
                     (<[H := Some (Clone H hh)]> (cfg_hists c)))) c).
  set (c4 := set_hists (<[H := Some relHigh]> (cfg_hists c3)) c3).
  set (c5 := set_hists (<[L := Some relLow]> (cfg_hists c4)) c4).
  set (c6 := set_hists
               (<[N := Some (shapeSys_hist N hn relHigh relLow)]> (cfg_hists c5)) c5).
  assert (E3H : cfg_hists c3 !! H = Some (Some (Clone H hh))).
  { unfold c3. cbn [cfg_hists set_hists].
    rewrite !lookup_insert_ne by congruence. apply lookup_insert_eq. }
  assert (E3n : cfg_hists c3 !! nomName = Some (Some hn)).
  { unfold c3. cbn [cfg_hists set_hists].
    rewrite !lookup_insert_ne by congruence. exact Hn. }
  assert (E4L : cfg_hists c4 !! L = Some (Some (Clone L hl))).
  { unfold c4, c3. cbn [cfg_hists set_hists].
    rewrite !(lookup_insert_ne _ H) by congruence.
    rewrite lookup_insert_ne by congruence. apply lookup_insert_eq. }
  assert (E4n : cfg_hists c4 !! nomName = Some (Some hn)).
  { unfold c4. cbn [cfg_hists set_hists].
    rewrite lookup_insert_ne by congruence. exact E3n. }
  assert (E5N : cfg_hists c5 !! N = Some (Some (Clone N hn))).
  { unfold c5, c4, c3. cbn [cfg_hists set_hists].
    rewrite !lookup_insert_ne by congruence. apply lookup_insert_eq. }
  assert (E5H : cfg_hists c5 !! H = Some (Some relHigh)).
  { unfold c5, c4. cbn [cfg_hists set_hists].
    rewrite lookup_insert_ne by congruence. apply lookup_insert_eq. }
  assert (E5L : cfg_hists c5 !! L = Some (Some relLow)).
  { unfold c5. cbn [cfg_hists set_hists]. apply lookup_insert_eq. }
  assert (Eid : forall (cx : ConfigMgr) k h,
            cfg_hists cx !! k = Some (Some h) ->
            set_hists (<[k := Some h]> (cfg_hists cx)) cx = cx).
  { intros cx k h E. rewrite (insert_id _ _ _ E). destruct cx. reflexivity. }
  assert (Run : fst (@addShapeSys R' systName nomName highName lowName constraintType
                       (mkWorld c s)) = Normal tt
                /\ snd (@addShapeSys R' systName nomName highName lowName constraintType
                          (mkWorld c s)) = mkWorld c6 (registered c systName s)).
  { unfold addShapeSys, call. cbv zeta. fold H L N.
    rewrite (bind_run _ _ (mkWorld c s)
               (mkWorld (set_hists (<[H := Some (Clone H hh)]> (cfg_hists c)) c) s) tt)
      by (unfold liftC; cbn [configMgr self]; rewrite (clone_as_run _ _ _ _ Hh);
          reflexivity).
    rewrite (bind_run _ _ _
               (mkWorld
                  (set_hists
                     (<[L := Some (Clone L hl)]>
                        (<[H := Some (Clone H hh)]> (cfg_hists c))) c) s) tt).
    2:{ unfold liftC. cbn [configMgr self].
        rewrite (clone_as_run L lowName _ hl)
          by (cbn [cfg_hists set_hists]; rewrite lookup_insert_ne by congruence; exact Hl).
        reflexivity. }
    rewrite (bind_run _ _ _ (mkWorld c3 s) tt).
    2:{ unfold liftC. cbn [configMgr self].
        rewrite (clone_as_run N nomName _ hn)
          by (cbn [cfg_hists set_hists]; rewrite !lookup_insert_ne by congruence; exact Hn).
        reflexivity. }
    rewrite (bind_run _ _ (mkWorld c3 s) (mkWorld c4 s) tt).
    2:{ unfold liftC. cbn [configMgr self].
        rewrite (bind_run _ _ _ _ _ (hists_obj_run H _ _ E3H)).
        rewrite <- (Eid c3 H _ E3H) at 1.
        rewrite (relative_loop H nomName c3 hn _ (Clone H hh) ltac:(congruence) E3n).
        reflexivity. }
    rewrite (bind_run _ _ (mkWorld c4 s) (mkWorld c5 s) tt).
    2:{ unfold liftC. cbn [configMgr self].
        rewrite (bind_run _ _ _ _ _ (hists_obj_run L _ _ E4L)).
        rewrite <- (Eid c4 L _ E4L) at 1.
        rewrite (relative_loop L nomName c4 hn _ (Clone L hl) ltac:(congruence) E4n).
        reflexivity. }
    rewrite (bind_run _ _ (mkWorld c5 s) (mkWorld c6 s) tt).
    2:{ unfold liftC. cbn [configMgr self].
        rewrite (bind_run _ _ _ _ _ (hists_obj_run N _ _ E5N)).
        rewrite <- (Eid c5 N _ E5N) at 1.
        rewrite (max_loop N H L c5 relHigh relLow _ (Clone N hn) HN LN E5H E5L).
        reflexivity. }
    unfold register_syst, registered. run_proc.
    change (cfg_systDict c6) with (cfg_systDict c).
    destruct (has_key (cfg_systDict c) systName); split; reflexivity. }
  destruct Run as [R1 R2].
  destruct (addShapeSys _ _ _ _ _ _) as [o w']. cbn [fst snd] in R1, R2. subst.
  apply (f_equal (fun w => (@Normal R' unit tt, w))).
  apply (f_equal (fun c' => mkWorld c' (registered c systName s))).
  unfold c6, c5, c4, c3, set_hists.
  cbn [cfg_hists cfg_histCacheFile cfg_nomName cfg_systDict cfg_normList].
  apply (f_equal (fun m => mkConfigMgr m (cfg_histCacheFile c) (cfg_nomName c)
                             (cfg_systDict c) (cfg_normList c))).
  apply map_eq. intros k.
  destruct (decide (k = N)) as [->|HkN]; [rewrite !lookup_insert_eq; reflexivity|].
  rewrite !(lookup_insert_ne _ N) by congruence.
  destruct (decide (k = L)) as [->|HkL]; [rewrite !lookup_insert_eq; reflexivity|].
  rewrite !(lookup_insert_ne _ L) by congruence.
  destruct (decide (k = H)) as [->|HkH]; [rewrite !lookup_insert_eq; reflexivity|].
  rewrite !lookup_insert_ne by congruence. reflexivity.
Qed.

Lemma rel_dev_nonneg (content nominal : Q) : 0 <= rel_dev content nominal.
Proof.
  unfold rel_dev, fabs. destruct (Qeq_bool nominal 0); [lra | apply Qabs_nonneg].
Qed.

(** [addShapeSys] on three histograms of the same binning, under names
    that do not collide with the names of the copies: the call succeeds
    and stores three histograms.  From the underflow to bin [N], the copy
    of the high and of the low histogram hold the relative deviation
    [|content / nominal - 1|] of the bin ([0] where the nominal bin is
    empty) and the copy of the nominal histogram holds the larger of the
    two, which is never negative.  The overflow cell is not visited: in
    the nominal copy it keeps the nominal content, which is no
    deviation. *)
Theorem addShapeSys_bins {R' : Type}
    (systName nomName highName lowName constraintType : string)
    (w : World) (hn hh hl : Hist) :
  nomName <> highName -> nomName <> lowName -> highName <> lowName ->
  nomName <> highName +:+ "Norm" -> nomName <> lowName +:+ "Norm" ->
  lowName <> highName +:+ "Norm" ->
  cfg_hists (configMgr w) !! nomName = Some (Some hn) ->
  cfg_hists (configMgr w) !! highName = Some (Some hh) ->
  cfg_hists (configMgr w) !! lowName = Some (Some hl) ->
  length (fArray hh) = length (fArray hn) ->
  length (fArray hl) = length (fArray hn) ->
  let relHigh := relative_hist (highName +:+ "Norm") hn hh in
  let relLow := relative_hist (lowName +:+ "Norm") hn hl in
  let h := shapeSys_hist (nomName +:+ "Norm") hn relHigh relLow in
  @addShapeSys R' systName nomName highName lowName constraintType w
  = (Normal tt,
     mkWorld
       (set_hists
          (<[nomName +:+ "Norm" := Some h]>
             (<[lowName +:+ "Norm" := Some relLow]>
                (<[highName +:+ "Norm" := Some relHigh]> (cfg_hists (configMgr w)))))
          (configMgr w))
       (registered (configMgr w) systName (self w)))
  /\ (forall i : nat,
        (i <= GetNbinsX hn)%nat -> (i < length (fArray hn))%nat ->
        GetBinContent relHigh i = rel_dev (GetBinContent hh i) (GetBinContent hn i)
        /\ GetBinContent relLow i = rel_dev (GetBinContent hl i) (GetBinContent hn i)
        /\ GetBinContent h i
           = py_max (rel_dev (GetBinContent hh i) (GetBinContent hn i))
                    (rel_dev (GetBinContent hl i) (GetBinContent hn i))
        /\ 0 <= GetBinContent h i)
  /\ GetBinContent h (GetNbinsX hn + 1) = GetBinContent hn (GetNbinsX hn + 1).
Proof.
  intros Hnh Hnl Hhl HnH HnL HlH Hn Hh Hl Lh Ll. cbv zeta.
  destruct w as [c s]. cbn [configMgr self] in *.
  split; [apply addShapeSys_run; assumption|].
  assert (Rel : forall histName h0 i,
            length (fArray h0) = length (fArray hn) ->
            (i <= GetNbinsX hn)%nat -> (i < length (fArray hn))%nat ->
            GetBinContent (relative_hist histName hn h0) i
            = rel_dev (GetBinContent h0 i) (GetBinContent hn i)).
  { intros histName h0 i Hlen Hi Hlt. unfold relative_hist.
    change (rel_bin hn)
      with (fun h i =>
              SetBinError i 0.0
                (SetBinContent i
                   ((fun j x => rel_dev x (GetBinContent hn j)) i (GetBinContent h i)) h)).
    rewrite (local_bins_content (fun j x => rel_dev x (GetBinContent hn j)) 0.0)
      by apply NoDup_seq.
    rewrite bool_decide_eq_true_2.
    - rewrite bool_decide_eq_true_2 by (cbn [Clone fArray]; lia). reflexivity.
    - unfold xrange, GetNbinsX in *. cbn [Clone fArray]. apply elem_of_seq. lia. }
  assert (Max : forall i,
            (i <= GetNbinsX hn)%nat -> (i < length (fArray hn))%nat ->
            GetBinContent
              (shapeSys_hist (nomName +:+ "Norm") hn
                 (relative_hist (highName +:+ "Norm") hn hh)
                 (relative_hist (lowName +:+ "Norm") hn hl)) i
            = py_max (rel_dev (GetBinContent hh i) (GetBinContent hn i))
                     (rel_dev (GetBinContent hl i) (GetBinContent hn i))).
  { intros i Hi Hlt. unfold shapeSys_hist, max_bin.
    rewrite (set_bins_content
               (fun i => py_max
                           (GetBinContent (relative_hist (highName +:+ "Norm") hn hh) i)
                           (GetBinContent (relative_hist (lowName +:+ "Norm") hn hl) i))
               (fun _ => 0.0)).
    rewrite bool_decide_eq_true_2
      by (unfold xrange, GetNbinsX in *; cbn [Clone fArray]; apply elem_of_seq; lia).
    rewrite bool_decide_eq_true_2 by (cbn [Clone fArray]; lia).
    cbn [andb]. rewrite !Rel by assumption. reflexivity. }
  split.
  - intros i Hi Hlt. rewrite !Rel by assumption. rewrite (Max i Hi Hlt).
    repeat split.
    unfold py_max. destruct (Qltb _ _); apply rel_dev_nonneg.
  - unfold shapeSys_hist, max_bin.
    rewrite (set_bins_content
               (fun i => py_max
                           (GetBinContent (relative_hist (highName +:+ "Norm") hn hh) i)
                           (GetBinContent (relative_hist (lowName +:+ "Norm") hn hl) i))
               (fun _ => 0.0)).
    rewrite bool_decide_eq_false_2
      by (unfold xrange, GetNbinsX; cbn [Clone fArray]; rewrite elem_of_seq; lia).
    reflexivity.
Qed.

(** Nominal [10, 0], high [12, 3] and low [9, 1]: the deviations of the
    first bin are [0.2] and [0.1], those of the empty second bin are
    [0]. *)
Lemma addShapeSys_bins_example :
  let w := world_with [("hNom", [10; 0]); ("hHigh", [12; 3]); ("hLow", [9; 1])] in
  let hn := hist_of_bins "hNom" [10; 0] in
  let relHigh := relative_hist "hHighNorm" hn (hist_of_bins "hHigh" [12; 3]) in
  let relLow := relative_hist "hLowNorm" hn (hist_of_bins "hLow" [9; 1]) in
  let h := shapeSys_hist "hNomNorm" hn relHigh relLow in
  fst (@addShapeSys unit "JES" "hNom" "hHigh" "hLow" "Gaussian" w) = Normal tt
  /\ GetBinContent h 1 == 0.2
  /\ GetBinContent h 2 == 0.
Proof.
  cbv zeta.
  assert (Hnh : "hNom" <> "hHigh") by discriminate.
  assert (Hnl : "hNom" <> "hLow") by discriminate.
  assert (Hhl : "hHigh" <> "hLow") by discriminate.
  assert (HnH : "hNom" <> "hHigh" +:+ "Norm") by discriminate.
  assert (HnL : "hNom" <> "hLow" +:+ "Norm") by discriminate.
  assert (HlH : "hLow" <> "hHigh" +:+ "Norm") by discriminate.
  destruct (@addShapeSys_bins unit "JES" "hNom" "hHigh" "hLow" "Gaussian"
              (world_with [("hNom", [10; 0]); ("hHigh", [12; 3]); ("hLow", [9; 1])])
              (hist_of_bins "hNom" [10; 0]) (hist_of_bins "hHigh" [12; 3])
              (hist_of_bins "hLow" [9; 1])
              Hnh Hnl Hhl HnH HnL HlH eq_refl eq_refl eq_refl eq_refl eq_refl)
    as (H1 & _ & _).
  split; [rewrite H1; reflexivity|].
  split; vm_compute; reflexivity.
Defined.
